(** * Model-catalog resolution: a shallow embedding of
      [shared/aiModels.ts] and [electron/ModelFetchService.ts].

    Strings are Rocq strings, read as sequences of code units below 256.
    Token limits are integers ([Z]); prices are rationals ([Q]), of which
    the code only copies values and tests [=== 0].  A JS object that is
    only looked up under fixed keys is a [gmap]; the per-provider model
    table, whose enumeration order feeds a sort, is an association list in
    key order.  The lookup of a model id in that table follows the
    prototype chain: it finds an entry of the table, else a member that
    every object inherits from [Object.prototype], else nothing.  An
    expression that can throw returns a [Completion].  An optional field
    is an [option].

    The service is a state machine over its two fields.  A method takes
    the answers of the outside world (clock readings, HTTP responses) as
    an argument and returns its value, the new fields and the trace of
    the requests it sent and the lines it wrote to the console.  The
    collation behind [localeCompare] is a parameter. *)

From Stdlib Require Import ZArith QArith Lia Bool Ascii String List Sorted.
From stdpp Require Import base option list gmap strings pretty.

Open Scope string_scope.
Open Scope Z_scope.

(** ** JavaScript primitives used by the two modules *)

Module Js.

(** White space removed by [String.prototype.trim], among the code units
    below 256: TAB, LF, VT, FF, CR, SPACE and NBSP. *)
Definition is_space (c : ascii) : bool :=
  let n := nat_of_ascii c in
  ((9 <=? n)%nat && (n <=? 13)%nat) || (n =? 32)%nat || (n =? 160)%nat.

Fixpoint drop_space (l : list ascii) : list ascii :=
  match l with
  | c :: l' => if is_space c then drop_space l' else l
  | [] => []
  end.

(** [s.trim()] *)
Definition trim (s : string) : string :=
  string_of_list_ascii
    (rev (drop_space (rev (drop_space (list_ascii_of_string s))))).

(** Truthiness of a string: every string but the empty one. *)
Definition truthy (s : string) : bool :=
  match s with EmptyString => false | String _ _ => true end.

(** [s.startsWith(p)] *)
Definition startsWith (s p : string) : bool := String.prefix p s.

(** [s.includes(sub)] on strings *)
Fixpoint includes (s sub : string) : bool :=
  String.prefix sub s ||
  match s with
  | EmptyString => false
  | String _ s' => includes s' sub
  end.

(** [arr.includes(x)] on arrays of strings *)
Definition arr_includes (arr : list string) (x : string) : bool :=
  existsb (String.eqb x) arr.

(** [a || b] on numbers that may be missing: [0] and [undefined] are falsy. *)
Definition or_num (a b : option Z) : option Z :=
  match a with
  | Some n => if n =? 0 then b else a
  | None => b
  end.

(** [a || b] on booleans that may be missing. *)
Definition or_flag (a b : option bool) : option bool :=
  match a with
  | Some true => a
  | _ => b
  end.

(** [x | 0]: conversion to a signed 32-bit integer. *)
Definition to_int32 (x : Z) : Z := (x + 2 ^ 31) mod 2 ^ 32 - 2 ^ 31.

(** [x << k] on 32-bit integers. *)
Definition shl32 (x : Z) (k : Z) : Z := to_int32 (Z.shiftl x k).

Definition digit36 (d : Z) : ascii :=
  if d <? 10 then ascii_of_nat (Z.to_nat (48 + d))
  else ascii_of_nat (Z.to_nat (87 + d)).

(** Digits of a non-negative integer in radix 36, most significant first;
    [fuel] bounds the number of digits. *)
Fixpoint digits36 (fuel : nat) (n : Z) (acc : string) : string :=
  match fuel with
  | O => acc
  | S fuel' =>
      let acc' := String (digit36 (n mod 36)) acc in
      if n / 36 =? 0 then acc' else digits36 fuel' (n / 36) acc'
  end.

(** [n.toString(36)] for a 32-bit integer [n] (at most 7 digits). *)
Definition toString36 (n : Z) : string :=
  if n <? 0 then String "-" (digits36 7 (- n) "") else digits36 7 n "".

(** [c.toLowerCase()] on a code unit below 256: the letters A-Z and the
    capital letters of Latin-1 (all of 192..222 but the sign 215). *)
Definition lower_char (c : ascii) : ascii :=
  let n := nat_of_ascii c in
  if ((65 <=? n)%nat && (n <=? 90)%nat)
     || ((192 <=? n)%nat && (n <=? 222)%nat && negb (n =? 215)%nat)
  then ascii_of_nat (n + 32) else c.

(** [s.toLowerCase()] *)
Fixpoint toLowerCase (s : string) : string :=
  match s with
  | EmptyString => EmptyString
  | String c s' => String (lower_char c) (toLowerCase s')
  end.

(** [s.split(sep)] for a separator of one code unit. *)
Fixpoint split_char (sep : ascii) (s : string) : list string :=
  match s with
  | EmptyString => [EmptyString]
  | String c s' =>
      match split_char sep s' with
      | seg :: rest =>
          if Ascii.eqb c sep then EmptyString :: seg :: rest
          else String c seg :: rest
      | [] => [String c EmptyString]
      end
  end.

(** [arr.pop()!] on an array of strings: its last element. *)
Definition pop (arr : list string) : string := List.last arr EmptyString.

(** [s.replace(/\/$/, "")]: one slash less at the end, when there is one. *)
Definition strip_trailing_slash (s : string) : string :=
  match rev (list_ascii_of_string s) with
  | c :: r =>
      if Ascii.eqb c "/" then string_of_list_ascii (rev r) else s
  | [] => s
  end.

End Js.

(** ** [shared/aiModels.ts] *)

Module AiModels.

Inductive APIProvider : Set :=
  | openai | gemini | anthropic | azure_openai | openrouter.

#[global] Instance APIProvider_eq_dec : EqDecision APIProvider.
Proof. solve_decision. Defined.

(** The string a provider value is at run time. *)
Definition provider_tag (p : APIProvider) : string :=
  match p with
  | openai => "openai"
  | gemini => "gemini"
  | anthropic => "anthropic"
  | azure_openai => "azure-openai"
  | openrouter => "openrouter"
  end.

Inductive ModelCategoryKey : Set :=
  | extractionModel | solutionModel | debuggingModel | answerModel.

Definition category_tag (c : ModelCategoryKey) : string :=
  match c with
  | extractionModel => "extractionModel"
  | solutionModel => "solutionModel"
  | debuggingModel => "debuggingModel"
  | answerModel => "answerModel"
  end.

Record ModelPricing : Type := {
  input : Q;
  output : Q;
  cacheRead : option Q;
  cacheWrite : option Q
}.

Record Capabilities : Type := {
  chat : option bool;
  vision : option bool;
  audio : option bool;
  embedding : option bool
}.

Record FetchedModel : Type := {
  id : string;
  name : string;
  provider : APIProvider;
  pricing : option ModelPricing;
  contextLength : option Z;
  capabilities : option Capabilities
}.

Record DefaultModels : Type := {
  dm_extractionModel : string;
  dm_solutionModel : string;
  dm_debuggingModel : string;
  dm_answerModel : string;
  dm_speechRecognitionModel : option string
}.

Definition DEFAULT_MODELS (p : APIProvider) : DefaultModels :=
  match p with
  | openai =>
      {| dm_extractionModel := "gpt-4o";
         dm_solutionModel := "gpt-4o";
         dm_debuggingModel := "gpt-4o";
         dm_answerModel := "gpt-4o-mini";
         dm_speechRecognitionModel := Some "whisper-1" |}
  | gemini =>
      {| dm_extractionModel := "gemini-3-flash-preview";
         dm_solutionModel := "gemini-3-flash-preview";
         dm_debuggingModel := "gemini-3-flash-preview";
         dm_answerModel := "gemini-3-flash-preview";
         dm_speechRecognitionModel := Some "gemini-3-flash-preview" |}
  | anthropic =>
      {| dm_extractionModel := "claude-3-7-sonnet-20250219";
         dm_solutionModel := "claude-3-7-sonnet-20250219";
         dm_debuggingModel := "claude-3-7-sonnet-20250219";
         dm_answerModel := "claude-3-7-sonnet-20250219";
         dm_speechRecognitionModel := None |}
  | azure_openai =>
      {| dm_extractionModel := "gpt-4o";
         dm_solutionModel := "gpt-4o";
         dm_debuggingModel := "gpt-4o";
         dm_answerModel := "gpt-4o-mini";
         dm_speechRecognitionModel := Some "whisper-1" |}
  | openrouter =>
      {| dm_extractionModel := "openai/gpt-4o";
         dm_solutionModel := "openai/gpt-4o";
         dm_debuggingModel := "openai/gpt-4o";
         dm_answerModel := "openai/gpt-4o-mini";
         dm_speechRecognitionModel := None |}
  end.

(** [DEFAULT_MODELS[provider][category]] *)
Definition default_for (p : APIProvider) (c : ModelCategoryKey) : string :=
  match c with
  | extractionModel => dm_extractionModel (DEFAULT_MODELS p)
  | solutionModel => dm_solutionModel (DEFAULT_MODELS p)
  | debuggingModel => dm_debuggingModel (DEFAULT_MODELS p)
  | answerModel => dm_answerModel (DEFAULT_MODELS p)
  end.

Definition ALLOWED_MODELS (p : APIProvider) : list string :=
  match p with
  | openai => ["gpt-4o"; "gpt-4o-mini"]
  | gemini =>
      ["gemini-3-pro-preview"; "gemini-3-flash-preview";
       "gemini-3-pro-image-preview"; "gemini-1.5-pro"; "gemini-1.5-flash";
       "gemini-2.0-flash-exp"]
  | anthropic =>
      ["claude-3-7-sonnet-20250219"; "claude-3-5-sonnet-20241022";
       "claude-3-opus-20240229"]
  | azure_openai => ["gpt-4o"; "gpt-4o-mini"; "gpt-4"; "gpt-35-turbo"]
  | openrouter =>
      ["openai/gpt-4o"; "openai/gpt-4o-mini"; "anthropic/claude-3.5-sonnet";
       "anthropic/claude-3-7-sonnet"; "google/gemini-pro-1.5";
       "google/gemini-flash-1.5"]
  end.

(** The providers for which any non-blank model string is accepted. *)
Definition is_dynamic_provider (p : APIProvider) : bool :=
  match p with
  | azure_openai | openrouter => true
  | _ => false
  end.

Definition invalid_model_warning
    (p : APIProvider) (c : ModelCategoryKey) (model fallback : string) : string :=
  "Invalid " ++ provider_tag p ++ " model specified for " ++ category_tag c
  ++ ": " ++ model ++ ". Using default model: " ++ fallback.

(** [sanitizeModelSelection]: the returned id, together with the warning
    written to the console when the default is substituted. *)
Definition sanitizeModelSelection
    (model : string) (p : APIProvider) (c : ModelCategoryKey)
    (dynamicAllowList : option (list string)) : string * option string :=
  if match dynamicAllowList with
     | Some (x :: l) => Js.arr_includes (x :: l) model
     | _ => false
     end
  then (model, None)
  else if is_dynamic_provider p
          && (Js.truthy model && negb (String.length (Js.trim model) =? 0)%nat)
  then (model, None)
  else if Js.arr_includes (ALLOWED_MODELS p) model
  then (model, None)
  else
    let fallback := default_for p c in
    if Js.truthy fallback
    then (fallback, Some (invalid_model_warning p c model fallback))
    else (model, None).

(** The id [sanitizeModelSelection] returns. *)
Definition sanitize
    (model : string) (p : APIProvider) (c : ModelCategoryKey)
    (dynamicAllowList : option (list string)) : string :=
  fst (sanitizeModelSelection model p c dynamicAllowList).

#[global] Instance ModelCategoryKey_eq_dec : EqDecision ModelCategoryKey.
Proof. solve_decision. Defined.

(** *** Static model catalogue of the settings dialog *)

Record AIModel : Type := {
  ai_id : string;
  ai_name : string;
  ai_description : string
}.

Record ModelCategoryDefinition : Type := {
  mc_key : ModelCategoryKey;
  mc_title : string;
  mc_description : string;
  modelsByProvider : APIProvider -> list AIModel
}.

Definition extractionModel_category : ModelCategoryDefinition :=
  {| mc_key := extractionModel;
     mc_title := "Problem Extraction";
     mc_description :=
       "Model used to analyze screenshots and extract problem details";
     modelsByProvider := fun p =>
       match p with
       | openai =>
           [{| ai_id := "gpt-4o"; ai_name := "gpt-4o";
               ai_description :=
                 "Best overall performance for problem extraction" |};
            {| ai_id := "gpt-4o-mini"; ai_name := "gpt-4o-mini";
               ai_description :=
                 "Faster, more cost-effective option" |}]
       | gemini =>
           [{| ai_id := "gemini-3-pro-preview"; ai_name := "Gemini 3 Pro (Preview)";
               ai_description :=
                 "Best overall performance for complex tasks requiring advanced reasoning" |};
            {| ai_id := "gemini-3-flash-preview"; ai_name := "Gemini 3 Flash (Preview)";
               ai_description :=
                 "Pro-level intelligence at Flash speed and pricing" |};
            {| ai_id := "gemini-1.5-pro"; ai_name := "Gemini 1.5 Pro";
               ai_description :=
                 "Legacy model - use Gemini 3 for best results" |};
            {| ai_id := "gemini-1.5-flash"; ai_name := "Gemini 1.5 Flash";
               ai_description :=
                 "Legacy model - use Gemini 3 Flash for best results" |}]
       | anthropic =>
           [{| ai_id := "claude-3-7-sonnet-20250219"; ai_name := "Claude 3.7 Sonnet";
               ai_description :=
                 "Best overall performance for problem extraction" |};
            {| ai_id := "claude-3-5-sonnet-20241022"; ai_name := "Claude 3.5 Sonnet";
               ai_description :=
                 "Balanced performance and speed" |};
            {| ai_id := "claude-3-opus-20240229"; ai_name := "Claude 3 Opus";
               ai_description :=
                 "Top-level intelligence, fluency, and understanding" |}]
       | azure_openai =>
           [{| ai_id := "gpt-4o"; ai_name := "GPT-4o";
               ai_description :=
                 "Best overall performance (Azure deployment)" |};
            {| ai_id := "gpt-4o-mini"; ai_name := "GPT-4o Mini";
               ai_description :=
                 "Faster, more cost-effective (Azure deployment)" |}]
       | openrouter =>
           [{| ai_id := "openai/gpt-4o"; ai_name := "OpenAI GPT-4o";
               ai_description :=
                 "Best overall performance via OpenRouter" |};
            {| ai_id := "openai/gpt-4o-mini"; ai_name := "OpenAI GPT-4o Mini";
               ai_description :=
                 "Fast and cost-effective via OpenRouter" |};
            {| ai_id := "anthropic/claude-3.5-sonnet"; ai_name := "Claude 3.5 Sonnet";
               ai_description :=
                 "Balanced performance via OpenRouter" |};
            {| ai_id := "google/gemini-pro-1.5"; ai_name := "Gemini 1.5 Pro";
               ai_description :=
                 "Google's flagship via OpenRouter" |}]
       end |}.

Definition solutionModel_category : ModelCategoryDefinition :=
  {| mc_key := solutionModel;
     mc_title := "Solution Generation";
     mc_description :=
       "Model used to generate coding solutions";
     modelsByProvider := fun p =>
       match p with
       | openai =>
           [{| ai_id := "gpt-4o"; ai_name := "gpt-4o";
               ai_description :=
                 "Strong overall performance for coding tasks" |};
            {| ai_id := "gpt-4o-mini"; ai_name := "gpt-4o-mini";
               ai_description :=
                 "Faster, more cost-effective option" |}]
       | gemini =>
           [{| ai_id := "gemini-3-pro-latest"; ai_name := "Gemini 3 Pro (Latest)";
               ai_description :=
                 "Strong overall performance - latest version" |};
            {| ai_id := "gemini-3-flash-latest"; ai_name := "Gemini 3 Flash (Latest)";
               ai_description :=
                 "Faster, more cost-effective - latest version" |};
            {| ai_id := "gemini-3-pro"; ai_name := "Gemini 3 Pro";
               ai_description :=
                 "Stable version" |};
            {| ai_id := "gemini-3-flash"; ai_name := "Gemini 3 Flash";
               ai_description :=
                 "Stable version" |};
            {| ai_id := "gemini-1.5-pro"; ai_name := "Gemini 1.5 Pro";
               ai_description :=
                 "Legacy model - use Gemini 3 for best results" |}]
       | anthropic =>
           [{| ai_id := "claude-3-7-sonnet-20250219"; ai_name := "Claude 3.7 Sonnet";
               ai_description :=
                 "Strong overall performance for coding tasks" |};
            {| ai_id := "claude-3-5-sonnet-20241022"; ai_name := "Claude 3.5 Sonnet";
               ai_description :=
                 "Balanced performance and speed" |};
            {| ai_id := "claude-3-opus-20240229"; ai_name := "Claude 3 Opus";
               ai_description :=
                 "Top-level intelligence, fluency, and understanding" |}]
       | azure_openai =>
           [{| ai_id := "gpt-4o"; ai_name := "GPT-4o";
               ai_description :=
                 "Strong coding performance (Azure deployment)" |};
            {| ai_id := "gpt-4o-mini"; ai_name := "GPT-4o Mini";
               ai_description :=
                 "Faster, more cost-effective (Azure deployment)" |}]
       | openrouter =>
           [{| ai_id := "openai/gpt-4o"; ai_name := "OpenAI GPT-4o";
               ai_description :=
                 "Strong coding performance via OpenRouter" |};
            {| ai_id := "openai/gpt-4o-mini"; ai_name := "OpenAI GPT-4o Mini";
               ai_description :=
                 "Fast and cost-effective via OpenRouter" |};
            {| ai_id := "anthropic/claude-3.5-sonnet"; ai_name := "Claude 3.5 Sonnet";
               ai_description :=
                 "Strong coding via OpenRouter" |};
            {| ai_id := "google/gemini-pro-1.5"; ai_name := "Gemini 1.5 Pro";
               ai_description :=
                 "Google's flagship via OpenRouter" |}]
       end |}.

Definition debuggingModel_category : ModelCategoryDefinition :=
  {| mc_key := debuggingModel;
     mc_title := "Debugging";
     mc_description :=
       "Model used to debug and improve solutions";
     modelsByProvider := fun p =>
       match p with
       | openai =>
           [{| ai_id := "gpt-4o"; ai_name := "gpt-4o";
               ai_description :=
                 "Best for analyzing code and error messages" |};
            {| ai_id := "gpt-4o-mini"; ai_name := "gpt-4o-mini";
               ai_description :=
                 "Faster, more cost-effective option" |}]
       | gemini =>
           [{| ai_id := "gemini-3-pro-latest"; ai_name := "Gemini 3 Pro (Latest)";
               ai_description :=
                 "Best for analyzing code and error messages - latest version" |};
            {| ai_id := "gemini-3-flash-latest"; ai_name := "Gemini 3 Flash (Latest)";
               ai_description :=
                 "Faster, more cost-effective - latest version" |};
            {| ai_id := "gemini-3-pro"; ai_name := "Gemini 3 Pro";
               ai_description :=
                 "Stable version" |};
            {| ai_id := "gemini-3-flash"; ai_name := "Gemini 3 Flash";
               ai_description :=
                 "Stable version" |};
            {| ai_id := "gemini-1.5-pro"; ai_name := "Gemini 1.5 Pro";
               ai_description :=
                 "Legacy model - use Gemini 3 for best results" |}]
       | anthropic =>
           [{| ai_id := "claude-3-7-sonnet-20250219"; ai_name := "Claude 3.7 Sonnet";
               ai_description :=
                 "Best for analyzing code and error messages" |};
            {| ai_id := "claude-3-5-sonnet-20241022"; ai_name := "Claude 3.5 Sonnet";
               ai_description :=
                 "Balanced performance and speed" |};
            {| ai_id := "claude-3-opus-20240229"; ai_name := "Claude 3 Opus";
               ai_description :=
                 "Top-level intelligence, fluency, and understanding" |}]
       | azure_openai =>
           [{| ai_id := "gpt-4o"; ai_name := "GPT-4o";
               ai_description :=
                 "Best for debugging (Azure deployment)" |};
            {| ai_id := "gpt-4o-mini"; ai_name := "GPT-4o Mini";
               ai_description :=
                 "Faster debugging (Azure deployment)" |}]
       | openrouter =>
           [{| ai_id := "openai/gpt-4o"; ai_name := "OpenAI GPT-4o";
               ai_description :=
                 "Best for debugging via OpenRouter" |};
            {| ai_id := "openai/gpt-4o-mini"; ai_name := "OpenAI GPT-4o Mini";
               ai_description :=
                 "Fast debugging via OpenRouter" |};
            {| ai_id := "anthropic/claude-3.5-sonnet"; ai_name := "Claude 3.5 Sonnet";
               ai_description :=
                 "Strong debugging via OpenRouter" |};
            {| ai_id := "google/gemini-pro-1.5"; ai_name := "Gemini 1.5 Pro";
               ai_description :=
                 "Google's flagship via OpenRouter" |}]
       end |}.

Definition answerModel_category : ModelCategoryDefinition :=
  {| mc_key := answerModel;
     mc_title := "Answer Suggestions";
     mc_description :=
       "Model used to generate AI answer suggestions for conversation questions";
     modelsByProvider := fun p =>
       match p with
       | openai =>
           [{| ai_id := "gpt-4o-mini"; ai_name := "gpt-4o-mini";
               ai_description :=
                 "Fast and cost-effective for conversation suggestions" |};
            {| ai_id := "gpt-4o"; ai_name := "gpt-4o";
               ai_description :=
                 "Best overall performance for answer suggestions" |}]
       | gemini =>
           [{| ai_id := "gemini-3-flash-preview"; ai_name := "Gemini 3 Flash (Preview)";
               ai_description :=
                 "Fast and efficient for conversation suggestions" |};
            {| ai_id := "gemini-3-pro-preview"; ai_name := "Gemini 3 Pro (Preview)";
               ai_description :=
                 "Best performance for complex conversation contexts" |};
            {| ai_id := "gemini-1.5-pro"; ai_name := "Gemini 1.5 Pro";
               ai_description :=
                 "Legacy model - use Gemini 3 for best results" |};
            {| ai_id := "gemini-1.5-flash"; ai_name := "Gemini 1.5 Flash";
               ai_description :=
                 "Legacy model - use Gemini 3 Flash for best results" |}]
       | anthropic =>
           [{| ai_id := "claude-3-7-sonnet-20250219"; ai_name := "Claude 3.7 Sonnet";
               ai_description :=
                 "Best overall performance for answer suggestions" |};
            {| ai_id := "claude-3-5-sonnet-20241022"; ai_name := "Claude 3.5 Sonnet";
               ai_description :=
                 "Balanced performance and speed" |};
            {| ai_id := "claude-3-opus-20240229"; ai_name := "Claude 3 Opus";
               ai_description :=
                 "Top-level intelligence, fluency, and understanding" |}]
       | azure_openai =>
           [{| ai_id := "gpt-4o-mini"; ai_name := "GPT-4o Mini";
               ai_description :=
                 "Fast and cost-effective (Azure deployment)" |};
            {| ai_id := "gpt-4o"; ai_name := "GPT-4o";
               ai_description :=
                 "Best performance (Azure deployment)" |}]
       | openrouter =>
           [{| ai_id := "openai/gpt-4o-mini"; ai_name := "OpenAI GPT-4o Mini";
               ai_description :=
                 "Fast and cost-effective via OpenRouter" |};
            {| ai_id := "openai/gpt-4o"; ai_name := "OpenAI GPT-4o";
               ai_description :=
                 "Best performance via OpenRouter" |};
            {| ai_id := "anthropic/claude-3.5-sonnet"; ai_name := "Claude 3.5 Sonnet";
               ai_description :=
                 "Balanced via OpenRouter" |}]
       end |}.
Definition MODEL_CATEGORIES : list ModelCategoryDefinition :=
  [extractionModel_category; solutionModel_category;
   debuggingModel_category; answerModel_category].

Definition DEFAULT_PROVIDER : APIProvider := gemini.

Definition DEFAULT_ANSWER_MODELS (p : APIProvider) : string :=
  match p with
  | openai => "gpt-4o-mini"
  | gemini => "gemini-3-flash-preview"
  | anthropic => "claude-3-7-sonnet-20250219"
  | azure_openai => "gpt-4o-mini"
  | openrouter => "openai/gpt-4o-mini"
  end.

(** *** Parameters of an OpenAI-compatible call *)

Definition NEWER_MODEL_PREFIXES : list string :=
  ["gpt-5"; "o1"; "o3"; "o4"; "gpt-4.1"; "gpt-5.1"; "gpt-5.2"; "gpt-5.3"; "codex"].

Definition isNewerModel (model : string) : bool :=
  let lower := Js.toLowerCase model in
  let modelName :=
    if Js.includes lower "/" then Js.pop (Js.split_char "/" lower) else lower in
  existsb (fun p => Js.startsWith modelName p) NEWER_MODEL_PREFIXES.

(** The object [getTokenLimitParam] returns, as a map from its keys. *)
Definition getTokenLimitParam (model : string) (limit : Q) : gmap string Q :=
  if isNewerModel model then {[ "max_completion_tokens" := limit ]}
  else {[ "max_tokens" := limit ]}.

Record ModelParamOptions : Type := {
  maxTokens : Q;
  temperature : option Q
}.

Definition getModelParams (model : string) (opts : ModelParamOptions) : gmap string Q :=
  let newer := isNewerModel model in
  let params : gmap string Q := ∅ in
  let params :=
    if newer then <["max_completion_tokens" := maxTokens opts]> params
    else <["max_tokens" := maxTokens opts]> params in
  match temperature opts with
  | Some t => if negb newer then <["temperature" := t]> params else params
  | None => params
  end.

(** The ids the settings dialog offers for a category and a provider
    when no model was fetched: [MODEL_CATEGORIES.find(...)] and its
    [modelsByProvider]. *)
Definition offered_models (c : ModelCategoryKey) (p : APIProvider) : list AIModel :=
  match List.find (fun d => String.eqb (category_tag (mc_key d)) (category_tag c))
          MODEL_CATEGORIES with
  | Some d => modelsByProvider d p
  | None => []
  end.

End AiModels.

(** ** [electron/ModelFetchService.ts] *)

Module ModelFetchService.
Import AiModels.

(** *** Arrays and objects *)

(** [arr.sort(cmp)]: the sort is stable, so for a comparator that is a
    total preorder its result is this insertion sort's. *)
Fixpoint sort_insert {A} (cmp : A -> A -> comparison) (x : A) (l : list A) : list A :=
  match l with
  | [] => [x]
  | y :: l' =>
      match cmp x y with
      | Gt => y :: sort_insert cmp x l'
      | _ => x :: l
      end
  end.

Definition sort {A} (cmp : A -> A -> comparison) (l : list A) : list A :=
  foldr (sort_insert cmp) [] l.

(** [x] may come before [y] for the comparator. *)
Definition cmp_le {A} (cmp : A -> A -> comparison) (x y : A) : Prop :=
  cmp x y <> Gt.

(** The own property [key] of an object given by its entries in
    enumeration order. *)
Fixpoint obj_get {A} (obj : list (string * A)) (key : string) : option A :=
  match obj with
  | [] => None
  | (k, v) :: obj' => if String.eqb key k then Some v else obj_get obj' key
  end.

(** [Object.values(obj)] *)
Definition obj_values {A} (obj : list (string * A)) : list A := map snd obj.

(** The names that every object made by [JSON.parse] inherits from
    [Object.prototype]; what they name is a function, or, for
    [__proto__], the prototype itself: truthy, and without any of the
    properties of a catalog entry. *)
Definition Object_prototype_names : list string :=
  ["constructor"; "__defineGetter__"; "__defineSetter__"; "hasOwnProperty";
   "__lookupGetter__"; "__lookupSetter__"; "isPrototypeOf";
   "propertyIsEnumerable"; "toString"; "valueOf"; "__proto__";
   "toLocaleString"].

(** What [obj[key]] finds: an own property, else a member inherited from
    [Object.prototype], else [undefined]. *)
Inductive Property (A : Type) : Type :=
  | Own (value : A)
  | Inherited
  | Undefined.

Arguments Own {A} value.
Arguments Inherited {A}.
Arguments Undefined {A}.

(** [obj[key]] *)
Definition obj_lookup {A} (obj : list (string * A)) (key : string) : Property A :=
  match obj_get obj key with
  | Some v => Own v
  | None => if Js.arr_includes Object_prototype_names key then Inherited else Undefined
  end.

(** How an expression ends: with a value, or with an exception that
    carries a message. *)
Inductive Completion (A : Type) : Type :=
  | Normal (value : A)
  | Thrown (message : string).

Arguments Normal {A} value.
Arguments Thrown {A} message.

(** [arr.map(f)] for a callback that may throw: the first exception ends
    the loop. *)
Fixpoint try_map {A B} (f : A -> Completion B) (l : list A) : Completion (list B) :=
  match l with
  | [] => Normal []
  | x :: l' =>
      match f x with
      | Thrown message => Thrown message
      | Normal y =>
          match try_map f l' with
          | Thrown message => Thrown message
          | Normal ys => Normal (y :: ys)
          end
      end
  end.

(** *** Types *)

(** ["api" | "models.dev" | "static"] *)
Inductive Source : Set := api | models_dev | static.

Record ModelFetchResult : Type := {
  success : bool;
  models : list FetchedModel;
  error : option string;
  cachedAt : option Z;
  source : option Source
}.

Record ModelFetchOptions : Type := {
  endpoint : option string;
  apiVersion : option string;
  forceRefresh : option bool
}.

Record CacheEntry : Type := {
  ce_models : list FetchedModel;
  ce_timestamp : Z;
  ce_source : Source
}.

Record ModelsDevCost : Type := {
  cost_input : Q;
  cost_output : Q;
  cost_cache_read : option Q;
  cost_cache_write : option Q
}.

Record ModelsDevLimit : Type := {
  limit_context : Z;
  limit_output : Z
}.

Record ModelsDevModalities : Type := {
  modalities_input : list string;
  modalities_output : list string
}.

Record ModelsDevModel : Type := {
  md_id : string;
  md_name : string;
  md_family : option string;
  md_cost : ModelsDevCost;
  md_limit : ModelsDevLimit;
  md_modalities : option ModelsDevModalities;
  md_attachment : option bool;
  md_reasoning : option bool;
  md_tool_call : option bool;
  md_status : option string
}.

Record ModelsDevProvider : Type := {
  mp_id : option string;
  mp_name : string;
  mp_models : list (string * ModelsDevModel)
}.

Abbreviation ModelsDevData := (gmap string ModelsDevProvider).

(** The catalog snapshot held in the [modelsDevCache] field. *)
Record ModelsDevCache : Type := {
  data : option ModelsDevData;
  timestamp : Z;
  etag : option string
}.

(** The two mutable fields of a [ModelFetchService] instance. *)
Record Service : Type := {
  cache : gmap string CacheEntry;
  modelsDevCache : ModelsDevCache
}.

(** The instance right after construction. *)
Definition new_service : Service :=
  {| cache := ∅;
     modelsDevCache := {| data := None; timestamp := 0; etag := None |} |}.

Definition CACHE_TTL : Z := 5 * 60 * 1000.
Definition MODELS_DEV_CACHE_TTL : Z := 60 * 60 * 1000.

Definition PROVIDER_TO_MODELS_DEV (p : APIProvider) : string :=
  match p with
  | openai => "openai"
  | gemini => "google"
  | anthropic => "anthropic"
  | azure_openai => "azure"
  | openrouter => ""
  end.

(** *** What a call does to the outside world *)

Inductive Event : Type :=
  | CatalogRequest (if_none_match : option string)
      (* GET https://models.dev/api.json *)
  | ProviderRequest (p : APIProvider)
      (* the listing request of a provider's own API *)
  | ConsoleLog (text : string)
  | ConsoleWarn (text : string)
  | ConsoleError (text : string).

Definition is_network (e : Event) : bool :=
  match e with
  | CatalogRequest _ | ProviderRequest _ => true
  | _ => false
  end.

(** The network calls among the events of a run. *)
Definition network_calls (trace : list Event) : list Event :=
  List.filter is_network trace.

(** A method of the service: it reads and updates the instance and leaves
    a trace of the requests it sent and the lines it logged. *)
Definition M (A : Type) : Type := Service -> A * Service * list Event.

Definition ret {A} (a : A) : M A := fun st => (a, st, []).

Definition bind {A B} (m : M A) (k : A -> M B) : M B :=
  fun st =>
    let '(a, st1, t1) := m st in
    let '(b, st2, t2) := k a st1 in
    (b, st2, t1 ++ t2)%list.

Definition emit (e : Event) : M unit := fun st => (tt, st, [e]).

Definition read {A} (f : Service -> A) : M A := fun st => (f st, st, []).

Definition write (f : Service -> Service) : M unit := fun st => (tt, f st, []).

Notation "'let*' x ':=' m 'in' k" := (bind m (fun x => k))
  (at level 10, x name, m at level 200, k at level 200).
Notation "'run' m 'then' k" := (bind m (fun _ => k))
  (at level 10, m at level 200, k at level 200).

(** What the catalog endpoint answers.  [validateStatus] accepts the two
    statuses 200 and 304; every other status, a timeout and a connection
    error make the request throw. *)
Inductive CatalogResponse : Type :=
  | Http304
  | Http200 (body : ModelsDevData) (etag_header : option string)
  | HttpError (message : string).

(** One possible exchange with the catalog endpoint, with the two clock
    readings [Date.now()] that surround it. *)
Record CatalogExchange : Type := {
  now_at_check : Z;
  response : CatalogResponse;
  now_at_response : Z
}.

(** What a provider's listing endpoint answers: an array of [raw_count]
    entries, of which the provider's fetcher ([fetchOpenAIModels],
    [fetchGeminiModels], ...) keeps, converts and sorts [normalised]; or a
    failure of the request, with the message of the error. *)
Inductive ListingResponse : Type :=
  | Answered (raw_count : nat) (normalised : list FetchedModel)
  | RequestFailed (message : string).

(** How a provider's fetcher ends: with a list, or with an error thrown. *)
Inductive FetchOutcome : Type :=
  | Fetched (listed : list FetchedModel)
  | FetchFailed (message : string).

(** The outside world during one call of [fetchModels]: the clock
    readings of [Date.now()] and the answers of the two endpoints. *)
Record Env : Type := {
  now_at_cache_check : Z;
  catalog : CatalogExchange;
  listing : ListingResponse;
  now_at_cache_set : Z
}.

(** *** The service's methods *)

Section Methods.

(** [a.localeCompare(b)]: the collation of the host's locale, which the
    source does not fix. *)
Variable localeCompare : string -> string -> comparison.

(** [m.modalities?.input?.includes(kind)] *)
Definition modality_includes (m : ModelsDevModel) (kind : string) : option bool :=
  match md_modalities m with
  | Some mo => Some (Js.arr_includes (modalities_input mo) kind)
  | None => None
  end.

(** The pricing object built from a catalog entry's [cost]. *)
Definition pricing_of_cost (c : ModelsDevCost) : ModelPricing :=
  {| input := cost_input c;
     output := cost_output c;
     cacheRead := cost_cache_read c;
     cacheWrite := cost_cache_write c |}.

Definition modelsDevToFetchedModel (m : ModelsDevModel) (p : APIProvider) : FetchedModel :=
  {| id := md_id m;
     name := if Js.truthy (md_name m) then md_name m else md_id m;
     provider := p;
     pricing := Some (pricing_of_cost (md_cost m));
     contextLength := Some (limit_context (md_limit m));
     capabilities :=
       Some {| chat := Some true;
               vision := modality_includes m "image";
               audio := modality_includes m "audio";
               embedding := Some (Js.includes (md_id m) "embedding") |} |}.

(** The predicate of the [filter] in [getModelsFromModelsDev]. *)
Definition catalog_keeps (m : ModelsDevModel) : bool :=
  if match md_status m with
     | Some s => String.eqb s "deprecated"
     | None => false
     end then false
  else if Js.includes (md_id m) "embedding" then false
  else if Js.includes (md_id m) "tts" then false
  else if (limit_output (md_limit m) =? 0) && Qeq_bool (cost_output (md_cost m)) 0
  then false
  else true.

(** The comparator of the [sort] in [getModelsFromModelsDev]. *)
Definition by_name (a b : FetchedModel) : comparison :=
  localeCompare (name a) (name b).

(** The catalog entries of a provider: [data[modelsDevId]], when the data
    is loaded, the provider has a catalog id and the catalog lists it. *)
Definition provider_catalog (c : ModelsDevCache) (p : APIProvider) : option ModelsDevProvider :=
  match data c with
  | None => None
  | Some d =>
      let modelsDevId := PROVIDER_TO_MODELS_DEV p in
      if negb (Js.truthy modelsDevId) then None else d !! modelsDevId
  end.

Definition getModelsFromModelsDev (c : ModelsDevCache) (p : APIProvider) : list FetchedModel :=
  match provider_catalog c p with
  | None => []
  | Some providerData =>
      sort by_name
        (map (fun m => modelsDevToFetchedModel m p)
           (List.filter catalog_keeps (obj_values (mp_models providerData))))
  end.

(** The message of the [TypeError] that [catalogEntry.cost.input] throws
    when [catalogEntry] has no [cost], in the wording of V8. *)
Definition cost_undefined_message : string :=
  "Cannot read properties of undefined (reading 'input')".

(** The object literal of the [map] in [enrichWithModelsDev], built once
    [catalogEntry] is truthy: for an entry of the catalog, or, with [None],
    for a member inherited from [Object.prototype], whose [cost], [limit]
    and [modalities] are undefined. *)
Definition enrich_from (catalogEntry : option ModelsDevModel) (model : FetchedModel) : Completion FetchedModel :=
  match
    match pricing model, catalogEntry with
    | Some pr, _ => Normal pr
    | None, Some e => Normal (pricing_of_cost (md_cost e))
    | None, None => Thrown cost_undefined_message
    end
  with
  | Thrown message => Thrown message
  | Normal pr =>
      Normal
        {| id := id model;
           name := name model;
           provider := provider model;
           pricing := Some pr;
           contextLength :=
             Js.or_num (contextLength model)
               (e ← catalogEntry; Some (limit_context (md_limit e)));
           capabilities :=
             Some {| chat := c ← capabilities model; chat c;
                     vision :=
                       Js.or_flag (c ← capabilities model; vision c)
                         (e ← catalogEntry; modality_includes e "image");
                     audio :=
                       Js.or_flag (c ← capabilities model; audio c)
                         (e ← catalogEntry; modality_includes e "audio");
                     embedding := c ← capabilities model; embedding c |} |}
  end.

(** The body of the [map] in [enrichWithModelsDev]. *)
Definition enrich_model (catalogModels : list (string * ModelsDevModel)) (model : FetchedModel) : Completion FetchedModel :=
  match obj_lookup catalogModels (id model) with
  | Own catalogEntry => enrich_from (Some catalogEntry) model
  | Inherited => enrich_from None model
  | Undefined => Normal model
  end.

(** The models appended by [enrichWithModelsDev]: those of the catalog
    whose id the API did not return. *)
Definition additional_models (c : ModelsDevCache) (apiModels : list FetchedModel) (p : APIProvider) : list FetchedModel :=
  List.filter (fun m => negb (Js.arr_includes (map id apiModels) (id m)))
    (getModelsFromModelsDev c p).

Definition added_models_line (n : nat) (p : APIProvider) : string :=
  "Added " ++ pretty n ++ " models from models.dev catalog for " ++ provider_tag p.

(** [enrichWithModelsDev]: the merged list and the line it logs, or the
    exception that the [map] throws. *)
Definition enrichWithModelsDev (c : ModelsDevCache) (apiModels : list FetchedModel) (p : APIProvider) : Completion (list FetchedModel * list Event) :=
  match provider_catalog c p with
  | None => Normal (apiModels, [])
  | Some providerData =>
      match try_map (enrich_model (mp_models providerData)) apiModels with
      | Thrown message => Thrown message
      | Normal enriched =>
          let additional := additional_models c apiModels p in
          Normal
            ((enriched ++ additional)%list,
             match additional with
             | [] => []
             | _ :: _ => [ConsoleLog (added_models_line (length additional) p)]
             end)
      end
  end.

(** The merged list alone; there is none when the merge throws. *)
Definition enriched_models (c : ModelsDevCache) (apiModels : list FetchedModel) (p : APIProvider) : list FetchedModel :=
  match enrichWithModelsDev c apiModels p with
  | Normal (ms, _) => ms
  | Thrown _ => []
  end.

Definition getStaticFallbackModels (p : APIProvider) : list FetchedModel :=
  map (fun i =>
         {| id := i; name := i; provider := p; pricing := None;
            contextLength := None; capabilities := None |})
      (ALLOWED_MODELS p).

Definition hashKey (key : string) : string :=
  Js.toString36
    (fold_left
       (fun hash ch =>
          Js.to_int32 (Js.shl32 hash 5 - hash + Z.of_nat (nat_of_ascii ch)))
       (list_ascii_of_string key) 0).

Definition cacheKey (p : APIProvider) (apiKey : string) : string :=
  provider_tag p ++ ":" ++ hashKey apiKey.

(** [!apiKey || apiKey.trim().length === 0] *)
Definition no_api_key (apiKey : string) : bool :=
  negb (Js.truthy apiKey) || (String.length (Js.trim apiKey) =? 0)%nat.

(** The test that lets [ensureModelsDevData] return at once. *)
Definition catalog_fresh (c : ModelsDevCache) (now : Z) : bool :=
  match data c with
  | Some _ => now - timestamp c <? MODELS_DEV_CACHE_TTL
  | None => false
  end.

(** The [If-None-Match] header of the catalog request. *)
Definition if_none_match (c : ModelsDevCache) : option string :=
  match etag c with
  | Some e => if Js.truthy e then Some e else None
  | None => None
  end.

(** [response.headers?.etag || null] *)
Definition etag_of_header (h : option string) : option string :=
  match h with
  | Some e => if Js.truthy e then Some e else None
  | None => None
  end.

Definition catalog_loaded_line (body : ModelsDevData) : string :=
  "models.dev catalog loaded: " ++ pretty (size body) ++ " providers".

Definition catalog_failed_line (message : string) : string :=
  "Failed to fetch models.dev catalog: " ++ message.

Definition set_modelsDevCache (c : ModelsDevCache) (st : Service) : Service :=
  {| cache := cache st; modelsDevCache := c |}.

(** [ensureModelsDevData] up to the [await] of its request: whether a
    request was sent. *)
Definition modelsDevRequest (x : CatalogExchange) : M bool :=
  let* c := read modelsDevCache in
  if catalog_fresh c (now_at_check x) then ret false
  else
    run emit (CatalogRequest (if_none_match c)) then
    ret true.

(** [ensureModelsDevData] from the answer of a pending request on. *)
Definition modelsDevSettle (x : CatalogExchange) (pending : bool) : M unit :=
  if pending then
    let* c := read modelsDevCache in
    match response x with
    | Http304 =>
        write (set_modelsDevCache
                 {| data := data c; timestamp := now_at_response x; etag := etag c |})
    | Http200 body etag_header =>
        run write (set_modelsDevCache
                     {| data := Some body;
                        timestamp := now_at_response x;
                        etag := etag_of_header etag_header |}) then
        emit (ConsoleLog (catalog_loaded_line body))
    | HttpError message =>
        emit (ConsoleWarn (catalog_failed_line message))
    end
  else ret tt.

Definition ensureModelsDevData (x : CatalogExchange) : M unit :=
  let* pending := modelsDevRequest x in
  modelsDevSettle x pending.

(** The four fetchers that send one listing request and return what they
    made of the answer. *)
Definition fetchListedModels (p : APIProvider) (l : ListingResponse) : M FetchOutcome :=
  run emit (ProviderRequest p) then
  match l with
  | Answered _ listed => ret (Fetched listed)
  | RequestFailed message => ret (FetchFailed message)
  end.

Definition fetchAzureModels (endpoint : option string) (l : ListingResponse) : M FetchOutcome :=
  if match endpoint with Some e => Js.truthy e | None => false end
  then
    run emit (ProviderRequest azure_openai) then
    match l with
    | Answered (S _) listed => ret (Fetched listed)
    | Answered O _ =>
        ret (FetchFailed "Azure models list not available, falling back to catalog")
    | RequestFailed message =>
        run emit (ConsoleWarn ("Azure models list endpoint not available: " ++ message)) then
        ret (FetchFailed "Azure models list not available, falling back to catalog")
    end
  else ret (FetchFailed "Azure OpenAI requires an endpoint URL").

(** The [switch] of [fetchModels]. *)
Definition fetchProviderModels (p : APIProvider) (options : option ModelFetchOptions) (l : ListingResponse) : M FetchOutcome :=
  match p with
  | azure_openai => fetchAzureModels (o ← options; endpoint o) l
  | _ => fetchListedModels p l
  end.

(** [this.cache.get(cacheKey)], kept when the entry is younger than the TTL. *)
Definition fresh_entry (st : Service) (key : string) (now : Z) : option CacheEntry :=
  match cache st !! key with
  | Some cached =>
      if now - ce_timestamp cached <? CACHE_TTL then Some cached else None
  | None => None
  end.

(** [!options?.forceRefresh] *)
Definition not_forced (options : option ModelFetchOptions) : bool :=
  match o ← options; forceRefresh o with
  | Some true => false
  | _ => true
  end.

(** The entry that the test "fresh and not forced" lets [fetchModels]
    return. *)
Definition cache_hit (st : Service) (options : option ModelFetchOptions) (key : string) (now : Z) : option CacheEntry :=
  if not_forced options then fresh_entry st key now else None.

Definition api_failed_line (p : APIProvider) (message : string) : string :=
  "Provider API failed for " ++ provider_tag p ++ ": " ++ message
  ++ ". Falling back to models.dev".

Definition cache_set (key : string) (e : CacheEntry) (st : Service) : Service :=
  {| cache := <[key := e]> (cache st); modelsDevCache := modelsDevCache st |}.

Definition fetch_failed_line (p : APIProvider) (message : string) : string :=
  "Failed to fetch models for " ++ provider_tag p ++ ": " ++ message.

(** [fetchModels].  The refresh of the catalog is started before the
    provider's request and its answer is taken up where the call awaits
    it: after the provider's fetcher has ended, and after the warning of a
    failed fetch.  A successful openrouter fetch never awaits the refresh;
    the state returned is the one reached once it has settled. *)
Definition fetchModels (p : APIProvider) (apiKey : string) (options : option ModelFetchOptions) (env : Env) : M ModelFetchResult :=
  if no_api_key apiKey then
    run ensureModelsDevData (catalog env) then
    let* catalogModels := read (fun st => getModelsFromModelsDev (modelsDevCache st) p) in
    match catalogModels with
    | _ :: _ =>
        ret {| success := true; models := catalogModels; error := None;
               cachedAt := None; source := Some models_dev |}
    | [] =>
        ret {| success := false; models := getStaticFallbackModels p;
               error := Some "API key is required";
               cachedAt := None; source := Some static |}
    end
  else
    let key := cacheKey p apiKey in
    let* hit := read (fun st => cache_hit st options key (now_at_cache_check env)) in
    match hit with
    | Some cached =>
        ret {| success := true; models := ce_models cached; error := None;
               cachedAt := Some (ce_timestamp cached);
               source := Some (ce_source cached) |}
    | None =>
        let* pending := modelsDevRequest (catalog env) in
        let* outcome := fetchProviderModels p options (listing env) in
        let* found :=
          match outcome with
          | Fetched listed =>
              run modelsDevSettle (catalog env) pending then
              ret (listed, api)
          | FetchFailed message =>
              run emit (ConsoleWarn (api_failed_line p message)) then
              run modelsDevSettle (catalog env) pending then
              let* catalogModels :=
                read (fun st => getModelsFromModelsDev (modelsDevCache st) p) in
              match catalogModels with
              | _ :: _ => ret (catalogModels, models_dev)
              | [] => ret (getStaticFallbackModels p, static)
              end
          end in
        let* merged :=
          match p with
          | openrouter => ret (Normal (fst found))
          | _ =>
              let* c := read modelsDevCache in
              match enrichWithModelsDev c (fst found) p with
              | Normal (ms, logged) => fun st => (Normal ms, st, logged)
              | Thrown message => ret (Thrown message)
              end
          end in
        match merged with
        | Normal ms =>
            run write (cache_set key
                         {| ce_models := ms;
                            ce_timestamp := now_at_cache_set env;
                            ce_source := snd found |}) then
            ret {| success := true; models := ms; error := None;
                   cachedAt := None; source := Some (snd found) |}
        | Thrown message =>
            (* the outer [catch] *)
            run emit (ConsoleError (fetch_failed_line p message)) then
            ret {| success := false; models := getStaticFallbackModels p;
                   error :=
                     Some (if Js.truthy message then message
                           else "Failed to fetch models");
                   cachedAt := None; source := Some static |}
        end
    end.

(** [clearCache]: deleting while iterating over a [Map]'s keys visits
    every key, so the loop keeps exactly the keys that fail the test. *)
Definition clearCache (p : option APIProvider) (st : Service) : Service :=
  match p with
  | Some pr =>
      {| cache :=
           filter (fun kv => Js.startsWith (fst kv) (provider_tag pr) = false)
                  (cache st);
         modelsDevCache := modelsDevCache st |}
  | None => {| cache := ∅; modelsDevCache := modelsDevCache st |}
  end.

End Methods.

(** *** Vocabulary of the properties *)

(** The value a method returns, the instance it leaves and the events of
    its run. *)
Definition result_of {A} (m : M A) (st : Service) : A := fst (fst (m st)).
Definition state_after {A} (m : M A) (st : Service) : Service := snd (fst (m st)).
Definition trace_of {A} (m : M A) (st : Service) : list Event := snd (m st).

(** How the provider's fetcher ends on a given answer of the listing
    endpoint; the fetchers do not read the instance. *)
Definition provider_outcome (p : APIProvider) (options : option ModelFetchOptions) (l : ListingResponse) : FetchOutcome :=
  result_of (fetchProviderModels p options l) new_service.

(** The snapshot a call of [fetchModels] works with once the refresh it
    started has settled. *)
Definition refreshed (env : Env) (st : Service) : ModelsDevCache :=
  modelsDevCache (state_after (ensureModelsDevData (catalog env)) st).

(** The request that a refresh of the catalog sends, if any. *)
Definition catalog_requests (c : ModelsDevCache) (now : Z) : list Event :=
  if catalog_fresh c now then [] else [CatalogRequest (if_none_match c)].

(** The lines that a refresh of the catalog logs once its request is
    answered. *)
Definition catalog_lines (c : ModelsDevCache) (x : CatalogExchange) : list Event :=
  if catalog_fresh c (now_at_check x) then []
  else
    match response x with
    | Http304 => []
    | Http200 body _ => [ConsoleLog (catalog_loaded_line body)]
    | HttpError message => [ConsoleWarn (catalog_failed_line message)]
    end.

(** What the tiers of a call yield before the merge: the provider's
    list, else the catalog's, else the static one. *)
Definition tier_found
    (localeCompare : string -> string -> comparison)
    (p : APIProvider) (options : option ModelFetchOptions)
    (env : Env) (st : Service) : list FetchedModel * Source :=
  match provider_outcome p options (listing env) with
  | Fetched listed => (listed, api)
  | FetchFailed _ =>
      match getModelsFromModelsDev localeCompare (refreshed env st) p with
      | [] => (getStaticFallbackModels p, static)
      | (_ :: _) as catalogModels => (catalogModels, models_dev)
      end
  end.

(** The events of a call that asks the provider, up to the merge: the
    request of the refresh, the provider's request and lines, the warning
    of a failed fetch, and the line of the catalog's answer. *)
Definition events_before_merge (p : APIProvider) (options : option ModelFetchOptions) (env : Env) (st : Service) : list Event :=
  (catalog_requests (modelsDevCache st) (now_at_check (catalog env))
   ++ trace_of (fetchProviderModels p options (listing env)) new_service
   ++ match provider_outcome p options (listing env) with
      | Fetched _ => []
      | FetchFailed message => [ConsoleWarn (api_failed_line p message)]
      end
   ++ catalog_lines (modelsDevCache st) (catalog env))%list.

(** The same after the merge with the catalog, which openrouter skips. *)
Definition tier_merged
    (localeCompare : string -> string -> comparison)
    (p : APIProvider) (options : option ModelFetchOptions)
    (env : Env) (st : Service) : list FetchedModel :=
  let found := fst (tier_found localeCompare p options env st) in
  match p with
  | openrouter => found
  | _ => enriched_models localeCompare (refreshed env st) found p
  end.

(** The line that the merge of a call logs, if any. *)
Definition merge_log
    (localeCompare : string -> string -> comparison)
    (c : ModelsDevCache) (ms : list FetchedModel) (p : APIProvider) : list Event :=
  match p with
  | openrouter => []
  | _ =>
      match enrichWithModelsDev localeCompare c ms p with
      | Normal (_, logged) => logged
      | Thrown _ => []
      end
  end.

(** The key is no own property of the model table, and names a member
    that the table inherits from [Object.prototype]. *)
Definition inherited_only (catalogModels : list (string * ModelsDevModel)) (key : string) : bool :=
  negb (existsb (fun kv => String.eqb key (fst kv)) catalogModels)
  && existsb (String.eqb key) Object_prototype_names.

(** Some model of the list has no price while its id names an inherited
    member of the model table. *)
Definition unpriced_inherited (catalogModels : list (string * ModelsDevModel)) (ms : list FetchedModel) : bool :=
  existsb
    (fun m =>
       match pricing m with
       | None => inherited_only catalogModels (id m)
       | Some _ => false
       end)
    ms.

(** The merge of the list with the provider's catalog throws: there is
    such a catalog, and the list has a model without price under an
    inherited name. *)
Definition merge_throws (c : ModelsDevCache) (p : APIProvider) (ms : list FetchedModel) : bool :=
  match provider_catalog c p with
  | Some providerData => unpriced_inherited (mp_models providerData) ms
  | None => false
  end.


(** A call that asks the provider ends in the outer [catch] of
    [fetchModels]: the provider answered with a list whose merge throws. *)
Definition outer_catch_entered (p : APIProvider) (options : option ModelFetchOptions) (env : Env) (st : Service) : bool :=
  match provider_outcome p options (listing env) with
  | Fetched listed => merge_throws (refreshed env st) p listed
  | FetchFailed _ => false
  end.


(** The catalog lists, in the provider's namespace, at least one model
    that the filter of [getModelsFromModelsDev] keeps. *)
Definition catalog_yields (c : ModelsDevCache) (p : APIProvider) : bool :=
  match provider_catalog c p with
  | Some providerData =>
      existsb catalog_keeps (obj_values (mp_models providerData))
  | None => false
  end.





(** The filter of [getModelsFromModelsDev], test by test. *)
Definition is_deprecated (m : ModelsDevModel) : bool :=
  match md_status m with
  | Some s => String.eqb s "deprecated"
  | None => false
  end.

Definition no_output (m : ModelsDevModel) : bool :=
  (limit_output (md_limit m) =? 0) && Qeq_bool (cost_output (md_cost m)) 0.

(** The model table of the provider's namespace in the catalog, empty
    when the catalog has none. *)
Definition catalog_models (c : ModelsDevCache) (p : APIProvider) : list (string * ModelsDevModel) :=
  match provider_catalog c p with
  | Some providerData => mp_models providerData
  | None => []
  end.

(** Every entry of a model table is the one found under its own id, as
    in a catalog keyed by model id. *)
Definition keyed_by_id (catalogModels : list (string * ModelsDevModel)) : Prop :=
  forall e, In e (obj_values catalogModels) -> obj_get catalogModels (md_id e) = Some e.

(** A capability flag of a model, missing when the model has no
    capabilities. *)
Definition flag (f : Capabilities -> option bool) (m : FetchedModel) : option bool :=
  c ← capabilities m; f c.






(** The entries that the code lists: not deprecated, no "embedding" and
    no "tts" in the id, and not both a zero output limit and a zero
    output cost. *)
Definition listed_by_code (e : ModelsDevModel) : bool :=
  negb (is_deprecated e)
  && negb (Js.includes (md_id e) "embedding")
  && negb (Js.includes (md_id e) "tts")
  && negb (no_output e).

(** The marker of a speech-to-text model in an id: the one by which the
    fetchers of OpenAI and OpenRouter exclude such models. *)
Definition speech_to_text_marker : string := "whisper".

(** The entries that the specification calls eligible: those the code
    lists, less the speech-to-text models. *)
Definition spec_eligible (e : ModelsDevModel) : bool :=
  negb (is_deprecated e)
  && negb (Js.includes (md_id e) "embedding")
  && negb (Js.includes (md_id e) speech_to_text_marker)
  && negb (Js.includes (md_id e) "tts")
  && negb (no_output e).


(** The snapshot holds an entity tag only together with data. *)
Definition tag_has_data (c : ModelsDevCache) : bool :=
  match if_none_match c, data c with
  | Some _, None => false
  | _, _ => true
  end.

(** The endpoint answers 304 to a conditional request only. *)
Definition answers_request (c : ModelsDevCache) (r : CatalogResponse) : bool :=
  match r, if_none_match c with
  | Http304, None => false
  | _, _ => true
  end.

(** *** Sample data *)

(** A collation for the examples: names compare unit by unit without
    regard to case, and on a tie the lower-case letter comes before its
    capital, so that [alpha] precedes [Beta] and [a] precedes [A]. *)
Definition sample_collation (a b : string) : comparison :=
  match String.compare (Js.toLowerCase a) (Js.toLowerCase b) with
  | Eq => String.compare b a
  | c => c
  end.

Definition sample_model (i n : string) (out_limit : Z) (out_cost : Q) (stat : option string) : ModelsDevModel :=
  {| md_id := i; md_name := n; md_family := None;
     md_cost := {| cost_input := 1; cost_output := out_cost;
                   cost_cache_read := None; cost_cache_write := None |};
     md_limit := {| limit_context := 128000; limit_output := out_limit |};
     md_modalities :=
       Some {| modalities_input := ["text"; "image"];
               modalities_output := ["text"] |};
     md_attachment := None; md_reasoning := None; md_tool_call := None;
     md_status := stat |}.

Definition sample_openai : ModelsDevProvider :=
  {| mp_id := Some "openai"; mp_name := "OpenAI";
     mp_models :=
       [("gpt-4o", sample_model "gpt-4o" "GPT-4o" 16384 (10 # 1) None);
        ("text-embedding-3-small",
         sample_model "text-embedding-3-small" "text-embedding-3-small" 0 0 None);
        ("gpt-4o-mini-tts", sample_model "gpt-4o-mini-tts" "GPT-4o mini TTS" 0 (12 # 1) None);
        ("gpt-4-32k", sample_model "gpt-4-32k" "GPT-4 32k" 8192 (120 # 1) (Some "deprecated"));
        ("gpt-4.1", sample_model "gpt-4.1" "GPT-4.1" 32768 (8 # 1) None)] |}.

Definition sample_data : ModelsDevData := {[ "openai" := sample_openai ]}.

(** A catalog that lists two speech-to-text models. *)
Definition sample_speech : ModelsDevCache :=
  {| data :=
       Some {[ "openai" :=
                 {| mp_id := Some "openai"; mp_name := "OpenAI";
                    mp_models :=
                      [("whisper-1", sample_model "whisper-1" "Whisper" 0 (6 # 1000) None);
                       ("gpt-4o-transcribe",
                        sample_model "gpt-4o-transcribe" "GPT-4o Transcribe" 2000 (10 # 1) None);
                       ("gpt-4o", sample_model "gpt-4o" "GPT-4o" 16384 (10 # 1) None)] |} ]};
     timestamp := 0;
     etag := None |}.

(** A catalog whose only entry for OpenAI is a speech-to-text model. *)
Definition whisper_only : ModelsDevCache :=
  {| data :=
       Some {[ "openai" :=
                 {| mp_id := Some "openai"; mp_name := "OpenAI";
                    mp_models :=
                      [("whisper-1",
                        sample_model "whisper-1" "Whisper" 0 (6 # 1000) None)] |} ]};
     timestamp := 0;
     etag := None |}.

(** A catalog whose entries are not filed under their own ids. *)
Definition misfiled_catalog : ModelsDevCache :=
  {| data :=
       Some {[ "openai" :=
                 {| mp_id := Some "openai"; mp_name := "OpenAI";
                    mp_models :=
                      [("x",
                        {| md_id := "b"; md_name := "B"; md_family := None;
                           md_cost := {| cost_input := 1; cost_output := 2;
                                         cost_cache_read := None;
                                         cost_cache_write := None |};
                           md_limit := {| limit_context := 0; limit_output := 4096 |};
                           md_modalities := None; md_attachment := None;
                           md_reasoning := None; md_tool_call := None;
                           md_status := None |});
                       ("b", sample_model "c" "C" 4096 2 None)] |} ]};
     timestamp := 0;
     etag := None |}.

(** An instance whose catalog was loaded at time 0. *)
Definition sample_service : Service :=
  {| cache := ∅;
     modelsDevCache := {| data := Some sample_data; timestamp := 0; etag := Some "v1" |} |}.

(** A world in which the catalog endpoint times out and the provider
    rejects the key. *)
Definition env_offline : Env :=
  {| now_at_cache_check := 1000;
     catalog := {| now_at_check := 1000;
                   response := HttpError "timeout of 15000ms exceeded";
                   now_at_response := 16000 |};
     listing := RequestFailed "Request failed with status code 401";
     now_at_cache_set := 16000 |}.

(** The same world four minutes later. *)
Definition env_later : Env :=
  {| now_at_cache_check := 241300;
     catalog := {| now_at_check := 241300;
                   response := HttpError "timeout of 15000ms exceeded";
                   now_at_response := 256300 |};
     listing := RequestFailed "Request failed with status code 401";
     now_at_cache_set := 256300 |}.

(** A world in which the provider lists one model without a price. *)
Definition env_online : Env :=
  {| now_at_cache_check := 1000;
     catalog := {| now_at_check := 1000;
                   response := Http200 sample_data (Some "v1");
                   now_at_response := 1200 |};
     listing :=
       Answered 1
         [{| id := "gpt-4o"; name := "gpt-4o"; provider := openai;
             pricing := None; contextLength := None;
             capabilities :=
               Some {| chat := Some true; vision := Some true;
                       audio := None; embedding := None |} |}];
     now_at_cache_set := 1300 |}.

(** A world in which Anthropic lists a model under a name that every
    object inherits, and the catalog is loaded. *)
Definition env_inherited : Env :=
  {| now_at_cache_check := 1000;
     catalog :=
       {| now_at_check := 1000;
          response :=
            Http200
              {[ "anthropic" :=
                   {| mp_id := Some "anthropic"; mp_name := "Anthropic";
                      mp_models :=
                        [("claude-3-7-sonnet-20250219",
                          sample_model "claude-3-7-sonnet-20250219"
                            "Claude Sonnet 3.7" 64000 (15 # 1) None)] |} ]}
              (Some "v1");
          now_at_response := 1200 |};
     listing :=
       Answered 1
         [{| id := "constructor"; name := "constructor"; provider := anthropic;
             pricing := None; contextLength := None; capabilities := None |}];
     now_at_cache_set := 1300 |}.

(** *** More of the service, and its vocabulary *)

(** The 32-bit number that [hashKey] prints in radix 36. *)
Definition hashCode (key : string) : Z :=
  fold_left
    (fun hash ch =>
       Js.to_int32 (Js.shl32 hash 5 - hash + Z.of_nat (nat_of_ascii ch)))
    (list_ascii_of_string key) 0.

(** The polynomial in 31 of the code units of a string, first unit at
    the highest power, continued from [h]. *)
Definition poly31 (h : Z) (key : string) : Z :=
  fold_left (fun acc ch => 31 * acc + Z.of_nat (nat_of_ascii ch))
    (list_ascii_of_string key) h.

(** The value of a numeral in radix 36, as [parseInt(s, 36)] reads what
    [toString(36)] prints. *)
Definition digit36_value (c : ascii) : Z :=
  let n := Z.of_nat (nat_of_ascii c) in
  if n <? 58 then n - 48 else n - 87.

Fixpoint digits36_value (s : string) : Z :=
  match s with
  | EmptyString => 0
  | String c s' =>
      digit36_value c * 36 ^ Z.of_nat (String.length s') + digits36_value s'
  end.

Definition base36_value (s : string) : Z :=
  match s with
  | String "-" s' => - digits36_value s'
  | _ => digits36_value s
  end.

(** An entry of the list that [client.models.list()] iterates over. *)
Record OpenAIModel : Type := {
  oa_id : string;
  oa_created : Z;
  oa_owned_by : string
}.

Definition openai_chatPrefixes : list string :=
  ["gpt-4"; "gpt-3.5"; "gpt-5"; "o1"; "o3"; "o4"; "chatgpt-"].

Definition openai_excludePrefixes : list string :=
  ["text-embedding-"; "whisper-"; "tts-"; "dall-e-"; "omni-moderation-";
   "text-moderation-"].

(** The predicate of the [filter] in [fetchOpenAIModels]. *)
Definition openai_keeps (m : OpenAIModel) : bool :=
  let i := Js.toLowerCase (oa_id m) in
  let isExcluded := existsb (fun p => Js.startsWith i p) openai_excludePrefixes in
  if isExcluded then false
  else existsb (fun p => Js.startsWith i p) openai_chatPrefixes.

(** The body of the [map] in [fetchOpenAIModels]. *)
Definition openai_model (m : OpenAIModel) : FetchedModel :=
  {| id := oa_id m;
     name := oa_id m;
     provider := openai;
     pricing := None;
     contextLength := None;
     capabilities :=
       Some {| chat := Some true;
               vision :=
                 Some (Js.includes (oa_id m) "4o"
                       || Js.includes (oa_id m) "gpt-4"
                       || Js.includes (oa_id m) "gpt-5");
               audio := None;
               embedding := None |} |}.

(** What [fetchOpenAIModels] makes of the listed models. *)
Definition openai_listed
    (localeCompare : string -> string -> comparison)
    (raw : list OpenAIModel) : list FetchedModel :=
  sort (fun a b => localeCompare (id a) (id b))
    (map openai_model (List.filter openai_keeps raw)).

(** The answer of OpenAI's listing endpoint that carries the models [raw]. *)
Definition openai_answer
    (localeCompare : string -> string -> comparison)
    (raw : list OpenAIModel) : ListingResponse :=
  Answered (length raw) (openai_listed localeCompare raw).

(** [options?.endpoint] is there and not empty. *)
Definition has_endpoint (options : option ModelFetchOptions) : bool :=
  match o ← options; endpoint o with
  | Some e => Js.truthy e
  | None => false
  end.

(** The provider's fetcher gets as far as sending its request: always,
    but for Azure without an endpoint. *)
Definition provider_contacted (p : APIProvider) (options : option ModelFetchOptions) : bool :=
  match p with
  | azure_openai => has_endpoint options
  | _ => true
  end.

(** Every key of the result cache was built by [cacheKey]. *)
Definition cache_keys_built (st : Service) : Prop :=
  forall k : string, is_Some (cache st !! k) ->
    exists (p : APIProvider) (apiKey : string), k = cacheKey p apiKey.

(** [clearCache] for each provider in turn. *)
Definition clear_each_provider (st : Service) : Service :=
  foldr (fun p => clearCache (Some p)) st
    [openai; gemini; anthropic; azure_openai; openrouter].

End ModelFetchService.

(** ** [src/components/Settings/SettingsDialog.tsx] *)

Module SettingsDialog.

(** [maskApiKey]: what the dialog shows of a stored key. *)
Definition maskApiKey (key : string) : string :=
  if negb (Js.truthy key) || (String.length key <? 10)%nat then ""
  else String.substring 0 4 key ++ "..."
       ++ String.substring (String.length key - 4) 4 key.

End SettingsDialog.

(** ** [electron/ProviderClientFactory.ts] *)

Module ProviderClientFactory.
Import AiModels.

(** The fields of the stored configuration that the factory reads. *)
Record Config : Type := {
  apiKey : option string;
  apiProvider : APIProvider;
  azureEndpoint : option string;
  azureApiVersion : option string
}.

(** A client, with the options its constructor was given. *)
Inductive ProviderClient : Type :=
  | OpenAIClient (key : string) (timeout maxRetries : Z)
  | GeminiClient (key : string)
  | AnthropicClient (key : string)
  | AzureOpenAIClient (endpoint key apiVersion : string)
  | OpenRouterClient (key baseURL : string)
      (defaultHeaders : list (string * string)) (timeout maxRetries : Z).

(** [createProviderClient], on the configuration that [loadConfig]
    returned: the client, or [null], and the line written to the console. *)
Definition createProviderClient (config : Config) : option ProviderClient * option string :=
  match apiKey config with
  | None => (None, None)
  | Some key =>
      if negb (Js.truthy key) || (String.length (Js.trim key) =? 0)%nat
      then (None, None)
      else
        match apiProvider config with
        | openai => (Some (OpenAIClient key 60000 2), None)
        | gemini => (Some (GeminiClient key), None)
        | anthropic => (Some (AnthropicClient key), None)
        | azure_openai =>
            let endpoint :=
              Js.strip_trailing_slash
                (match azureEndpoint config with
                 | Some e => if Js.truthy e then e else ""
                 | None => ""
                 end) in
            let apiVersion :=
              match azureApiVersion config with
              | Some v => if Js.truthy v then v else "2025-01-01-preview"
              | None => "2025-01-01-preview"
              end in
            if negb (Js.truthy endpoint)
            then (None, Some "Azure OpenAI endpoint not configured")
            else (Some (AzureOpenAIClient endpoint key apiVersion), None)
        | openrouter =>
            (Some (OpenRouterClient key "https://openrouter.ai/api/v1"
                     [("HTTP-Referer",
                       "https://github.com/Scode-Njnjas/interview-assistant");
                      ("X-Title", "Interview Assistant")]
                     60000 2),
             None)
        end
  end.

(** The [type] field of a client. *)
Definition client_type (c : ProviderClient) : APIProvider :=
  match c with
  | OpenAIClient _ _ _ => openai
  | GeminiClient _ => gemini
  | AnthropicClient _ => anthropic
  | AzureOpenAIClient _ _ _ => azure_openai
  | OpenRouterClient _ _ _ _ _ => openrouter
  end.

Definition isOpenAICompatible (c : ProviderClient) : bool :=
  match client_type c with
  | openai | azure_openai | openrouter => true
  | _ => false
  end.

(** [getOpenAIClient]: the client itself when it speaks the
    chat-completions API. *)
Definition getOpenAIClient (c : ProviderClient) : option ProviderClient :=
  if isOpenAICompatible c then Some c else None.

End ProviderClientFactory.

(** * Properties *)

Import AiModels ModelFetchService.

(** ** Selection sanitizer *)

Section Sanitizer.

Variables (p : APIProvider) (c : ModelCategoryKey).
Variable dynamicAllowList : option (list string).

(** An id the sanitizer returns unchanged is a fixed point. *)
Lemma sanitize_kept (model : string) :
  sanitize model p c dynamicAllowList = model ->
  sanitize (sanitize model p c dynamicAllowList) p c dynamicAllowList
  = sanitize model p c dynamicAllowList.
Proof. intros E. rewrite !E. reflexivity. Qed.

(** The default of a provider and category is a fixed point, whatever
    the allow-list holds. *)
Lemma sanitize_default :
  sanitize (default_for p c) p c dynamicAllowList = default_for p c.
Proof.
  unfold sanitize, sanitizeModelSelection.
  repeat match goal with
         | |- context [if ?b then _ else _] => destruct b
         end; reflexivity.
Qed.

(** The sanitizer returns the id it was given or the default. *)
Lemma sanitize_cases (model : string) :
  sanitize model p c dynamicAllowList = model
  \/ sanitize model p c dynamicAllowList = default_for p c.
Proof.
  unfold sanitize, sanitizeModelSelection.
  repeat match goal with
         | |- context [if ?b then _ else _] => destruct b
         end; simpl; auto.
Qed.

End Sanitizer.

(** C9. [sanitizeModelSelection] is idempotent: for every chosen id,
    provider, category and optional dynamic allow-list, sanitizing the id
    it returned, with the same provider, category and allow-list, returns
    that id again.  The function reads nothing but its arguments, so equal
    arguments give equal results and equal warnings. *)
Theorem sanitizeModelSelection_idempotent :
  forall (model : string) (p : APIProvider) (c : ModelCategoryKey)
         (dynamicAllowList : option (list string)),
    sanitize (sanitize model p c dynamicAllowList) p c dynamicAllowList
    = sanitize model p c dynamicAllowList.
Proof.
  intros model p c dyn.
  destruct (sanitize_cases p c dyn model) as [E | E].
  - now apply sanitize_kept.
  - rewrite E. apply sanitize_default.
Qed.

(** ** Result cache invalidation *)

(** A cache key starts with the tag of the provider it was built for,
    and with that of no other provider. *)
Lemma cacheKey_startsWith (p q : APIProvider) (apiKey : string) :
  Js.startsWith (cacheKey q apiKey) (provider_tag p) = bool_decide (p = q).
Proof. destruct p, q; reflexivity. Qed.

Lemma clearCache_lookup (p : APIProvider) (st : Service) (k : string) :
  cache (clearCache (Some p) st) !! k
  = if Js.startsWith k (provider_tag p) then None else cache st !! k.
Proof.
  simpl. rewrite map_lookup_filter. simpl.
  destruct (cache st !! k) as [e|] eqn:E; simpl.
  - destruct (Js.startsWith k (provider_tag p)) eqn:S.
    + rewrite option_guard_False by discriminate. reflexivity.
    + rewrite option_guard_True by reflexivity. reflexivity.
  - destruct (Js.startsWith k (provider_tag p)); reflexivity.
Qed.

(** C10. [clearCache(provider)] removes exactly the entries whose key
    begins with the provider's tag: the entries of that provider go, those
    of every other provider stay as they were, and the catalog snapshot
    (data, timestamp and etag) is not touched.  [clearCache()] empties the
    result cache and leaves the catalog snapshot as it was. *)
Theorem clearCache_frame :
  forall (st : Service),
    (forall (p : APIProvider) (k : string),
        cache (clearCache (Some p) st) !! k
        = if Js.startsWith k (provider_tag p) then None else cache st !! k)
    /\ (forall (p q : APIProvider) (apiKey : string),
           cache (clearCache (Some p) st) !! cacheKey q apiKey
           = if bool_decide (p = q) then None
             else cache st !! cacheKey q apiKey)
    /\ (forall (p : option APIProvider),
           modelsDevCache (clearCache p st) = modelsDevCache st)
    /\ cache (clearCache None st) = ∅.
Proof.
  intros st. repeat split.
  - intros p k. apply clearCache_lookup.
  - intros p q apiKey. rewrite clearCache_lookup, cacheKey_startsWith.
    reflexivity.
  - intros [p|]; reflexivity.
Qed.

(** ** Catalog store *)

(** The invariant [tag_has_data] holds of a new instance and is kept by
    every refresh, whatever the endpoint answers. *)
Lemma tag_has_data_new : tag_has_data (modelsDevCache new_service) = true.
Proof. reflexivity. Qed.

(** While the snapshot is fresh, [ensureModelsDevData] returns at once. *)
Lemma ensureModelsDevData_fresh (y : CatalogExchange) (st : Service) :
  catalog_fresh (modelsDevCache st) (now_at_check y) = true ->
  ensureModelsDevData y st = (tt, st, []).
Proof.
  intros F.
  unfold ensureModelsDevData, modelsDevRequest, modelsDevSettle, bind, read, ret.
  simpl. rewrite F. reflexivity.
Qed.

(** On a stale snapshot, [ensureModelsDevData] sends its request and
    acts on the answer. *)
Lemma ensureModelsDevData_stale (x : CatalogExchange) (st : Service) :
  catalog_fresh (modelsDevCache st) (now_at_check x) = false ->
  ensureModelsDevData x st
  = let c := modelsDevCache st in
    match response x with
    | Http304 =>
        (tt,
         set_modelsDevCache
           {| data := data c; timestamp := now_at_response x; etag := etag c |} st,
         [CatalogRequest (if_none_match c)])
    | Http200 body etag_header =>
        (tt,
         set_modelsDevCache
           {| data := Some body; timestamp := now_at_response x;
              etag := etag_of_header etag_header |} st,
         [CatalogRequest (if_none_match c); ConsoleLog (catalog_loaded_line body)])
    | HttpError message =>
        (tt, st,
         [CatalogRequest (if_none_match c); ConsoleWarn (catalog_failed_line message)])
    end.
Proof.
  intros Stale.
  unfold ensureModelsDevData, modelsDevRequest, modelsDevSettle,
    bind, read, ret, emit, write.
  simpl. rewrite Stale. simpl. destruct (response x); reflexivity.
Qed.

Lemma tag_has_data_ensure (x : CatalogExchange) (st : Service) :
  tag_has_data (modelsDevCache st) = true ->
  tag_has_data (modelsDevCache (state_after (ensureModelsDevData x) st)) = true.
Proof.
  intros I. unfold state_after.
  destruct (catalog_fresh (modelsDevCache st) (now_at_check x)) eqn:F.
  - now rewrite ensureModelsDevData_fresh.
  - rewrite ensureModelsDevData_stale by exact F. simpl.
    destruct (response x); simpl; try exact I.
    unfold tag_has_data. simpl. now destruct (if_none_match _).
Qed.

(** A refresh does not touch the result cache. *)
Lemma ensureModelsDevData_cache (x : CatalogExchange) (st : Service) :
  cache (state_after (ensureModelsDevData x) st) = cache st.
Proof.
  unfold state_after.
  destruct (catalog_fresh (modelsDevCache st) (now_at_check x)) eqn:F.
  - now rewrite ensureModelsDevData_fresh.
  - rewrite ensureModelsDevData_stale by exact F. simpl.
    destruct (response x); reflexivity.
Qed.

(** The events of a refresh: its request, then the line it logs. *)
Lemma ensureModelsDevData_trace (x : CatalogExchange) (st : Service) :
  trace_of (ensureModelsDevData x) st
  = (catalog_requests (modelsDevCache st) (now_at_check x)
     ++ catalog_lines (modelsDevCache st) x)%list.
Proof.
  unfold trace_of, catalog_requests, catalog_lines.
  destruct (catalog_fresh (modelsDevCache st) (now_at_check x)) eqn:F.
  - now rewrite ensureModelsDevData_fresh.
  - rewrite ensureModelsDevData_stale by exact F. simpl.
    destruct (response x); reflexivity.
Qed.

(** The two halves of a refresh. *)
Lemma modelsDevRequest_eq (x : CatalogExchange) (st : Service) :
  modelsDevRequest x st
  = (negb (catalog_fresh (modelsDevCache st) (now_at_check x)), st,
     catalog_requests (modelsDevCache st) (now_at_check x)).
Proof.
  unfold modelsDevRequest, catalog_requests, bind, read, ret, emit. simpl.
  destruct (catalog_fresh _ _); reflexivity.
Qed.

Lemma modelsDevSettle_eq (x : CatalogExchange) (st : Service) :
  modelsDevSettle x (negb (catalog_fresh (modelsDevCache st) (now_at_check x))) st
  = (tt, state_after (ensureModelsDevData x) st, catalog_lines (modelsDevCache st) x).
Proof.
  unfold state_after, catalog_lines.
  destruct (catalog_fresh (modelsDevCache st) (now_at_check x)) eqn:F.
  - now rewrite ensureModelsDevData_fresh.
  - rewrite ensureModelsDevData_stale by exact F.
    unfold modelsDevSettle, bind, read, ret, emit, write. simpl.
    destruct (response x); reflexivity.
Qed.

(** A request carries [If-None-Match] only when the instance holds data:
    so a 304 that answers such a request finds data to keep. *)
Lemma conditional_request_has_data (c : ModelsDevCache) :
  tag_has_data c = true ->
  answers_request c Http304 = true ->
  is_Some (data c).
Proof.
  unfold tag_has_data, answers_request.
  destruct (if_none_match c); [|discriminate].
  destruct (data c); [eauto | discriminate].
Qed.




(** ** Catalog filter and order *)

Arguments ensureModelsDevData : simpl never.
Arguments fetchProviderModels : simpl never.
Arguments getModelsFromModelsDev : simpl never.
Arguments enrichWithModelsDev : simpl never.
Arguments getStaticFallbackModels : simpl never.
Arguments cacheKey : simpl never.
Arguments cache_hit : simpl never.

Section Sorting.

Context {A : Type} (cmp : A -> A -> comparison).

#[local] Abbreviation le := (cmp_le cmp).

Lemma sort_insert_Permutation (x : A) (l : list A) :
  Permutation (sort_insert cmp x l) (x :: l).
Proof.
  induction l as [|y l IH]; simpl; [reflexivity|].
  destruct (cmp x y); try reflexivity.
  rewrite IH. apply perm_swap.
Qed.

Lemma sort_Permutation (l : list A) : Permutation (sort cmp l) l.
Proof.
  induction l as [|x l IH]; simpl; [reflexivity|].
  rewrite sort_insert_Permutation. now constructor.
Qed.

Hypothesis total : forall a b, cmp a b = Gt -> cmp b a <> Gt.
Hypothesis trans : forall a b c, le a b -> le b c -> le a c.




End Sorting.

Lemma sort_insert_length {A} (cmp : A -> A -> comparison) (x : A) (l : list A) :
  length (sort_insert cmp x l) = S (length l).
Proof.
  induction l as [|y l IH]; simpl; [reflexivity|].
  destruct (cmp x y); simpl; congruence.
Qed.

Lemma sort_length {A} (cmp : A -> A -> comparison) (l : list A) :
  length (sort cmp l) = length l.
Proof.
  induction l as [|x l IH]; simpl; [reflexivity|].
  rewrite sort_insert_length. congruence.
Qed.

Lemma filter_nil_existsb {A} (f : A -> bool) (l : list A) :
  List.filter f l = [] <-> existsb f l = false.
Proof.
  induction l as [|x l IH]; simpl; [tauto|].
  destruct (f x); simpl; [split; discriminate | exact IH].
Qed.


(** The filter keeps an entry exactly when it passes the four tests. *)
Lemma catalog_keeps_tests (m : ModelsDevModel) :
  catalog_keeps m = listed_by_code m.
Proof.
  unfold catalog_keeps, listed_by_code, is_deprecated, no_output.
  destruct (md_status m) as [s|]; [destruct (String.eqb s "deprecated")|];
    simpl; try reflexivity;
    destruct (Js.includes (md_id m) "embedding"); simpl; try reflexivity;
    destruct (Js.includes (md_id m) "tts"); simpl; try reflexivity;
    destruct ((limit_output (md_limit m) =? 0)
              && Qeq_bool (cost_output (md_cost m)) 0); reflexivity.
Qed.

Lemma arr_includes_In (arr : list string) (x : string) :
  Js.arr_includes arr x = true <-> In x arr.
Proof.
  unfold Js.arr_includes. rewrite existsb_exists. split.
  - intros (y & Hy & E). apply String.eqb_eq in E. now subst.
  - intros H. exists x. split; [exact H | apply String.eqb_refl].
Qed.




(** The collation of the examples puts [alpha] before [Beta], and a
    lower-case letter before its capital. *)
Example sample_collation_order :
  sort sample_collation ["Beta"; "alpha"; "A"; "a"] = ["a"; "A"; "alpha"; "Beta"].
Proof. reflexivity. Qed.

(** C7: where the code departs from it.  A catalog entry whose id is that
    of a speech-to-text model passes the filter of
    [getModelsFromModelsDev], which tests the id for "embedding" and "tts"
    only: the entry is returned, flagged as a chat model, although the
    specification excludes it, the method's own description promises
    chat-capable models only, and the fetchers of OpenAI and OpenRouter
    exclude the same ids. *)
Theorem getModelsFromModelsDev_lists_speech_to_text :
  let listed := getModelsFromModelsDev sample_collation whisper_only openai in
  map (fun m => (id m, flag chat m)) listed = [("whisper-1", Some true)]
  /\ Js.includes "whisper-1" speech_to_text_marker = true
  /\ map spec_eligible (obj_values (catalog_models whisper_only openai)) = [false]
  /\ existsb (Js.startsWith "whisper-1") openai_excludePrefixes = true
  /\ map id (getModelsFromModelsDev sample_collation sample_speech openai)
     = ["gpt-4o"; "gpt-4o-transcribe"; "whisper-1"].
Proof. repeat split. Qed.

(** The catalog yields models for a provider exactly when it lists one
    that the filter keeps. *)
Lemma getModelsFromModelsDev_nil
    (localeCompare : string -> string -> comparison)
    (c : ModelsDevCache) (p : APIProvider) :
  getModelsFromModelsDev localeCompare c p = [] <-> catalog_yields c p = false.
Proof.
  unfold getModelsFromModelsDev, catalog_yields.
  destruct (provider_catalog c p) as [pd|]; [|tauto].
  rewrite <- filter_nil_existsb. split.
  - intros E. apply (f_equal (@length _)) in E.
    rewrite sort_length, length_map in E.
    now apply length_zero_iff_nil.
  - intros ->. reflexivity.
Qed.

Lemma getModelsFromModelsDev_In
    (localeCompare : string -> string -> comparison)
    (c : ModelsDevCache) (p : APIProvider) (a : FetchedModel) :
  In a (getModelsFromModelsDev localeCompare c p) ->
  exists e, In e (obj_values (catalog_models c p))
            /\ a = modelsDevToFetchedModel e p.
Proof.
  unfold getModelsFromModelsDev, catalog_models.
  destruct (provider_catalog c p) as [pd|]; [|intros []].
  intros H. apply (Permutation_in _ (sort_Permutation _ _)) in H.
  apply in_map_iff in H. destruct H as (e & <- & He).
  apply filter_In in He. exists e. tauto.
Qed.

(** Every model derived from the catalog carries a price. *)
Lemma getModelsFromModelsDev_priced
    (localeCompare : string -> string -> comparison)
    (c : ModelsDevCache) (p : APIProvider) :
  List.Forall (fun a => pricing a <> None) (getModelsFromModelsDev localeCompare c p).
Proof.
  apply List.Forall_forall. intros a Ha.
  apply getModelsFromModelsDev_In in Ha. destruct Ha as (e & _ & ->).
  discriminate.
Qed.

(** ** Catalog enricher *)


(** *** The lookup of an id in the model table *)

Lemma obj_get_existsb {A} (obj : list (string * A)) (key : string) :
  obj_get obj key = None
  <-> existsb (fun kv => String.eqb key (fst kv)) obj = false.
Proof.
  induction obj as [|[k v] obj IH]; simpl; [tauto|].
  destruct (String.eqb key k); simpl; [split; discriminate | exact IH].
Qed.

(** [obj[key]], case by case. *)
Lemma obj_lookup_cases (cat : list (string * ModelsDevModel)) (key : string) :
  match obj_get cat key with
  | Some e => obj_lookup cat key = Own e /\ inherited_only cat key = false
  | None =>
      if inherited_only cat key then obj_lookup cat key = Inherited
      else obj_lookup cat key = Undefined
  end.
Proof.
  unfold obj_lookup, inherited_only.
  pose proof (obj_get_existsb cat key) as G.
  destruct (obj_get cat key) as [e|].
  - split; [reflexivity|].
    destruct (existsb _ cat); [reflexivity|].
    destruct G as [_ G]. discriminate (G eq_refl).
  - rewrite (proj1 G eq_refl). cbn [negb andb].
    unfold Js.arr_includes.
    now destruct (existsb (String.eqb key) Object_prototype_names).
Qed.

(** *** One model *)

(** The enriched form of a model that has an entry in the table. *)
Lemma enrich_model_own
    (cat : list (string * ModelsDevModel)) (m : FetchedModel) (e : ModelsDevModel) :
  obj_get cat (id m) = Some e ->
  enrich_model cat m
  = Normal
      {| id := id m; name := name m; provider := provider m;
         pricing :=
           match pricing m with
           | Some pr => Some pr
           | None => Some (pricing_of_cost (md_cost e))
           end;
         contextLength :=
           Js.or_num (contextLength m) (Some (limit_context (md_limit e)));
         capabilities :=
           Some {| chat := flag chat m;
                   vision := Js.or_flag (flag vision m) (modality_includes e "image");
                   audio := Js.or_flag (flag audio m) (modality_includes e "audio");
                   embedding := flag embedding m |} |}.
Proof.
  intros G. unfold enrich_model.
  pose proof (obj_lookup_cases cat (id m)) as L. rewrite G in L.
  destruct L as [-> _]. unfold enrich_from. now destruct (pricing m).
Qed.

(** A model whose id the table neither has nor inherits is left as it is. *)
Lemma enrich_model_undefined (cat : list (string * ModelsDevModel)) (m : FetchedModel) :
  obj_get cat (id m) = None -> inherited_only cat (id m) = false ->
  enrich_model cat m = Normal m.
Proof.
  intros G I. unfold enrich_model.
  pose proof (obj_lookup_cases cat (id m)) as L. rewrite G, I in L.
  now rewrite L.
Qed.

(** A model whose id names an inherited member: the literal is built from
    a member that has no [cost], so that a model without price makes it
    throw. *)
Lemma enrich_model_inherited (cat : list (string * ModelsDevModel)) (m : FetchedModel) :
  inherited_only cat (id m) = true ->
  enrich_model cat m
  = match pricing m with
    | None => Thrown cost_undefined_message
    | Some pr =>
        Normal
          {| id := id m; name := name m; provider := provider m;
             pricing := Some pr;
             contextLength := Js.or_num (contextLength m) None;
             capabilities :=
               Some {| chat := flag chat m;
                       vision := Js.or_flag (flag vision m) None;
                       audio := Js.or_flag (flag audio m) None;
                       embedding := flag embedding m |} |}
    end.
Proof.
  intros I. unfold enrich_model.
  pose proof (obj_lookup_cases cat (id m)) as L.
  destruct (obj_get cat (id m)) as [e|].
  - destruct L as [_ L]. congruence.
  - rewrite I in L. rewrite L. unfold enrich_from. now destruct (pricing m).
Qed.

(** The enrichment of a model throws exactly for a model without price
    under an inherited name. *)
Lemma enrich_model_thrown (cat : list (string * ModelsDevModel)) (m : FetchedModel) :
  match pricing m with
  | None => inherited_only cat (id m)
  | Some _ => false
  end = true ->
  enrich_model cat m = Thrown cost_undefined_message.
Proof.
  destruct (pricing m) as [pr|] eqn:P; [discriminate|].
  intros I. rewrite (enrich_model_inherited cat m I). now rewrite P.
Qed.

Lemma enrich_model_normal (cat : list (string * ModelsDevModel)) (m : FetchedModel) :
  match pricing m with
  | None => inherited_only cat (id m)
  | Some _ => false
  end = false ->
  exists m', enrich_model cat m = Normal m'.
Proof.
  intros H.
  destruct (obj_get cat (id m)) as [e|] eqn:G.
  - rewrite (enrich_model_own cat m e G). eauto.
  - destruct (inherited_only cat (id m)) eqn:I.
    + rewrite (enrich_model_inherited cat m I).
      destruct (pricing m); [eauto | discriminate].
    + rewrite (enrich_model_undefined cat m G I). eauto.
Qed.

(** The enrichment keeps the id and a price that is there. *)
Lemma enrich_model_id
    (cat : list (string * ModelsDevModel)) (m m' : FetchedModel) :
  enrich_model cat m = Normal m' -> id m' = id m.
Proof.
  destruct (obj_get cat (id m)) as [e|] eqn:G.
  - rewrite (enrich_model_own cat m e G). now intros [= <-].
  - destruct (inherited_only cat (id m)) eqn:I.
    + rewrite (enrich_model_inherited cat m I).
      destruct (pricing m); [now intros [= <-] | discriminate].
    + rewrite (enrich_model_undefined cat m G I). now intros [= <-].
Qed.

Lemma enrich_model_price
    (cat : list (string * ModelsDevModel)) (m m' : FetchedModel) (pr : ModelPricing) :
  enrich_model cat m = Normal m' -> pricing m = Some pr -> pricing m' = Some pr.
Proof.
  intros E P.
  destruct (obj_get cat (id m)) as [e|] eqn:G.
  - rewrite (enrich_model_own cat m e G), P in E. now injection E as <-.
  - destruct (inherited_only cat (id m)) eqn:I.
    + rewrite (enrich_model_inherited cat m I), P in E. now injection E as <-.
    + rewrite (enrich_model_undefined cat m G I) in E. now injection E as <-.
Qed.

Lemma or_flag_true (b : option bool) : Js.or_flag (Some true) b = Some true.
Proof. reflexivity. Qed.

Lemma or_num_same (a b : option Z) :
  Js.or_num (Js.or_num a b) b = Js.or_num a b.
Proof.
  destruct a as [k|]; simpl.
  - destruct (k =? 0) eqn:E; simpl; [|now rewrite E].
    destruct b as [n|]; simpl; [now destruct (n =? 0) | reflexivity].
  - destruct b as [n|]; simpl; [now destruct (n =? 0) | reflexivity].
Qed.

Lemma or_flag_same (a b : option bool) :
  Js.or_flag (Js.or_flag a b) b = Js.or_flag a b.
Proof. destruct a as [[|]|], b as [[|]|]; reflexivity. Qed.

(** Enriching an enriched model changes nothing. *)
Lemma enrich_model_idem
    (cat : list (string * ModelsDevModel)) (m m' : FetchedModel) :
  enrich_model cat m = Normal m' -> enrich_model cat m' = Normal m'.
Proof.
  intros E. pose proof (enrich_model_id cat m m' E) as Id.
  destruct (obj_get cat (id m)) as [e|] eqn:G.
  - rewrite (enrich_model_own cat m e G) in E. injection E as <-.
    rewrite (enrich_model_own cat _ e) by exact G. simpl. unfold flag. simpl.
    rewrite or_num_same, !or_flag_same. now destruct (pricing m).
  - destruct (inherited_only cat (id m)) eqn:I.
    + rewrite (enrich_model_inherited cat m I) in E.
      destruct (pricing m) as [pr|]; [|discriminate]. injection E as <-.
      rewrite (enrich_model_inherited cat _) by exact I. simpl. unfold flag. simpl.
      now rewrite or_num_same, !or_flag_same.
    + rewrite (enrich_model_undefined cat m G I) in E. injection E as <-.
      now apply enrich_model_undefined.
Qed.

(** In a catalog keyed by model id, enriching the model made from an
    entry changes nothing. *)
Lemma enrich_model_of_entry
    (cat : list (string * ModelsDevModel)) (e : ModelsDevModel) (p : APIProvider) :
  keyed_by_id cat -> In e (obj_values cat) ->
  enrich_model cat (modelsDevToFetchedModel e p) = Normal (modelsDevToFetchedModel e p).
Proof.
  intros Keyed He.
  rewrite (enrich_model_own cat _ e) by exact (Keyed e He).
  unfold modelsDevToFetchedModel, flag. simpl. do 2 f_equal.
  - now destruct (limit_context (md_limit e) =? 0).
  - do 2 f_equal.
    + now destruct (modality_includes e "image") as [[|]|].
    + now destruct (modality_includes e "audio") as [[|]|].
Qed.



(** *** The list *)

Lemma try_map_Forall2 {A B} (f : A -> Completion B) (l : list A) (ys : list B) :
  try_map f l = Normal ys <-> List.Forall2 (fun x y => f x = Normal y) l ys.
Proof.
  revert ys. induction l as [|x l IH]; intros ys; simpl.
  - split.
    + intros [= <-]. constructor.
    + intros H. now inversion H.
  - split.
    + destruct (f x) as [y|] eqn:Fx; [|discriminate].
      destruct (try_map f l) as [ys'|]; [|discriminate].
      intros [= <-]. constructor; [exact Fx | now apply IH].
    + intros H. inversion H as [|x' y l' ys' Fx Rest]; subst.
      rewrite Fx. apply IH in Rest. now rewrite Rest.
Qed.

Lemma try_map_thrown {A B}
    (f : A -> Completion B) (throws : A -> bool) (message : string) (l : list A) :
  (forall x, throws x = true -> f x = Thrown message) ->
  (forall x, throws x = false -> exists y, f x = Normal y) ->
  if existsb throws l then try_map f l = Thrown message
  else exists ys, try_map f l = Normal ys.
Proof.
  intros T N. induction l as [|x l IH]; simpl; [eauto|].
  destruct (throws x) eqn:Tx; simpl.
  - now rewrite (T x Tx).
  - destruct (N x Tx) as [y ->].
    destruct (existsb throws l).
    + now rewrite IH.
    + destruct IH as [ys ->]. eauto.
Qed.

(** The merge throws exactly on the lists of [merge_throws], and then
    with the message of the undefined [cost]. *)
Lemma enrichWithModelsDev_thrown
    (localeCompare : string -> string -> comparison)
    (c : ModelsDevCache) (apiModels : list FetchedModel) (p : APIProvider) :
  merge_throws c p apiModels = true ->
  enrichWithModelsDev localeCompare c apiModels p = Thrown cost_undefined_message.
Proof.
  unfold merge_throws, enrichWithModelsDev, unpriced_inherited.
  destruct (provider_catalog c p) as [pd|]; [|discriminate].
  intros T.
  pose proof (try_map_thrown (enrich_model (mp_models pd))
                (fun m => match pricing m with
                          | None => inherited_only (mp_models pd) (id m)
                          | Some _ => false
                          end)
                cost_undefined_message
                apiModels (enrich_model_thrown (mp_models pd))
                (enrich_model_normal (mp_models pd))) as H.
  rewrite T in H. now rewrite H.
Qed.

(** Otherwise it returns the API models, each enriched, then the
    catalog's models that the API did not return. *)
Lemma enrichWithModelsDev_normal
    (localeCompare : string -> string -> comparison)
    (c : ModelsDevCache) (apiModels : list FetchedModel) (p : APIProvider) :
  merge_throws c p apiModels = false ->
  exists enriched : list FetchedModel,
    enrichWithModelsDev localeCompare c apiModels p
    = Normal ((enriched ++ additional_models localeCompare c apiModels p)%list,
              match additional_models localeCompare c apiModels p with
              | [] => []
              | _ :: _ =>
                  [ConsoleLog
                     (added_models_line
                        (length (additional_models localeCompare c apiModels p)) p)]
              end)
    /\ match provider_catalog c p with
       | Some providerData =>
           List.Forall2
             (fun m m' => enrich_model (mp_models providerData) m = Normal m')
             apiModels enriched
       | None => enriched = apiModels
       end.
Proof.
  unfold merge_throws, enrichWithModelsDev, unpriced_inherited, additional_models,
    getModelsFromModelsDev.
  destruct (provider_catalog c p) as [pd|].
  - intros T.
    pose proof (try_map_thrown (enrich_model (mp_models pd))
                  (fun m => match pricing m with
                            | None => inherited_only (mp_models pd) (id m)
                            | Some _ => false
                            end)
                  cost_undefined_message
                  apiModels (enrich_model_thrown (mp_models pd))
                  (enrich_model_normal (mp_models pd))) as H.
    rewrite T in H. destruct H as [enriched H]. rewrite H.
    exists enriched. split; [reflexivity|]. now apply try_map_Forall2.
  - intros _. exists apiModels. simpl. now rewrite app_nil_r.
Qed.

(** The merged list of a merge that returns. *)
Lemma enriched_models_normal
    (localeCompare : string -> string -> comparison)
    (c : ModelsDevCache) (apiModels merged : list FetchedModel) (p : APIProvider)
    (logged : list Event) :
  enrichWithModelsDev localeCompare c apiModels p = Normal (merged, logged) ->
  enriched_models localeCompare c apiModels p = merged.
Proof. unfold enriched_models. now intros ->. Qed.

Lemma Forall2_enrich_ids
    (cat : list (string * ModelsDevModel)) (ms enriched : list FetchedModel) :
  List.Forall2 (fun m m' => enrich_model cat m = Normal m') ms enriched ->
  map id enriched = map id ms.
Proof.
  induction 1 as [|m m' ms enriched E _ IH]; simpl; [reflexivity|].
  now rewrite (enrich_model_id cat m m' E), IH.
Qed.

(** The merge never loses a model of the list it is given. *)
Lemma enriched_models_length
    (localeCompare : string -> string -> comparison)
    (c : ModelsDevCache) (ms : list FetchedModel) (p : APIProvider) :
  merge_throws c p ms = false ->
  (length ms <= length (enriched_models localeCompare c ms p))%nat.
Proof.
  intros T.
  destruct (enrichWithModelsDev_normal localeCompare c ms p T) as (enriched & E & F).
  rewrite (enriched_models_normal _ _ _ _ _ _ E), length_app.
  assert (L : length enriched = length ms).
  { destruct (provider_catalog c p).
    - symmetry. eapply List.Forall2_length. exact F.
    - now subst. }
  lia.
Qed.

(** A list of priced models, and a list of the static ids, never make the
    merge throw. *)
Lemma unpriced_inherited_priced
    (cat : list (string * ModelsDevModel)) (ms : list FetchedModel) :
  List.Forall (fun a => pricing a <> None) ms -> unpriced_inherited cat ms = false.
Proof.
  unfold unpriced_inherited. induction 1 as [|a ms P _ IH]; simpl; [reflexivity|].
  destruct (pricing a); [exact IH | congruence].
Qed.

Lemma merge_throws_priced
    (c : ModelsDevCache) (p : APIProvider) (ms : list FetchedModel) :
  List.Forall (fun a => pricing a <> None) ms -> merge_throws c p ms = false.
Proof.
  intros P. unfold merge_throws.
  destruct (provider_catalog c p); [|reflexivity].
  now apply unpriced_inherited_priced.
Qed.

Lemma inherited_only_named (cat : list (string * ModelsDevModel)) (key : string) :
  existsb (String.eqb key) Object_prototype_names = false ->
  inherited_only cat key = false.
Proof. unfold inherited_only. intros ->. apply andb_false_r. Qed.

Lemma merge_throws_static (c : ModelsDevCache) (p : APIProvider) :
  merge_throws c p (getStaticFallbackModels p) = false.
Proof.
  unfold merge_throws.
  destruct (provider_catalog c p) as [pd|]; [|reflexivity].
  unfold unpriced_inherited, getStaticFallbackModels.
  destruct p; simpl; rewrite ?inherited_only_named by reflexivity; reflexivity.
Qed.




Lemma additional_models_covered
    (localeCompare : string -> string -> comparison)
    (c : ModelsDevCache) (p : APIProvider)
    (apiModels enriched : list FetchedModel) :
  map id enriched = map id apiModels ->
  additional_models localeCompare c
    (enriched ++ additional_models localeCompare c apiModels p) p = [].
Proof.
  intros Ids. unfold additional_models at 1.
  apply filter_nil_existsb.
  destruct (existsb _ _) eqn:E; [|reflexivity].
  apply existsb_exists in E. destruct E as (g & Hg & Fg).
  apply negb_true_iff in Fg.
  assert (N : ~ In (id g) (map id (enriched
                 ++ additional_models localeCompare c apiModels p))).
  { intros I. apply arr_includes_In in I. congruence. }
  exfalso. apply N. rewrite map_app, in_app_iff, Ids.
  destruct (Js.arr_includes (map id apiModels) (id g)) eqn:A.
  - left. now apply arr_includes_In.
  - right. apply in_map. unfold additional_models. apply filter_In.
    split; [exact Hg | now rewrite A].
Qed.

Lemma try_map_In {A B}
    (f : A -> Completion B) (P : A -> B -> Prop) (l : list A) :
  (forall x, In x l -> exists y, f x = Normal y /\ P x y) ->
  exists ys, try_map f l = Normal ys /\ Forall2 P l ys.
Proof.
  induction l as [|x l IH]; intros H; simpl.
  - exists []. split; [reflexivity | constructor].
  - destruct (H x (or_introl eq_refl)) as (y & -> & Py).
    destruct IH as (ys & -> & Pys); [intros z Hz; apply H; now right|].
    exists (y :: ys). split; [reflexivity | now constructor].
Qed.

Lemma Forall2_image {A B} (R : A -> B -> Prop) (l : list A) (k : list B) (y : B) :
  Forall2 R l k -> In y k -> exists x, In x l /\ R x y.
Proof.
  induction 1 as [|x y' l k Rxy _ IH]; intros Hy; [destruct Hy|].
  destruct Hy as [<- | Hy].
  - exists x. split; [now left | exact Rxy].
  - destruct (IH Hy) as (x' & Hx & Rx). exists x'. split; [now right | exact Rx].
Qed.

(** A second merge of a merged list: every model of it is enriched again,
    to a model of the same id and price, and none is appended. *)
Lemma enrichWithModelsDev_again
    (localeCompare : string -> string -> comparison)
    (c : ModelsDevCache) (p : APIProvider)
    (apiModels merged : list FetchedModel) (logged : list Event) :
  enrichWithModelsDev localeCompare c apiModels p = Normal (merged, logged) ->
  exists again : list FetchedModel,
    enrichWithModelsDev localeCompare c merged p = Normal (again, [])
    /\ map (fun m => (id m, pricing m)) again = map (fun m => (id m, pricing m)) merged
    /\ (keyed_by_id (catalog_models c p) -> again = merged).
Proof.
  intros E.
  destruct (merge_throws c p apiModels) eqn:T;
    [rewrite (enrichWithModelsDev_thrown _ _ _ _ T) in E; discriminate|].
  destruct (enrichWithModelsDev_normal localeCompare c apiModels p T)
    as (enriched & E' & F).
  rewrite E in E'. injection E' as -> _. clear E.
  unfold catalog_models. unfold enrichWithModelsDev at 1.
  destruct (provider_catalog c p) as [pd|] eqn:PC.
  - set (cat := mp_models pd) in *.
    pose proof (Forall2_enrich_ids cat apiModels enriched F) as Ids.
    rewrite (additional_models_covered localeCompare c p apiModels enriched Ids).
    destruct (try_map_In (enrich_model cat)
                (fun m m' => (id m', pricing m') = (id m, pricing m)
                             /\ (keyed_by_id cat -> m' = m))
                (enriched ++ additional_models localeCompare c apiModels p))
      as (again & -> & R).
    { intros m Hm. apply in_app_iff in Hm. destruct Hm as [Hm|Hm].
      - destruct (Forall2_image _ _ _ _ F Hm) as (m0 & _ & E0).
        exists m. split; [now apply (enrich_model_idem cat m0)|].
        split; [reflexivity | auto].
      - unfold additional_models in Hm. apply filter_In in Hm.
        destruct Hm as [Hm _].
        apply getModelsFromModelsDev_In in Hm. destruct Hm as (e & He & ->).
        unfold catalog_models in He. rewrite PC in He.
        destruct (enrich_model_normal cat (modelsDevToFetchedModel e p) eq_refl)
          as [a' Ea].
        exists a'. split; [exact Ea|]. split.
        + now rewrite (enrich_model_id _ _ _ Ea),
            (enrich_model_price _ _ _ _ Ea eq_refl).
        + intros Keyed.
          rewrite (enrich_model_of_entry cat e p Keyed He) in Ea.
          now injection Ea. }
    exists again. rewrite app_nil_r. split; [reflexivity|]. split.
    + induction R as [|m m' ms again' [Same _] _ IH]; simpl; [reflexivity|].
      now rewrite Same, IH.
    + intros Keyed.
      induction R as [|m m' ms again' [_ Eq] _ IH]; [reflexivity|].
      now rewrite (Eq Keyed), IH.
  - subst enriched. exists apiModels.
    replace (additional_models localeCompare c apiModels p) with (@nil FetchedModel).
    + rewrite app_nil_r. repeat split; reflexivity.
    + unfold additional_models, getModelsFromModelsDev. now rewrite PC.
Qed.

(** C5, as the code has it.  Whenever [enrichWithModelsDev] returns a
    list, an API model that carries a price is returned at its place with
    its id and that price, whatever the catalog holds.  Enriching the
    returned list returns a list as well, adds no model and changes no
    price, whatever the catalog holds; on a catalog keyed by model id it
    gives the returned list again. *)
Theorem enrichWithModelsDev_pricing_idempotent :
  forall (localeCompare : string -> string -> comparison)
         (c : ModelsDevCache) (p : APIProvider)
         (apiModels merged : list FetchedModel) (logged : list Event),
    enrichWithModelsDev localeCompare c apiModels p = Normal (merged, logged) ->
    (forall (i : nat) (m : FetchedModel) (pr : ModelPricing),
        apiModels !! i = Some m -> pricing m = Some pr ->
        exists m', merged !! i = Some m' /\ id m' = id m /\ pricing m' = Some pr)
    /\ exists again : list FetchedModel,
         enrichWithModelsDev localeCompare c merged p = Normal (again, [])
         /\ map (fun m => (id m, pricing m)) again
            = map (fun m => (id m, pricing m)) merged
         /\ (keyed_by_id (catalog_models c p) -> again = merged).
Proof.
  intros lc c p apiModels merged logged E.
  split; [|now apply (enrichWithModelsDev_again lc c p apiModels merged logged)].
  destruct (merge_throws c p apiModels) eqn:T;
    [rewrite (enrichWithModelsDev_thrown _ _ _ _ T) in E; discriminate|].
  destruct (enrichWithModelsDev_normal lc c apiModels p T) as (enriched & E' & F).
  rewrite E in E'. injection E' as -> _.
  intros i m pr Hi Hp.
  destruct (provider_catalog c p) as [pd|].
  - destruct (Forall2_lookup_l _ _ _ _ _ F Hi) as (m' & Hm' & Em).
    exists m'. split; [|split].
    + now apply lookup_app_l_Some.
    + now apply (enrich_model_id (mp_models pd)).
    + now apply (enrich_model_price (mp_models pd) m).
  - subst enriched. exists m. split; [|split; auto].
    now apply lookup_app_l_Some.
Qed.

Lemma enrichWithModelsDev_pricing_idempotent_witness :
  let c := modelsDevCache sample_service in
  let listed := [{| id := "gpt-4o"; name := "gpt-4o"; provider := openai;
                    pricing := Some {| input := 5; output := 15;
                                       cacheRead := None; cacheWrite := None |};
                    contextLength := None; capabilities := None |}] in
  exists merged logged,
    enrichWithModelsDev sample_collation c listed openai = Normal (merged, logged)
    /\ map (fun m => (id m, output <$> pricing m)) merged
       = [("gpt-4o", Some (15 # 1)); ("gpt-4.1", Some (8 # 1))]
    /\ keyed_by_id (catalog_models c openai)
    /\ enrichWithModelsDev sample_collation c merged openai = Normal (merged, []).
Proof.
  intros c listed.
  assert (K : keyed_by_id (catalog_models c openai)).
  { intros e [<-|[<-|[<-|[<-|[<-|[]]]]]]; reflexivity. }
  eexists. eexists. split; [reflexivity|]. split; [reflexivity|].
  split; [exact K|].
  destruct (proj2 (enrichWithModelsDev_pricing_idempotent
                     sample_collation c openai listed _ _ eq_refl))
    as (again & Again & _ & Same).
  rewrite (Same K) in Again. exact Again.
Defined.

(** C5 as stated fails where an entry of the catalog is filed under the
    id of another: the second merge changes no price, but it fills the
    context length of an appended model from the other entry, so that its
    result is not the list it was given. *)
Lemma second_merge_fills_context_length :
  let listed := [{| id := "a"; name := "a"; provider := openai;
                    pricing := Some {| input := 5; output := 15;
                                       cacheRead := None; cacheWrite := None |};
                    contextLength := None; capabilities := None |}] in
  let merged := enriched_models sample_collation misfiled_catalog listed openai in
  let again := enriched_models sample_collation misfiled_catalog merged openai in
  map (fun m => (id m, contextLength m)) merged
  = [("a", None); ("b", Some 0); ("c", Some 128000)]
  /\ map (fun m => (id m, contextLength m)) again
     = [("a", None); ("b", Some 128000); ("c", Some 128000)]
  /\ again <> merged.
Proof.
  intros listed merged again.
  assert (M : map (fun m => (id m, contextLength m)) merged
              = [("a", None); ("b", Some 0); ("c", Some 128000)]) by reflexivity.
  assert (A : map (fun m => (id m, contextLength m)) again
              = [("a", None); ("b", Some 128000); ("c", Some 128000)]) by reflexivity.
  split; [exact M|]. split; [exact A|].
  intros E. rewrite E, M in A. discriminate.
Qed.
(** ** Resolution *)

(** The fetchers neither read nor change the instance. *)
Lemma fetchProviderModels_pure
    (p : APIProvider) (options : option ModelFetchOptions)
    (l : ListingResponse) (st : Service) :
  fetchProviderModels p options l st
  = (provider_outcome p options l, st,
     trace_of (fetchProviderModels p options l) new_service).
Proof.
  unfold provider_outcome, result_of, trace_of, fetchProviderModels,
    fetchListedModels, fetchAzureModels, bind, emit, ret.
  destruct p, l as [[|n] listed|message]; simpl; try reflexivity;
    destruct options as [[[e|] v f]|]; simpl; try reflexivity;
    destruct (Js.truthy e); reflexivity.
Qed.

(** openrouter has no namespace in the catalog. *)
Lemma provider_catalog_openrouter (c : ModelsDevCache) :
  provider_catalog c openrouter = None.
Proof. unfold provider_catalog. now destruct (data c). Qed.

Lemma getStaticFallbackModels_nonempty (p : APIProvider) :
  getStaticFallbackModels p <> [].
Proof. destruct p; discriminate. Qed.

(** The tier that answers after a failed provider fetch; its list is not
    empty, and its merge does not throw. *)
Lemma tier_found_failed
    (localeCompare : string -> string -> comparison)
    (p : APIProvider) (options : option ModelFetchOptions)
    (env : Env) (st : Service) (message : string) :
  provider_outcome p options (listing env) = FetchFailed message ->
  snd (tier_found localeCompare p options env st)
  = (if catalog_yields (refreshed env st) p then models_dev else static)
  /\ fst (tier_found localeCompare p options env st) <> []
  /\ merge_throws (refreshed env st) p (fst (tier_found localeCompare p options env st))
     = false.
Proof.
  intros F. unfold tier_found. rewrite F.
  pose proof (getModelsFromModelsDev_nil localeCompare (refreshed env st) p) as N.
  pose proof (getModelsFromModelsDev_priced localeCompare (refreshed env st) p) as P.
  destruct (getModelsFromModelsDev localeCompare (refreshed env st) p) as [|m ms].
  - rewrite (proj1 N eq_refl). simpl. split; [reflexivity|].
    split; [apply getStaticFallbackModels_nonempty | apply merge_throws_static].
  - destruct (catalog_yields (refreshed env st) p).
    + simpl. split; [reflexivity|].
      split; [discriminate | now apply merge_throws_priced].
    + destruct N as [_ N]. discriminate (N eq_refl).
Qed.

Section Resolve.

Variable localeCompare : string -> string -> comparison.
Variables (p : APIProvider) (apiKey : string).
Variables (options : option ModelFetchOptions) (env : Env) (st : Service).

(** A call that has a key and is not served from the cache: what it
    returns, the instance it leaves and the events of its run, when the
    merge returns and when it throws. *)
Lemma fetchModels_miss :
  no_api_key apiKey = false ->
  cache_hit st options (cacheKey p apiKey) (now_at_cache_check env) = None ->
  let found := tier_found localeCompare p options env st in
  fetchModels localeCompare p apiKey options env st
  = if merge_throws (refreshed env st) p (fst found) then
      ({| success := false; models := getStaticFallbackModels p;
          error := Some cost_undefined_message;
          cachedAt := None; source := Some static |},
       state_after (ensureModelsDevData (catalog env)) st,
       (events_before_merge p options env st
        ++ [ConsoleError (fetch_failed_line p cost_undefined_message)])%list)
    else
      ({| success := true;
          models := tier_merged localeCompare p options env st;
          error := None; cachedAt := None;
          source := Some (snd found) |},
       cache_set (cacheKey p apiKey)
         {| ce_models := tier_merged localeCompare p options env st;
            ce_timestamp := now_at_cache_set env;
            ce_source := snd found |}
         (state_after (ensureModelsDevData (catalog env)) st),
       (events_before_merge p options env st
        ++ merge_log localeCompare (refreshed env st) (fst found) p)%list).
Proof.
  intros K Hit found.
  assert (Run :
    forall (ms : list FetchedModel) (src : Source) (st1 : Service) (t : list Event),
      (let '(r, st2, t2) :=
         (let* merged :=
            match p with
            | openrouter => ret (Normal ms)
            | _ =>
                let* c := read modelsDevCache in
                match enrichWithModelsDev localeCompare c ms p with
                | Normal (ms', logged) => fun s => (Normal ms', s, logged)
                | Thrown message => ret (Thrown message)
                end
            end in
          match merged with
          | Normal ms' =>
              run write (cache_set (cacheKey p apiKey)
                           {| ce_models := ms';
                              ce_timestamp := now_at_cache_set env;
                              ce_source := src |}) then
              ret {| success := true; models := ms'; error := None;
                     cachedAt := None; source := Some src |}
          | Thrown message =>
              run emit (ConsoleError (fetch_failed_line p message)) then
              ret {| success := false; models := getStaticFallbackModels p;
                     error :=
                       Some (if Js.truthy message then message
                             else "Failed to fetch models");
                     cachedAt := None; source := Some static |}
          end) st1 in
       (r, st2, (t ++ t2)%list))
      = if merge_throws (modelsDevCache st1) p ms then
          ({| success := false; models := getStaticFallbackModels p;
              error := Some cost_undefined_message;
              cachedAt := None; source := Some static |},
           st1,
           (t ++ [ConsoleError (fetch_failed_line p cost_undefined_message)])%list)
        else
          let merged :=
            match p with
            | openrouter => ms
            | _ => enriched_models localeCompare (modelsDevCache st1) ms p
            end in
          ({| success := true; models := merged; error := None;
              cachedAt := None; source := Some src |},
           cache_set (cacheKey p apiKey)
             {| ce_models := merged; ce_timestamp := now_at_cache_set env;
                ce_source := src |} st1,
           (t ++ merge_log localeCompare (modelsDevCache st1) ms p)%list)).
  { intros ms src st1 t.
    destruct (merge_throws (modelsDevCache st1) p ms) eqn:T.
    - pose proof (enrichWithModelsDev_thrown localeCompare _ _ _ T) as E.
      destruct p; unfold bind, read, ret, emit, write; simpl;
        try (rewrite E; reflexivity).
      unfold merge_throws in T. now rewrite provider_catalog_openrouter in T.
    - destruct (enrichWithModelsDev_normal localeCompare _ _ _ T)
        as (enriched & E & _).
      unfold merge_log, enriched_models.
      destruct p; unfold bind, read, ret, emit, write; simpl;
        rewrite ?E; simpl; rewrite ?app_nil_r; reflexivity. }
  unfold fetchModels. rewrite K.
  unfold bind at 1. unfold read at 1. rewrite Hit.
  unfold bind at 1. rewrite modelsDevRequest_eq.
  unfold bind at 1. rewrite fetchProviderModels_pure.
  subst found.
  unfold tier_merged, tier_found, events_before_merge, refreshed.
  destruct (provider_outcome p options (listing env)) as [listed|message].
  - unfold bind at 1. unfold bind at 1. rewrite modelsDevSettle_eq.
    unfold ret at 1. cbn [fst snd].
    rewrite Run. cbn [fst snd].
    destruct (merge_throws _ _ _); rewrite ?app_nil_r, <- ?app_assoc;
      reflexivity.
  - unfold bind at 1. unfold bind at 1. unfold emit at 1.
    unfold bind at 1. rewrite modelsDevSettle_eq.
    unfold bind at 1. unfold read at 1.
    destruct (getModelsFromModelsDev localeCompare
                (modelsDevCache (state_after (ensureModelsDevData (catalog env)) st))
                p) as [|m ms0];
      unfold ret at 1; cbn [fst snd]; rewrite Run; cbn [fst snd];
      destruct (merge_throws _ _ _); rewrite ?app_nil_r, <- ?app_assoc;
      reflexivity.
Qed.

(** The same, when the merge returns. *)
Lemma fetchModels_miss_returns :
  no_api_key apiKey = false ->
  cache_hit st options (cacheKey p apiKey) (now_at_cache_check env) = None ->
  merge_throws (refreshed env st) p (fst (tier_found localeCompare p options env st))
  = false ->
  result_of (fetchModels localeCompare p apiKey options env) st
  = {| success := true;
       models := tier_merged localeCompare p options env st;
       error := None; cachedAt := None;
       source := Some (snd (tier_found localeCompare p options env st)) |}
  /\ state_after (fetchModels localeCompare p apiKey options env) st
     = cache_set (cacheKey p apiKey)
         {| ce_models := tier_merged localeCompare p options env st;
            ce_timestamp := now_at_cache_set env;
            ce_source := snd (tier_found localeCompare p options env st) |}
         (state_after (ensureModelsDevData (catalog env)) st)
  /\ trace_of (fetchModels localeCompare p apiKey options env) st
     = (events_before_merge p options env st
        ++ merge_log localeCompare (refreshed env st)
             (fst (tier_found localeCompare p options env st)) p)%list.
Proof.
  intros K Hit T. unfold result_of, state_after, trace_of.
  pose proof (fetchModels_miss K Hit) as E. simpl in E. rewrite T in E.
  rewrite E. repeat split.
Qed.

(** The same, when the merge throws: the outer [catch] answers with the
    static list, and nothing is cached. *)
Lemma fetchModels_miss_throws :
  no_api_key apiKey = false ->
  cache_hit st options (cacheKey p apiKey) (now_at_cache_check env) = None ->
  merge_throws (refreshed env st) p (fst (tier_found localeCompare p options env st))
  = true ->
  result_of (fetchModels localeCompare p apiKey options env) st
  = {| success := false; models := getStaticFallbackModels p;
       error := Some cost_undefined_message;
       cachedAt := None; source := Some static |}
  /\ state_after (fetchModels localeCompare p apiKey options env) st
     = state_after (ensureModelsDevData (catalog env)) st
  /\ trace_of (fetchModels localeCompare p apiKey options env) st
     = (events_before_merge p options env st
        ++ [ConsoleError (fetch_failed_line p cost_undefined_message)])%list.
Proof.
  intros K Hit T. unfold result_of, state_after, trace_of.
  pose proof (fetchModels_miss K Hit) as E. simpl in E. rewrite T in E.
  rewrite E. repeat split.
Qed.

(** Whether the merge of the call throws, told from the provider's answer. *)
Lemma merge_throws_outer_catch :
  merge_throws (refreshed env st) p (fst (tier_found localeCompare p options env st))
  = outer_catch_entered p options env st.
Proof.
  unfold outer_catch_entered.
  destruct (provider_outcome p options (listing env)) as [listed|message] eqn:O.
  - unfold tier_found. now rewrite O.
  - now apply (tier_found_failed localeCompare p options env st message).
Qed.

(** A call that is served from the cache returns the entry and does
    nothing else. *)
Lemma fetchModels_hit (cached : CacheEntry) :
  no_api_key apiKey = false ->
  cache_hit st options (cacheKey p apiKey) (now_at_cache_check env) = Some cached ->
  fetchModels localeCompare p apiKey options env st
  = ({| success := true; models := ce_models cached; error := None;
        cachedAt := Some (ce_timestamp cached);
        source := Some (ce_source cached) |}, st, []).
Proof.
  intros K Hit. unfold fetchModels. rewrite K.
  unfold bind, read. simpl. rewrite Hit. reflexivity.
Qed.

(** A call without a key: the catalog's models, else the static list
    and the error. *)
Lemma fetchModels_no_key :
  no_api_key apiKey = true ->
  result_of (fetchModels localeCompare p apiKey options env) st
  = match getModelsFromModelsDev localeCompare (refreshed env st) p with
    | (_ :: _) as catalogModels =>
        {| success := true; models := catalogModels; error := None;
           cachedAt := None; source := Some models_dev |}
    | [] =>
        {| success := false; models := getStaticFallbackModels p;
           error := Some "API key is required";
           cachedAt := None; source := Some static |}
    end
  /\ state_after (fetchModels localeCompare p apiKey options env) st
     = state_after (ensureModelsDevData (catalog env)) st
  /\ trace_of (fetchModels localeCompare p apiKey options env) st
     = trace_of (ensureModelsDevData (catalog env)) st.
Proof.
  intros K.
  unfold refreshed, result_of, state_after, trace_of, fetchModels.
  rewrite K. unfold bind, read. simpl.
  destruct (ensureModelsDevData (catalog env) st) as [[[] st1] t1]. simpl.
  destruct (getModelsFromModelsDev localeCompare (modelsDevCache st1) p);
    simpl; rewrite ?app_nil_r; repeat split; reflexivity.
Qed.

End Resolve.

Lemma tier_merged_nonempty
    (localeCompare : string -> string -> comparison)
    (p : APIProvider) (options : option ModelFetchOptions)
    (env : Env) (st : Service) :
  merge_throws (refreshed env st) p (fst (tier_found localeCompare p options env st))
  = false ->
  fst (tier_found localeCompare p options env st) <> [] ->
  tier_merged localeCompare p options env st <> [].
Proof.
  intros T NE E. apply NE. apply length_zero_iff_nil.
  assert (L : (length (fst (tier_found localeCompare p options env st))
               <= length (tier_merged localeCompare p options env st))%nat).
  { unfold tier_merged. destruct p; try (now apply enriched_models_length). lia. }
  rewrite E in L. simpl in L. lia.
Qed.

(** When a call with a key is not served from the cache and the
    provider's fetcher fails, the source of the result is not "api": it is
    "models.dev" when the catalog, as refreshed by the call, lists for the
    provider's namespace at least one model that passes the four tests of
    the code, and "static" otherwise. *)
Lemma provider_failure_source
    (localeCompare : string -> string -> comparison)
    (p : APIProvider) (apiKey : string)
    (options : option ModelFetchOptions) (env : Env) (st : Service)
    (message : string) :
  no_api_key apiKey = false ->
  cache_hit st options (cacheKey p apiKey) (now_at_cache_check env) = None ->
  provider_outcome p options (listing env) = FetchFailed message ->
  source (result_of (fetchModels localeCompare p apiKey options env) st)
  = Some (if existsb listed_by_code (obj_values (catalog_models (refreshed env st) p))
          then models_dev else static).
Proof.
  intros K Hit F.
  destruct (tier_found_failed localeCompare p options env st message F)
    as (Src & _ & T).
  destruct (fetchModels_miss_returns localeCompare p apiKey options env st K Hit T)
    as (-> & _ & _).
  simpl. rewrite Src.
  replace (catalog_yields (refreshed env st) p)
    with (existsb listed_by_code (obj_values (catalog_models (refreshed env st) p)));
    [reflexivity|].
  unfold catalog_yields, catalog_models.
  destruct (provider_catalog (refreshed env st) p) as [pd|]; [|reflexivity].
  induction (obj_values (mp_models pd)) as [|e l IH]; simpl; [reflexivity|].
  now rewrite catalog_keeps_tests, IH.
Qed.

(** Where the catalog lists no speech-to-text model for the provider, the
    models counted are those that the specification calls eligible. *)
Lemma provider_failure_source_eligible
    (localeCompare : string -> string -> comparison)
    (p : APIProvider) (apiKey : string)
    (options : option ModelFetchOptions) (env : Env) (st : Service)
    (message : string) :
  no_api_key apiKey = false ->
  cache_hit st options (cacheKey p apiKey) (now_at_cache_check env) = None ->
  provider_outcome p options (listing env) = FetchFailed message ->
  List.Forall (fun e => Js.includes (md_id e) speech_to_text_marker = false)
    (obj_values (catalog_models (refreshed env st) p)) ->
  source (result_of (fetchModels localeCompare p apiKey options env) st)
  = Some (if existsb spec_eligible (obj_values (catalog_models (refreshed env st) p))
          then models_dev else static).
Proof.
  intros K Hit F NoSpeech.
  rewrite (provider_failure_source localeCompare p apiKey options env st message K Hit F).
  replace (existsb spec_eligible (obj_values (catalog_models (refreshed env st) p)))
    with (existsb listed_by_code (obj_values (catalog_models (refreshed env st) p)));
    [reflexivity|].
  induction NoSpeech as [|e l E _ IH]; simpl; [reflexivity|].
  rewrite IH. f_equal. unfold listed_by_code, spec_eligible. rewrite E.
  now rewrite andb_true_r.
Qed.

(** C1: where the code departs from it.  The provider rejects the key and
    the catalog lists, for the provider, nothing but a speech-to-text
    model, which the specification does not count as eligible.  The claim
    gives the source "static"; the call returns the speech-to-text model
    from the source "models.dev", because [getModelsFromModelsDev] lets it
    pass. *)
Theorem provider_failure_tier_speech_to_text :
  let st := {| cache := ∅; modelsDevCache := whisper_only |} in
  let r := result_of (fetchModels sample_collation openai "sk-test" None env_offline)
             st in
  provider_outcome openai None (listing env_offline)
  = FetchFailed "Request failed with status code 401"
  /\ map (fun e => (md_id e, spec_eligible e))
       (obj_values (catalog_models (refreshed env_offline st) openai))
     = [("whisper-1", false)]
  /\ source r = Some models_dev
  /\ map id (models r) = ["whisper-1"].
Proof. repeat split. Qed.

(** An entry found by [cache_hit] is the one stored under the key. *)
Lemma cache_hit_lookup
    (st : Service) (options : option ModelFetchOptions)
    (key : string) (now : Z) (cached : CacheEntry) :
  cache_hit st options key now = Some cached -> cache st !! key = Some cached.
Proof.
  unfold cache_hit, fresh_entry.
  destruct (not_forced options); [|discriminate].
  destruct (cache st !! key) as [e|]; [|discriminate].
  destruct (now - ce_timestamp e <? CACHE_TTL); congruence.
Qed.

(** After a successful call with a key the cache holds, under the call's
    key, the models and the source that the call returned. *)
Lemma fetchModels_caches
    (localeCompare : string -> string -> comparison)
    (p : APIProvider) (apiKey : string)
    (options : option ModelFetchOptions) (env : Env) (st : Service) :
  no_api_key apiKey = false ->
  let r := result_of (fetchModels localeCompare p apiKey options env) st in
  let st' := state_after (fetchModels localeCompare p apiKey options env) st in
  success r = true ->
  exists e : CacheEntry,
    cache st' !! cacheKey p apiKey = Some e
    /\ ce_models e = models r
    /\ Some (ce_source e) = source r.
Proof.
  intros K r st'. subst r st'.
  destruct (cache_hit st options (cacheKey p apiKey) (now_at_cache_check env))
    as [cached|] eqn:Hit.
  - unfold result_of, state_after.
    rewrite (fetchModels_hit localeCompare p apiKey options env st cached K Hit).
    simpl. intros _. exists cached.
    split; [|split; reflexivity].
    eapply cache_hit_lookup; eassumption.
  - destruct (merge_throws (refreshed env st) p
                (fst (tier_found localeCompare p options env st))) eqn:T.
    + destruct (fetchModels_miss_throws localeCompare p apiKey options env st K Hit T)
        as (-> & _ & _).
      discriminate.
    + destruct (fetchModels_miss_returns localeCompare p apiKey options env st K Hit T)
        as (-> & -> & _).
      simpl. intros _. eexists. split.
      * apply lookup_insert_eq.
      * split; reflexivity.
Qed.



(** The second situation: Anthropic lists a model whose id is the name of
    a member that the catalog's table inherits.  The merge throws on its
    missing [cost]; the call answers with the static list, and caches
    nothing. *)
Example outer_catch_answers :
  let call := fetchModels sample_collation anthropic "sk-test" None env_inherited in
  result_of call new_service
  = {| success := false; models := getStaticFallbackModels anthropic;
       error := Some "Cannot read properties of undefined (reading 'input')";
       cachedAt := None; source := Some static |}
  /\ cache (state_after call new_service) = ∅
  /\ trace_of call new_service
     = [CatalogRequest None; ProviderRequest anthropic;
        ConsoleLog "models.dev catalog loaded: 1 providers";
        ConsoleError
          "Failed to fetch models for anthropic: Cannot read properties of undefined (reading 'input')"].
Proof. repeat split. Qed.

(** C3, as the code has it.  When a call with a key is not served from
    the cache and the provider's fetcher fails, the result has
    [success = true], a source other than "api", no error field and a
    non-empty list of models; the message of the failure is written to
    the console and to nothing else. *)
Theorem provider_failure_result :
  forall (localeCompare : string -> string -> comparison)
         (p : APIProvider) (apiKey : string)
         (options : option ModelFetchOptions) (env : Env) (st : Service)
         (message : string),
    no_api_key apiKey = false ->
    cache_hit st options (cacheKey p apiKey) (now_at_cache_check env) = None ->
    provider_outcome p options (listing env) = FetchFailed message ->
    let r := result_of (fetchModels localeCompare p apiKey options env) st in
    success r = true
    /\ source r <> Some api
    /\ error r = None
    /\ models r <> []
    /\ getStaticFallbackModels p <> []
    /\ In (ConsoleWarn (api_failed_line p message))
          (trace_of (fetchModels localeCompare p apiKey options env) st).
Proof.
  intros lc p apiKey options env st message K Hit F r. subst r.
  destruct (tier_found_failed lc p options env st message F) as (Src & NE & T).
  destruct (fetchModels_miss_returns lc p apiKey options env st K Hit T)
    as (-> & _ & ->).
  simpl. rewrite Src. unfold events_before_merge. rewrite F.
  split; [reflexivity|].
  split; [destruct (catalog_yields (refreshed env st) p); discriminate|].
  split; [reflexivity|].
  split; [now apply tier_merged_nonempty|].
  split; [apply getStaticFallbackModels_nonempty|].
  rewrite !in_app_iff. left. right. right. left. simpl. auto.
Qed.

Lemma provider_failure_result_witness :
  no_api_key "sk-test" = false
  /\ cache_hit new_service None (cacheKey gemini "sk-test") 1000 = None
  /\ provider_outcome gemini None (listing env_offline)
     = FetchFailed "Request failed with status code 401"
  /\ error (result_of (fetchModels sample_collation gemini "sk-test" None env_offline)
              new_service) = None.
Proof.
  split; [reflexivity|]. split; [reflexivity|]. split; [reflexivity|].
  exact (proj1 (proj2 (proj2
           (provider_failure_result sample_collation gemini "sk-test" None
              env_offline new_service "Request failed with status code 401"
              eq_refl eq_refl eq_refl)))).
Defined.

(** C3 as stated fails: the provider rejects the key, the call falls back
    to the static list, and the result it returns has no error field. *)
Lemma degraded_result_has_no_error :
  let r := result_of (fetchModels sample_collation openai "sk-test" None env_offline)
             new_service in
  provider_outcome openai None (listing env_offline)
  = FetchFailed "Request failed with status code 401"
  /\ source r = Some static
  /\ success r = true
  /\ error r = None.
Proof. repeat split. Qed.

(** C4. After a successful call of [fetchModels] with a key, the result
    cache holds an entry under the call's cache key, and every further
    call for the same provider and key that does not force a refresh, made
    while that entry is younger than the five-minute TTL, returns the
    models and the source of the first call, sends no request and leaves
    the instance as it was. *)
Theorem cached_result_replayed :
  forall (localeCompare : string -> string -> comparison)
         (p : APIProvider) (apiKey : string)
         (options1 : option ModelFetchOptions) (env1 : Env) (st : Service),
    let r1 := result_of (fetchModels localeCompare p apiKey options1 env1) st in
    let st1 := state_after (fetchModels localeCompare p apiKey options1 env1) st in
    no_api_key apiKey = false ->
    success r1 = true ->
    exists cached : CacheEntry,
      cache st1 !! cacheKey p apiKey = Some cached
      /\ forall (options2 : option ModelFetchOptions) (env2 : Env),
           not_forced options2 = true ->
           now_at_cache_check env2 - ce_timestamp cached < 5 * 60 * 1000 ->
           fetchModels localeCompare p apiKey options2 env2 st1
           = ({| success := true; models := models r1; error := None;
                 cachedAt := Some (ce_timestamp cached); source := source r1 |},
              st1, [])
           /\ network_calls
                (trace_of (fetchModels localeCompare p apiKey options2 env2) st1)
              = [].
Proof.
  intros lc p apiKey o1 env1 st r1 st1 K S.
  destruct (fetchModels_caches lc p apiKey o1 env1 st K S) as (cached & L & Ms & Src).
  fold st1 in L. fold r1 in Ms, Src.
  exists cached. split; [exact L|]. intros o2 env2 NF Young.
  assert (Hit : cache_hit st1 o2 (cacheKey p apiKey) (now_at_cache_check env2)
                = Some cached).
  { unfold cache_hit, fresh_entry. rewrite NF, L.
    replace (now_at_cache_check env2 - ce_timestamp cached <? CACHE_TTL) with true;
      [reflexivity|].
    symmetry. apply Z.ltb_lt. exact Young. }
  pose proof (fetchModels_hit lc p apiKey o2 env2 st1 cached K Hit) as E.
  unfold trace_of. rewrite E, Ms, Src.
  split; reflexivity.
Qed.

Lemma cached_result_replayed_witness :
  let call := fetchModels sample_collation openai "sk-test" None env_online in
  let st1 := state_after call new_service in
  let again := fetchModels sample_collation openai "sk-test" None env_later in
  no_api_key "sk-test" = false
  /\ success (result_of call new_service) = true
  /\ map id (models (result_of call new_service)) = ["gpt-4o"; "gpt-4.1"]
  /\ result_of again st1
     = {| success := true; models := models (result_of call new_service);
          error := None; cachedAt := Some 1300; source := Some api |}
  /\ network_calls (trace_of again st1) = [].
Proof.
  intros call st1 again.
  split; [reflexivity|]. split; [reflexivity|]. split; [reflexivity|].
  destruct (cached_result_replayed sample_collation openai "sk-test" None
              env_online new_service eq_refl eq_refl) as (cached & L & Replay).
  fold call st1 in L, Replay.
  assert (Stamp : ce_timestamp cached = 1300).
  { change (cache st1 !! cacheKey openai "sk-test")
      with (Some {| ce_models := models (result_of call new_service);
                    ce_timestamp := 1300; ce_source := api |}) in L.
    now injection L as <-. }
  destruct (Replay None env_later eq_refl) as [E Quiet].
  { rewrite Stamp. reflexivity. }
  fold again in E, Quiet. split; [|exact Quiet].
  unfold result_of. rewrite E, Stamp. reflexivity.
Defined.

(** ** The invariant of the catalog snapshot *)

(** [fetchModels] leaves the snapshot as it was or as its refresh left it. *)
Lemma fetchModels_modelsDevCache
    (localeCompare : string -> string -> comparison)
    (p : APIProvider) (apiKey : string)
    (options : option ModelFetchOptions) (env : Env) (st : Service) :
  let c := modelsDevCache
             (state_after (fetchModels localeCompare p apiKey options env) st) in
  c = modelsDevCache st \/ c = refreshed env st.
Proof.
  simpl. destruct (no_api_key apiKey) eqn:K.
  - destruct (fetchModels_no_key localeCompare p apiKey options env st K)
      as (_ & -> & _). now right.
  - destruct (cache_hit st options (cacheKey p apiKey) (now_at_cache_check env))
      as [cached|] eqn:Hit.
    + unfold state_after.
      rewrite (fetchModels_hit localeCompare p apiKey options env st cached K Hit).
      now left.
    + destruct (merge_throws (refreshed env st) p
                  (fst (tier_found localeCompare p options env st))) eqn:T.
      * destruct (fetchModels_miss_throws localeCompare p apiKey options env st
                    K Hit T) as (_ & -> & _). now right.
      * destruct (fetchModels_miss_returns localeCompare p apiKey options env st
                    K Hit T) as (_ & -> & _). now right.
Qed.

Lemma tag_has_data_fetchModels
    (localeCompare : string -> string -> comparison)
    (p : APIProvider) (apiKey : string)
    (options : option ModelFetchOptions) (env : Env) (st : Service) :
  tag_has_data (modelsDevCache st) = true ->
  tag_has_data
    (modelsDevCache
       (state_after (fetchModels localeCompare p apiKey options env) st)) = true.
Proof.
  intros I.
  destruct (fetchModels_modelsDevCache localeCompare p apiKey options env st)
    as [-> | ->]; [exact I|].
  now apply tag_has_data_ensure.
Qed.

Lemma tag_has_data_clearCache (p : option APIProvider) (st : Service) :
  tag_has_data (modelsDevCache st) = true ->
  tag_has_data (modelsDevCache (clearCache p st)) = true.
Proof. now destruct p. Qed.

(** ** The scenarios of the specification *)

(** Without a key, a catalog that holds eligible models for the provider
    answers with them, sorted, from the source "models.dev". *)
Example scenario_catalog_only :
  let r := result_of (fetchModels sample_collation openai "" None env_offline)
             sample_service in
  success r = true
  /\ map name (models r) = ["GPT-4.1"; "GPT-4o"]
  /\ source r = Some models_dev
  /\ error r = None.
Proof. repeat split. Qed.

(** A listed model without a price takes the catalog's price, and the
    catalog's other model is appended; the source is "api". *)
Example scenario_enriched :
  let r := result_of (fetchModels sample_collation openai "sk-test" None env_online)
             new_service in
  map (fun m => (id m, output <$> pricing m)) (models r)
  = [("gpt-4o", Some (10 # 1)); ("gpt-4.1", Some (8 # 1))]
  /\ source r = Some api.
Proof. repeat split. Qed.

(** An id outside the static allow-list gives way to the default. *)
Example scenario_bogus_id :
  sanitize "bogus-id" anthropic solutionModel None = "claude-3-7-sonnet-20250219".
Proof. reflexivity. Qed.

(** * Further properties of the code *)

(** ** The sanitizer and the static tables *)

(** Every default model is on the static allow-list of its provider. *)
Lemma default_for_allowed (p : APIProvider) (c : ModelCategoryKey) :
  In (default_for p c) (ALLOWED_MODELS p).
Proof. destruct p, c; simpl; tauto. Qed.

Lemma trim_nonblank (s : string) :
  (String.length (Js.trim s) =? 0)%nat = false -> Js.trim s <> "".
Proof. intros H E. rewrite E in H. discriminate. Qed.

(** X1. Whatever id is chosen, [sanitizeModelSelection] returns an id
    that is on the provider's static allow-list, or is not blank and
    meant for a provider with an open model space, or is on the dynamic
    allow-list it was given. *)
Theorem sanitize_result_valid :
  forall (model : string) (p : APIProvider) (c : ModelCategoryKey)
         (dynamicAllowList : option (list string)),
    let r := sanitize model p c dynamicAllowList in
    In r (ALLOWED_MODELS p)
    \/ (is_dynamic_provider p = true /\ Js.trim r <> "")
    \/ (exists l, dynamicAllowList = Some l /\ In r l).
Proof.
  intros model p c dyn r. subst r.
  unfold sanitize, sanitizeModelSelection.
  destruct (match dyn with Some (x :: l) => Js.arr_includes (x :: l) model
                      | _ => false end) eqn:D; simpl.
  { right. right. destruct dyn as [[|x l]|]; try discriminate.
    exists (x :: l). split; [reflexivity | now apply arr_includes_In]. }
  destruct (is_dynamic_provider p) eqn:Dp; simpl.
  - destruct (Js.truthy model && negb (String.length (Js.trim model) =? 0)%nat)
      eqn:N; simpl.
    + right. left. split; [reflexivity|].
      apply andb_true_iff in N. destruct N as [_ N].
      apply negb_true_iff in N. now apply trim_nonblank.
    + destruct (Js.arr_includes (ALLOWED_MODELS p) model) eqn:A; simpl.
      * left. now apply arr_includes_In.
      * left. destruct (Js.truthy (default_for p c)) eqn:T; simpl;
          [apply default_for_allowed | destruct p, c; discriminate].
  - destruct (Js.arr_includes (ALLOWED_MODELS p) model) eqn:A; simpl.
    + left. now apply arr_includes_In.
    + left. destruct (Js.truthy (default_for p c)) eqn:T; simpl;
        [apply default_for_allowed | destruct p, c; discriminate].
Qed.

(** X2. [sanitizeModelSelection] writes its warning exactly when it
    replaces the chosen id: a call that returns the id it was given logs
    nothing, and a call that logs returns the default, which differs from
    the id it was given. *)
Theorem sanitize_warns_iff_replaced :
  forall (model : string) (p : APIProvider) (c : ModelCategoryKey)
         (dynamicAllowList : option (list string)),
    snd (sanitizeModelSelection model p c dynamicAllowList) = None
    <-> sanitize model p c dynamicAllowList = model.
Proof.
  intros model p c dyn. unfold sanitize, sanitizeModelSelection.
  destruct (match dyn with Some (x :: l) => Js.arr_includes (x :: l) model
                      | _ => false end); simpl; [tauto|].
  destruct (is_dynamic_provider p
            && (Js.truthy model && negb (String.length (Js.trim model) =? 0)%nat));
    simpl; [tauto|].
  destruct (Js.arr_includes (ALLOWED_MODELS p) model) eqn:A; simpl; [tauto|].
  destruct (Js.truthy (default_for p c)) eqn:T; simpl; [|tauto].
  split; [discriminate|]. intros E. exfalso.
  assert (In model (ALLOWED_MODELS p))
    by (rewrite <- E; apply default_for_allowed).
  apply arr_includes_In in H. congruence.
Qed.

(** X3. Of the models the settings dialog offers when none was fetched,
    the sanitizer keeps every one, except for Gemini's solution and
    debugging lists: there every offered id but "gemini-1.5-pro" is
    replaced by the default "gemini-3-flash-preview". *)
Theorem offered_models_sanitized :
  forall (p : APIProvider) (c : ModelCategoryKey) (m : AIModel),
    In m (offered_models c p) ->
    sanitize (ai_id m) p c None
    = if bool_decide (p = gemini)
         && (bool_decide (c = solutionModel) || bool_decide (c = debuggingModel))
         && negb (String.eqb (ai_id m) "gemini-1.5-pro")
      then "gemini-3-flash-preview"
      else ai_id m.
Proof.
  intros p c m H.
  destruct p, c; simpl in H;
    repeat (destruct H as [<- | H]; [reflexivity|]); destruct H.
Qed.

Lemma offered_models_sanitized_witness :
  In {| ai_id := "gemini-3-pro-latest"; ai_name := "Gemini 3 Pro (Latest)";
        ai_description := "Strong overall performance - latest version" |}
     (offered_models solutionModel gemini)
  /\ sanitize "gemini-3-pro-latest" gemini solutionModel None
     = "gemini-3-flash-preview".
Proof.
  split; [left; reflexivity|].
  exact (offered_models_sanitized gemini solutionModel _ (or_introl eq_refl)).
Defined.

(** ** Parameters of an OpenAI-compatible call *)

Lemma toLowerCase_app (a b : string) :
  Js.toLowerCase (a ++ b) = Js.toLowerCase a ++ Js.toLowerCase b.
Proof.
  induction a as [|c a IH]; [reflexivity|].
  change (Js.toLowerCase (String c a ++ b))
    with (String (Js.lower_char c) (Js.toLowerCase (a ++ b))).
  now rewrite IH.
Qed.

(** Lower-casing neither makes nor removes a slash. *)
Lemma lower_char_slash (c : ascii) :
  Ascii.eqb (Js.lower_char c) "/" = Ascii.eqb c "/".
Proof. destruct c as [[] [] [] [] [] [] [] []]; reflexivity. Qed.

Lemma includes_slash_cons (c : ascii) (s : string) :
  Js.includes (String c s) "/" = Ascii.eqb c "/" || Js.includes s "/".
Proof.
  change (Js.includes (String c s) "/")
    with (String.prefix "/" (String c s) || Js.includes s "/").
  change (String.prefix "/" (String c s))
    with (if ascii_dec "/" c then String.prefix "" s else false).
  destruct (ascii_dec "/" c) as [<-|N].
  - rewrite Ascii.eqb_refl. now destruct s.
  - destruct (Ascii.eqb c "/") eqn:E; [|reflexivity].
    apply Ascii.eqb_eq in E. congruence.
Qed.

Lemma includes_slash_lower (s : string) :
  Js.includes (Js.toLowerCase s) "/" = Js.includes s "/".
Proof.
  induction s as [|c s IH]; [reflexivity|].
  change (Js.toLowerCase (String c s))
    with (String (Js.lower_char c) (Js.toLowerCase s)).
  now rewrite !includes_slash_cons, lower_char_slash, IH.
Qed.

Lemma includes_slash_app (a b : string) :
  Js.includes (a ++ String "/" b) "/" = true.
Proof.
  induction a as [|c a IH].
  - change ("" ++ String "/" b) with (String "/" b).
    now rewrite includes_slash_cons.
  - change (String c a ++ String "/" b) with (String c (a ++ String "/" b)).
    rewrite includes_slash_cons, IH. apply orb_true_r.
Qed.

Lemma split_char_cons (sep c : ascii) (s : string) :
  exists seg rest,
    Js.split_char sep s = seg :: rest
    /\ Js.split_char sep (String c s)
       = if Ascii.eqb c sep then "" :: seg :: rest else String c seg :: rest.
Proof.
  simpl. destruct (Js.split_char sep s) as [|seg rest] eqn:E.
  - exfalso. destruct s; simpl in E; [discriminate|].
    destruct (Js.split_char sep s); [discriminate|].
    destruct (Ascii.eqb a sep); discriminate.
  - eauto.
Qed.

(** A string without a slash is its own single segment. *)
Lemma split_char_no_slash (s : string) :
  Js.includes s "/" = false -> Js.split_char "/" s = [s].
Proof.
  induction s as [|c s IH]; [reflexivity|].
  rewrite includes_slash_cons. intros H.
  apply orb_false_iff in H. destruct H as [Hc Hs].
  simpl. rewrite (IH Hs), Hc. reflexivity.
Qed.

(** The last segment of [a/b] is the last segment of [b]. *)
Lemma pop_split_app (a b : string) :
  (2 <= length (Js.split_char "/" (a ++ String "/" b)))%nat
  /\ Js.pop (Js.split_char "/" (a ++ String "/" b))
     = Js.pop (Js.split_char "/" b).
Proof.
  induction a as [|c a [L IH]].
  - destruct (split_char_cons "/" "/" b) as (seg & rest & E & E').
    change ("" ++ String "/" b) with (String "/" b).
    rewrite E', E. simpl. split; [lia | reflexivity].
  - change (String c a ++ String "/" b) with (String c (a ++ String "/" b)).
    destruct (split_char_cons "/" c (a ++ String "/" b)) as (seg & rest & E & E').
    rewrite E'. rewrite E in L, IH. rewrite <- IH.
    destruct rest as [|seg' rest]; [simpl in L; lia|].
    destruct (Ascii.eqb c "/"); simpl; split; (lia || reflexivity).
Qed.

(** X4. [isNewerModel] classifies an id with provider prefixes, as
    OpenRouter writes them, by what follows its last slash: for a model
    name without a slash, [ns/name] is a newer model exactly when [name]
    is, whatever [ns] is. *)
Theorem isNewerModel_strips_prefix :
  forall (ns model : string),
    Js.includes model "/" = false ->
    isNewerModel (ns ++ "/" ++ model) = isNewerModel model.
Proof.
  intros ns model H. unfold isNewerModel.
  change (ns ++ "/" ++ model) with (ns ++ String "/" model).
  rewrite toLowerCase_app.
  change (Js.toLowerCase (String "/" model))
    with (String "/" (Js.toLowerCase model)).
  rewrite includes_slash_app, includes_slash_lower, H.
  rewrite (proj2 (pop_split_app _ _)).
  rewrite split_char_no_slash by (now rewrite includes_slash_lower).
  reflexivity.
Qed.

Lemma isNewerModel_strips_prefix_witness :
  Js.includes "GPT-5-mini" "/" = false
  /\ isNewerModel "openai/GPT-5-mini" = true
  /\ isNewerModel "o1/gpt-4o" = false.
Proof.
  split; [reflexivity|]. split.
  - exact (isNewerModel_strips_prefix "openai" "GPT-5-mini" eq_refl).
  - exact (isNewerModel_strips_prefix "o1" "gpt-4o" eq_refl).
Defined.

(** X5. [getModelParams] carries the token limit under the key that
    [getTokenLimitParam] chooses and under no other: one of "max_tokens"
    and "max_completion_tokens", never both.  A newer model never gets a
    "temperature"; an older one gets the temperature that was asked for. *)
Theorem getModelParams_keys :
  forall (model : string) (opts : ModelParamOptions),
    let ps := getModelParams model opts in
    getTokenLimitParam model (maxTokens opts) ⊆ ps
    /\ ps !! "max_tokens"
       = (if isNewerModel model then None else Some (maxTokens opts))
    /\ ps !! "max_completion_tokens"
       = (if isNewerModel model then Some (maxTokens opts) else None)
    /\ ps !! "temperature"
       = (if isNewerModel model then None else temperature opts)
    /\ size ps
       = (if isNewerModel model then 1
          else match temperature opts with Some _ => 2 | None => 1 end)%nat.
Proof.
  intros model opts ps. subst ps.
  unfold getModelParams, getTokenLimitParam.
  destruct (isNewerModel model), (temperature opts) as [t|]; simpl;
    repeat split;
    try (apply map_subseteq_spec; intros k v Hk;
         apply lookup_singleton_Some in Hk; destruct Hk as [<- <-]);
    try reflexivity.
Qed.

(** ** The credential fingerprint *)

Lemma to_int32_range (x : Z) : - 2 ^ 31 <= Js.to_int32 x < 2 ^ 31.
Proof.
  unfold Js.to_int32.
  pose proof (Z.mod_pos_bound (x + 2 ^ 31) (2 ^ 32) eq_refl). lia.
Qed.

(** Numbers that differ by a multiple of 2^32 convert alike. *)
Lemma to_int32_shift (x k : Z) : Js.to_int32 (x + 2 ^ 32 * k) = Js.to_int32 x.
Proof.
  unfold Js.to_int32. f_equal.
  replace (x + 2 ^ 32 * k + 2 ^ 31) with (x + 2 ^ 31 + k * 2 ^ 32) by ring.
  apply Z_mod_plus_full.
Qed.

Lemma to_int32_multiple (x : Z) : exists k, Js.to_int32 x = x + 2 ^ 32 * k.
Proof.
  unfold Js.to_int32. exists (- ((x + 2 ^ 31) / 2 ^ 32)).
  pose proof (Z.div_mod (x + 2 ^ 31) (2 ^ 32) ltac:(discriminate)). lia.
Qed.

(** One round of the loop of [hashKey], on numbers known up to 2^32. *)
Lemma hash_step (h x c : Z) :
  h = Js.to_int32 x ->
  Js.to_int32 (Js.shl32 h 5 - h + c) = Js.to_int32 (31 * x + c).
Proof.
  intros ->. unfold Js.shl32. rewrite Z.shiftl_mul_pow2 by lia.
  destruct (to_int32_multiple x) as [k1 E1].
  destruct (to_int32_multiple (Js.to_int32 x * 2 ^ 5)) as [k2 E2].
  rewrite E2, E1.
  replace ((x + 2 ^ 32 * k1) * 2 ^ 5 + 2 ^ 32 * k2 - (x + 2 ^ 32 * k1) + c)
    with (31 * x + c + 2 ^ 32 * (31 * k1 + k2)) by ring.
  apply to_int32_shift.
Qed.

Lemma hash_fold (l : list ascii) (h x : Z) :
  h = Js.to_int32 x ->
  fold_left
    (fun hash ch =>
       Js.to_int32 (Js.shl32 hash 5 - hash + Z.of_nat (nat_of_ascii ch))) l h
  = Js.to_int32
      (fold_left (fun acc ch => 31 * acc + Z.of_nat (nat_of_ascii ch)) l x).
Proof.
  revert h x. induction l as [|c l IH]; intros h x E; simpl; [exact E|].
  apply IH. symmetry. symmetry. now apply hash_step.
Qed.

Lemma hashCode_poly31 (key : string) :
  hashCode key = Js.to_int32 (poly31 0 key).
Proof. unfold hashCode, poly31. now apply hash_fold. Qed.

(** X6. The number behind [hashKey] is the polynomial in 31 of the code
    units of the key, wrapped to a signed 32-bit integer: the shift, the
    subtraction and the wrap of each round lose nothing but multiples of
    2^32.  It lies between -2^31 and 2^31 - 1. *)
Theorem hashCode_polynomial :
  forall key : string,
    hashKey key = Js.toString36 (hashCode key)
    /\ hashCode key = Js.to_int32 (poly31 0 key)
    /\ - 2 ^ 31 <= hashCode key < 2 ^ 31.
Proof.
  intros key.
  split; [reflexivity|]. split; [apply hashCode_poly31|].
  rewrite hashCode_poly31. apply to_int32_range.
Qed.

Lemma list_ascii_of_string_app (a b : string) :
  list_ascii_of_string (a ++ b)
  = (list_ascii_of_string a ++ list_ascii_of_string b)%list.
Proof.
  induction a as [|c a IH]; [reflexivity|].
  change (String c a ++ b) with (String c (a ++ b)). simpl. now rewrite IH.
Qed.

Lemma poly31_app (h : Z) (a b : string) :
  poly31 h (a ++ b) = poly31 (poly31 h a) b.
Proof. unfold poly31. now rewrite list_ascii_of_string_app, fold_left_app. Qed.

(** X7. [hashKey] does not tell "Aa" from "BB": two keys that differ
    only in that one has "Aa" where the other has "BB" get the same
    fingerprint, and so the same cache key for every provider. *)
Theorem hashKey_collision :
  forall (before after : string) (p : APIProvider),
    hashKey (before ++ "Aa" ++ after) = hashKey (before ++ "BB" ++ after)
    /\ cacheKey p (before ++ "Aa" ++ after)
       = cacheKey p (before ++ "BB" ++ after).
Proof.
  intros before after p.
  assert (E : hashCode (before ++ "Aa" ++ after)
              = hashCode (before ++ "BB" ++ after)).
  { rewrite !hashCode_poly31, !poly31_app.
    set (h := poly31 0 before).
    change (poly31 h "Aa") with (31 * (31 * h + 65) + 97).
    change (poly31 h "BB") with (31 * (31 * h + 66) + 66).
    do 2 f_equal. lia. }
  assert (H : hashKey (before ++ "Aa" ++ after)
              = hashKey (before ++ "BB" ++ after)).
  { change (Js.toString36 (hashCode (before ++ "Aa" ++ after))
            = Js.toString36 (hashCode (before ++ "BB" ++ after))).
    now rewrite E. }
  split; [exact H|]. unfold cacheKey. now rewrite H.
Qed.

(** The digit printed for [d] reads back as [d], and is not the sign. *)
Lemma digit36_value_digit36 (d : Z) :
  0 <= d < 36 ->
  digit36_value (Js.digit36 d) = d /\ Js.digit36 d <> "-"%char.
Proof.
  intros Hd. unfold digit36_value, Js.digit36.
  assert (N : forall n : nat, (n < 256)%nat ->
                Z.of_nat (nat_of_ascii (ascii_of_nat n)) = Z.of_nat n)
    by (intros n Hn; now rewrite nat_ascii_embedding).
  destruct (d <? 10) eqn:E.
  - apply Z.ltb_lt in E. split.
    + rewrite N by lia. rewrite Z2Nat.id by lia.
      destruct (48 + d <? 58) eqn:F; [lia | apply Z.ltb_ge in F; lia].
    + intros C. apply (f_equal (fun a => Z.of_nat (nat_of_ascii a))) in C.
      rewrite N in C by lia. rewrite Z2Nat.id in C by lia.
      change (Z.of_nat (nat_of_ascii "-")) with 45 in C. lia.
  - apply Z.ltb_ge in E. split.
    + rewrite N by lia. rewrite Z2Nat.id by lia.
      destruct (87 + d <? 58) eqn:F; [apply Z.ltb_lt in F; lia | lia].
    + intros C. apply (f_equal (fun a => Z.of_nat (nat_of_ascii a))) in C.
      rewrite N in C by lia. rewrite Z2Nat.id in C by lia.
      change (Z.of_nat (nat_of_ascii "-")) with 45 in C. lia.
Qed.

Lemma digits36_value_cons (c : ascii) (s : string) :
  digits36_value (String c s)
  = digit36_value c * 36 ^ Z.of_nat (String.length s) + digits36_value s.
Proof. reflexivity. Qed.

(** The digits printed for [n] in front of [acc] read back as [n],
    shifted past [acc]. *)
Lemma digits36_value_digits36 (fuel : nat) :
  forall (n : Z) (acc : string),
    (1 <= fuel)%nat -> 0 <= n < 36 ^ Z.of_nat fuel ->
    digits36_value (Js.digits36 fuel n acc)
    = n * 36 ^ Z.of_nat (String.length acc) + digits36_value acc
    /\ exists c s, Js.digits36 fuel n acc = String c s /\ c <> "-"%char.
Proof.
  induction fuel as [|fuel IH]; intros n acc Hf Hn; [lia|].
  pose proof (Z.div_mod n 36 ltac:(lia)) as DM.
  pose proof (Z.mod_pos_bound n 36 ltac:(lia)) as MB.
  destruct (digit36_value_digit36 (n mod 36) MB) as [DV DS].
  simpl Js.digits36.
  destruct (n / 36 =? 0) eqn:Q.
  - apply Z.eqb_eq in Q. split.
    + rewrite digits36_value_cons, DV. rewrite Q in DM. nia.
    + eauto.
  - apply Z.eqb_neq in Q.
    assert (Hq : 0 <= n / 36 < 36 ^ Z.of_nat fuel).
    { split; [apply Z.div_pos; lia|].
      apply Z.div_lt_upper_bound; [lia|].
      rewrite Nat2Z.inj_succ, Z.pow_succ_r in Hn by lia. lia. }
    assert (Hf' : (1 <= fuel)%nat).
    { destruct fuel; [simpl in Hq; lia | lia]. }
    destruct (IH (n / 36) (String (Js.digit36 (n mod 36)) acc) Hf' Hq)
      as [V H]. split; [|exact H].
    rewrite V, digits36_value_cons, DV.
    change (String.length (String (Js.digit36 (n mod 36)) acc))
      with (S (String.length acc)).
    rewrite Nat2Z.inj_succ, Z.pow_succ_r by lia. nia.
Qed.

(** What [toString(36)] prints for a 32-bit integer reads back as it. *)
Lemma base36_value_toString36 (n : Z) :
  - 36 ^ 7 < n < 36 ^ 7 -> base36_value (Js.toString36 n) = n.
Proof.
  intros Hn. unfold Js.toString36.
  destruct (n <? 0) eqn:S.
  - apply Z.ltb_lt in S.
    destruct (digits36_value_digits36 7 (- n) "" ltac:(lia)) as [V _];
      [change (Z.of_nat 7) with 7; lia|].
    unfold base36_value. rewrite V. simpl. lia.
  - apply Z.ltb_ge in S.
    destruct (digits36_value_digits36 7 n "" ltac:(lia)) as [V (c & s & E & Hc)];
      [change (Z.of_nat 7) with 7; lia|].
    rewrite E in *. unfold base36_value.
    destruct c as [[] [] [] [] [] [] [] []];
      try (rewrite V; simpl; lia).
    now contradiction Hc.
Qed.

Lemma hashKey_reads_back (key : string) :
  base36_value (hashKey key) = hashCode key.
Proof.
  change (hashKey key) with (Js.toString36 (hashCode key)).
  apply base36_value_toString36.
  rewrite hashCode_poly31.
  pose proof (to_int32_range (poly31 0 key)). lia.
Qed.

Lemma string_app_inv_head (a x y : string) : a ++ x = a ++ y -> x = y.
Proof.
  induction a as [|c a IH]; intros E; [exact E|].
  apply IH. now injection E.
Qed.

(** X8. Two cache keys are equal exactly when they are for the same
    provider and for credentials with the same 32-bit hash: printing the
    hash in radix 36 loses nothing, and no provider's tag followed by a
    colon begins another provider's key. *)
Theorem cacheKey_eq_iff :
  forall (p q : APIProvider) (apiKey1 apiKey2 : string),
    cacheKey p apiKey1 = cacheKey q apiKey2
    <-> p = q /\ hashCode apiKey1 = hashCode apiKey2.
Proof.
  intros p q k1 k2. split.
  - intros E.
    assert (P : p = q).
    { pose proof (cacheKey_startsWith p q k2) as S.
      rewrite <- E, cacheKey_startsWith in S.
      rewrite bool_decide_eq_true_2 in S by reflexivity.
      symmetry in S. now apply bool_decide_eq_true in S. }
    split; [exact P|]. subst q.
    rewrite <- !hashKey_reads_back. f_equal.
    unfold cacheKey in E.
    now apply string_app_inv_head, string_app_inv_head in E.
  - intros [-> H]. unfold cacheKey. f_equal. f_equal.
    change (Js.toString36 (hashCode k1) = Js.toString36 (hashCode k2)).
    now rewrite H.
Qed.

(** Two credentials with the same 32-bit hash have the same cache key. *)
Lemma cacheKey_same_hash (p : APIProvider) (apiKey1 apiKey2 : string) :
  hashCode apiKey1 = hashCode apiKey2 -> cacheKey p apiKey1 = cacheKey p apiKey2.
Proof.
  intros H. unfold cacheKey. f_equal. f_equal.
  change (Js.toString36 (hashCode apiKey1) = Js.toString36 (hashCode apiKey2)).
  now rewrite H.
Qed.

(** X9. The result cache does not tell apart two credentials with the
    same 32-bit hash: after a successful call with one of them, an
    unforced call with the other, made for the same provider while the
    entry is younger than the TTL, is answered with the models and the
    source that the first credential obtained, and nothing is sent. *)
Theorem colliding_credentials_share_cache :
  forall (localeCompare : string -> string -> comparison)
         (p : APIProvider) (apiKey1 apiKey2 : string)
         (options1 options2 : option ModelFetchOptions)
         (env1 env2 : Env) (st : Service) (cached : CacheEntry),
    let r1 := result_of (fetchModels localeCompare p apiKey1 options1 env1) st in
    let st1 := state_after (fetchModels localeCompare p apiKey1 options1 env1) st in
    no_api_key apiKey1 = false ->
    success r1 = true ->
    no_api_key apiKey2 = false ->
    hashCode apiKey1 = hashCode apiKey2 ->
    not_forced options2 = true ->
    cache st1 !! cacheKey p apiKey1 = Some cached ->
    now_at_cache_check env2 - ce_timestamp cached < CACHE_TTL ->
    fetchModels localeCompare p apiKey2 options2 env2 st1
    = ({| success := true; models := models r1; error := None;
          cachedAt := Some (ce_timestamp cached); source := source r1 |},
       st1, []).
Proof.
  intros lc p k1 k2 o1 o2 env1 env2 st cached r1 st1 K1 S K2 H NF L Young.
  pose proof (cacheKey_same_hash p k1 k2 H) as EK.
  destruct (fetchModels_caches lc p k1 o1 env1 st K1 S) as (e & Le & Ms & Src).
  fold st1 in Le. fold r1 in Ms, Src.
  assert (e = cached) by congruence. subst e.
  rewrite <- Ms, <- Src.
  apply fetchModels_hit; [exact K2|].
  unfold cache_hit, fresh_entry. rewrite NF, <- EK, L.
  apply Z.ltb_lt in Young. now rewrite Young.
Qed.

Lemma colliding_credentials_share_cache_witness :
  let st1 := state_after (fetchModels sample_collation openai "sk-Aa-1" None env_online)
               new_service in
  hashCode "sk-Aa-1" = hashCode "sk-BB-1"
  /\ map id (models (result_of
                       (fetchModels sample_collation openai "sk-BB-1" None env_later)
                       st1))
     = ["gpt-4o"; "gpt-4.1"]
  /\ trace_of (fetchModels sample_collation openai "sk-BB-1" None env_later) st1 = [].
Proof.
  intros st1.
  pose proof (colliding_credentials_share_cache sample_collation openai
                "sk-Aa-1" "sk-BB-1" None None env_online env_later new_service _
                eq_refl eq_refl eq_refl eq_refl eq_refl eq_refl eq_refl) as E.
  split; [reflexivity|].
  unfold result_of, trace_of. fold st1 in E. rewrite E.
  split; reflexivity.
Defined.

(** ** Models derived from the catalog *)

(** X10. Every model that [getModelsFromModelsDev] returns is for the
    provider asked for, carries a price and a context length, is flagged
    as a chat model and never as an embedding model, and has an id that
    contains neither "embedding" nor "tts". *)
Theorem getModelsFromModelsDev_models :
  forall (localeCompare : string -> string -> comparison)
         (c : ModelsDevCache) (p : APIProvider),
    Forall
      (fun m =>
         provider m = p
         /\ is_Some (pricing m)
         /\ is_Some (contextLength m)
         /\ flag chat m = Some true
         /\ flag embedding m = Some false
         /\ Js.includes (id m) "embedding" = false
         /\ Js.includes (id m) "tts" = false)
      (getModelsFromModelsDev localeCompare c p).
Proof.
  intros lc c p. apply Forall_forall. intros m Hm.
  apply list_elem_of_In in Hm.
  unfold getModelsFromModelsDev in Hm.
  destruct (provider_catalog c p) as [pd|]; [|destruct Hm].
  apply (Permutation_in _ (sort_Permutation _ _)) in Hm.
  apply in_map_iff in Hm. destruct Hm as (e & <- & He).
  apply filter_In in He. destruct He as [_ Keep].
  rewrite catalog_keeps_tests in Keep.
  repeat (apply andb_true_iff in Keep; destruct Keep as [Keep ?]).
  unfold flag. simpl.
  match goal with H : negb (Js.includes _ "embedding") = true |- _ =>
    apply negb_true_iff in H; rewrite H end.
  match goal with H : negb (Js.includes _ "tts") = true |- _ =>
    apply negb_true_iff in H end.
  repeat split; eauto.
Qed.

(** Filtering and mapping keep a list free of duplicates under [f]. *)
Lemma NoDup_map_filter {A B} (f : A -> B) (g : A -> bool) (l : list A) :
  NoDup (map f l) -> NoDup (map f (List.filter g l)).
Proof.
  induction l as [|x l IH]; simpl; [auto|].
  intros N. apply NoDup_cons in N. destruct N as [Nx N].
  destruct (g x); simpl; [|auto].
  apply NoDup_cons. split; [|auto].
  intros C. apply Nx. apply list_elem_of_In in C. apply list_elem_of_In.
  apply in_map_iff in C. destruct C as (y & E & Hy).
  apply filter_In in Hy. apply in_map_iff. exists y. tauto.
Qed.

(** X11. The merge returns each id once: when the API lists no id twice
    and the provider's table of the catalog holds no id twice, no two
    models of the merged list have the same id. *)
Theorem enrichWithModelsDev_no_duplicate_ids :
  forall (localeCompare : string -> string -> comparison)
         (c : ModelsDevCache) (p : APIProvider) (apiModels : list FetchedModel),
    NoDup (map id apiModels) ->
    NoDup (map md_id (obj_values (catalog_models c p))) ->
    NoDup (map id (enriched_models localeCompare c apiModels p)).
Proof.
  intros lc c p apiModels Napi Ncat.
  destruct (merge_throws c p apiModels) eqn:T.
  { unfold enriched_models. rewrite (enrichWithModelsDev_thrown lc c apiModels p T).
    constructor. }
  destruct (enrichWithModelsDev_normal lc c apiModels p T) as (enriched & E & F).
  rewrite (enriched_models_normal _ _ _ _ _ _ E), map_app.
  assert (Ids : map id enriched = map id apiModels).
  { destruct (provider_catalog c p) as [pd|].
    - exact (Forall2_enrich_ids (mp_models pd) apiModels enriched F).
    - now subst. }
  rewrite Ids.
  apply NoDup_app. split; [exact Napi|split].
  - intros i Hi Ha. apply list_elem_of_In in Hi, Ha.
    apply in_map_iff in Ha. destruct Ha as (a & <- & Ha).
    unfold additional_models in Ha. apply filter_In in Ha.
    destruct Ha as [_ Ha]. apply negb_true_iff in Ha.
    apply (proj2 (arr_includes_In _ _)) in Hi.
    discriminate (eq_trans (eq_sym Hi) Ha).
  - unfold additional_models. apply NoDup_map_filter.
    unfold getModelsFromModelsDev, catalog_models in *.
    destruct (provider_catalog c p) as [pd|]; [|constructor].
    rewrite (Permutation_map id (sort_Permutation (by_name lc) _)).
    rewrite map_map. simpl. now apply NoDup_map_filter.
Qed.

Lemma enrichWithModelsDev_no_duplicate_ids_witness :
  let c := modelsDevCache sample_service in
  let api := [openai_model {| oa_id := "gpt-4o"; oa_created := 0; oa_owned_by := "system" |};
              openai_model {| oa_id := "o3-mini"; oa_created := 0; oa_owned_by := "system" |}] in
  map id (enriched_models sample_collation c api openai) = ["gpt-4o"; "o3-mini"; "gpt-4.1"]
  /\ NoDup (map id (enriched_models sample_collation c api openai)).
Proof.
  intros c api. split; [reflexivity|].
  apply (enrichWithModelsDev_no_duplicate_ids sample_collation c openai api).
  - apply (proj2 (NoDup_ListNoDup _)). repeat constructor; simpl; intuition discriminate.
  - apply (proj2 (NoDup_ListNoDup _)). repeat constructor; simpl; intuition discriminate.
Defined.

(** ** What a call of [fetchModels] sends and stores *)

Lemma network_calls_app (a b : list Event) :
  network_calls (a ++ b) = (network_calls a ++ network_calls b)%list.
Proof. apply List.filter_app. Qed.

Lemma ensureModelsDevData_requests (x : CatalogExchange) (st : Service) :
  network_calls (trace_of (ensureModelsDevData x) st)
  = catalog_requests (modelsDevCache st) (now_at_check x).
Proof.
  unfold catalog_requests, trace_of.
  destruct (catalog_fresh (modelsDevCache st) (now_at_check x)) eqn:F.
  - now rewrite ensureModelsDevData_fresh.
  - rewrite ensureModelsDevData_stale by exact F. simpl.
    destruct (response x); reflexivity.
Qed.

Lemma fetchProviderModels_requests
    (p : APIProvider) (options : option ModelFetchOptions) (l : ListingResponse) :
  network_calls (trace_of (fetchProviderModels p options l) new_service)
  = if provider_contacted p options then [ProviderRequest p] else [].
Proof.
  unfold trace_of, fetchProviderModels, fetchListedModels, fetchAzureModels,
    provider_contacted, has_endpoint, bind, emit, ret.
  destruct p, l as [[|n] listed|message]; simpl; try reflexivity;
    destruct options as [[[e|] v f]|]; simpl; try reflexivity;
    destruct (Js.truthy e); reflexivity.
Qed.

Lemma merge_log_requests
    (localeCompare : string -> string -> comparison)
    (c : ModelsDevCache) (ms : list FetchedModel) (p : APIProvider) :
  network_calls (merge_log localeCompare c ms p) = [].
Proof.
  assert (L : network_calls
                match enrichWithModelsDev localeCompare c ms p with
                | Normal (_, logged) => logged
                | Thrown _ => []
                end = []).
  { unfold enrichWithModelsDev. destruct (provider_catalog c p); [|reflexivity].
    destruct (try_map _ ms); [|reflexivity].
    now destruct (additional_models localeCompare c ms p). }
  unfold merge_log. now destruct p.
Qed.

(** The requests among the events that precede the merge. *)
Lemma events_before_merge_requests
    (p : APIProvider) (options : option ModelFetchOptions) (env : Env) (st : Service) :
  network_calls (events_before_merge p options env st)
  = (catalog_requests (modelsDevCache st) (now_at_check (catalog env))
     ++ if provider_contacted p options then [ProviderRequest p] else [])%list.
Proof.
  unfold events_before_merge.
  rewrite !network_calls_app, fetchProviderModels_requests.
  replace (network_calls
             match provider_outcome p options (listing env) with
             | Fetched _ => []
             | FetchFailed message => [ConsoleWarn (api_failed_line p message)]
             end) with (@nil Event)
    by (now destruct (provider_outcome p options (listing env))).
  replace (network_calls (catalog_lines (modelsDevCache st) (catalog env)))
    with (@nil Event).
  - rewrite !app_nil_r. f_equal.
    unfold catalog_requests.
    now destruct (catalog_fresh (modelsDevCache st) (now_at_check (catalog env))).
  - unfold catalog_lines.
    destruct (catalog_fresh (modelsDevCache st) (now_at_check (catalog env)));
      [reflexivity|].
    now destruct (response (catalog env)).
Qed.

(** The requests of a call that has a key and is not served from the
    cache. *)
Lemma fetchModels_miss_requests
    (localeCompare : string -> string -> comparison)
    (p : APIProvider) (apiKey : string)
    (options : option ModelFetchOptions) (env : Env) (st : Service) :
  no_api_key apiKey = false ->
  cache_hit st options (cacheKey p apiKey) (now_at_cache_check env) = None ->
  network_calls (trace_of (fetchModels localeCompare p apiKey options env) st)
  = (catalog_requests (modelsDevCache st) (now_at_check (catalog env))
     ++ if provider_contacted p options then [ProviderRequest p] else [])%list.
Proof.
  intros K Hit.
  destruct (merge_throws (refreshed env st) p
              (fst (tier_found localeCompare p options env st))) eqn:T.
  - destruct (fetchModels_miss_throws localeCompare p apiKey options env st K Hit T)
      as (_ & _ & ->).
    rewrite network_calls_app, events_before_merge_requests. simpl.
    now rewrite app_nil_r.
  - destruct (fetchModels_miss_returns localeCompare p apiKey options env st K Hit T)
      as (_ & _ & ->).
    rewrite network_calls_app, events_before_merge_requests, merge_log_requests.
    now rewrite app_nil_r.
Qed.

(** X12. The requests of a call of [fetchModels], in full: a call
    without a key sends at most the catalog request; a call served from
    the cache sends nothing; any other call sends the catalog request when
    the snapshot is stale, then one listing request to the provider,
    unless the provider is Azure and no endpoint was given. *)
Theorem fetchModels_requests :
  forall (localeCompare : string -> string -> comparison)
         (p : APIProvider) (apiKey : string)
         (options : option ModelFetchOptions) (env : Env) (st : Service),
    network_calls (trace_of (fetchModels localeCompare p apiKey options env) st)
    = let refresh :=
        catalog_requests (modelsDevCache st) (now_at_check (catalog env)) in
      if no_api_key apiKey then refresh
      else
        match cache_hit st options (cacheKey p apiKey) (now_at_cache_check env) with
        | Some _ => []
        | None =>
            (refresh
             ++ if provider_contacted p options then [ProviderRequest p] else [])%list
        end.
Proof.
  intros lc p apiKey options env st. simpl.
  destruct (no_api_key apiKey) eqn:K.
  - destruct (fetchModels_no_key lc p apiKey options env st K) as (_ & _ & ->).
    apply ensureModelsDevData_requests.
  - destruct (cache_hit st options (cacheKey p apiKey) (now_at_cache_check env))
      as [cached|] eqn:Hit.
    + unfold trace_of.
      now rewrite (fetchModels_hit lc p apiKey options env st cached K Hit).
    + now apply fetchModels_miss_requests.
Qed.

(** X13. No call of [fetchModels], no refresh and no [clearCache]
    unloads the catalog: once data is held, data is held afterwards,
    whatever the endpoints answer. *)
Theorem catalog_data_kept :
  forall (localeCompare : string -> string -> comparison)
         (p : APIProvider) (apiKey : string)
         (options : option ModelFetchOptions) (env : Env)
         (q : option APIProvider) (st : Service),
    is_Some (data (modelsDevCache st)) ->
    is_Some (data (refreshed env st))
    /\ is_Some (data (modelsDevCache
                        (state_after (fetchModels localeCompare p apiKey options env) st)))
    /\ is_Some (data (modelsDevCache (clearCache q st))).
Proof.
  intros lc p apiKey options env q st D.
  assert (R : is_Some (data (refreshed env st))).
  { unfold refreshed, state_after.
    destruct (catalog_fresh (modelsDevCache st) (now_at_check (catalog env))) eqn:F.
    - now rewrite ensureModelsDevData_fresh.
    - rewrite ensureModelsDevData_stale by exact F. simpl.
      destruct (response (catalog env)); simpl; eauto. }
  split; [exact R|]. split.
  - destruct (fetchModels_modelsDevCache lc p apiKey options env st) as [-> | ->];
      assumption.
  - now destruct q.
Qed.

Lemma catalog_data_kept_witness :
  let env := {| now_at_cache_check := 5000000;
                catalog := {| now_at_check := 5000000;
                              response := HttpError "offline";
                              now_at_response := 5015000 |};
                listing := RequestFailed "offline";
                now_at_cache_set := 5015000 |} in
  catalog_fresh (modelsDevCache sample_service) 5000000 = false
  /\ is_Some (data (modelsDevCache sample_service))
  /\ is_Some (data (modelsDevCache
                      (state_after (fetchModels sample_collation gemini "k" None env)
                         sample_service))).
Proof.
  intros env.
  assert (D : is_Some (data (modelsDevCache sample_service)))
    by (eexists; reflexivity).
  split; [reflexivity|]. split; [exact D|].
  exact (proj1 (proj2 (catalog_data_kept sample_collation gemini "k" None env None
                         sample_service D))).
Defined.

Lemma cache_hit_forced (st : Service) (options : option ModelFetchOptions)
    (key : string) (now : Z) :
  (o ← options; forceRefresh o) = Some true ->
  cache_hit st options key now = None.
Proof. intros F. unfold cache_hit, not_forced. now rewrite F. Qed.

(** X14. A call with a key and [forceRefresh] set is never answered
    from the cache, however young the entry: its result has no
    [cachedAt] and the provider is asked (but for Azure without an
    endpoint).  Unless the merge of the provider's list throws, the entry
    under the call's key is replaced by the result, with the time of the
    write; when it throws, the call fails and leaves the cache as it
    was. *)
Theorem forceRefresh_replaces_entry :
  forall (localeCompare : string -> string -> comparison)
         (p : APIProvider) (apiKey : string)
         (options : option ModelFetchOptions) (env : Env) (st : Service),
    no_api_key apiKey = false ->
    (o ← options; forceRefresh o) = Some true ->
    let r := result_of (fetchModels localeCompare p apiKey options env) st in
    let st' := state_after (fetchModels localeCompare p apiKey options env) st in
    cachedAt r = None
    /\ (if outer_catch_entered p options env st
        then success r = false /\ cache st' = cache st
        else exists src,
               success r = true
               /\ source r = Some src
               /\ cache st' !! cacheKey p apiKey
                  = Some {| ce_models := models r;
                            ce_timestamp := now_at_cache_set env;
                            ce_source := src |})
    /\ (if provider_contacted p options
        then In (ProviderRequest p)
               (trace_of (fetchModels localeCompare p apiKey options env) st)
        else True).
Proof.
  intros lc p apiKey options env st K F r st'. subst r st'.
  pose proof (cache_hit_forced st options (cacheKey p apiKey)
                (now_at_cache_check env) F) as Hit.
  pose proof (fetchModels_miss_requests lc p apiKey options env st K Hit) as N.
  assert (Asked : if provider_contacted p options
                  then In (ProviderRequest p)
                         (trace_of (fetchModels lc p apiKey options env) st)
                  else True).
  { destruct (provider_contacted p options); [|exact I].
    assert (In (ProviderRequest p)
              (network_calls
                 (trace_of (fetchModels lc p apiKey options env) st))).
    { rewrite N. apply in_app_iff. right. now left. }
    unfold network_calls in H. now apply filter_In in H. }
  rewrite <- (merge_throws_outer_catch lc p options env st).
  destruct (merge_throws (refreshed env st) p
              (fst (tier_found lc p options env st))) eqn:T.
  - destruct (fetchModels_miss_throws lc p apiKey options env st K Hit T)
      as (-> & -> & _).
    simpl. split; [reflexivity|]. split; [|exact Asked].
    split; [reflexivity | apply ensureModelsDevData_cache].
  - destruct (fetchModels_miss_returns lc p apiKey options env st K Hit T)
      as (-> & -> & _).
    simpl. split; [reflexivity|]. split; [|exact Asked].
    eexists. split; [reflexivity|]. split; [reflexivity|]. apply lookup_insert_eq.
Qed.

Lemma forceRefresh_replaces_entry_witness :
  let opts := Some {| endpoint := None; apiVersion := None; forceRefresh := Some true |} in
  let st1 := state_after (fetchModels sample_collation openai "sk-test" None env_online)
               new_service in
  let r := result_of (fetchModels sample_collation openai "sk-test" opts env_later) st1 in
  let st2 := state_after (fetchModels sample_collation openai "sk-test" opts env_later)
               st1 in
  no_api_key "sk-test" = false
  /\ is_Some (fresh_entry st1 (cacheKey openai "sk-test") (now_at_cache_check env_later))
  /\ cachedAt r = None
  /\ ce_timestamp <$> cache st2 !! cacheKey openai "sk-test" = Some 256300.
Proof.
  intros opts st1 r st2.
  split; [reflexivity|]. split; [eexists; reflexivity|].
  destruct (forceRefresh_replaces_entry sample_collation openai "sk-test" opts
              env_later st1 eq_refl eq_refl) as (NoStamp & Entry & _).
  split; [exact NoStamp|].
  change (outer_catch_entered openai opts env_later st1) with false in Entry.
  destruct Entry as (src & _ & _ & Entry).
  fold st2 in Entry. now rewrite Entry.
Defined.

(** X15. A failure is cached like a success: after a call whose
    provider fetch failed, an unforced call with the same key within the
    five minutes of the TTL returns the fallback list of the first call,
    with its source, and does not ask the provider again, whatever the
    provider would answer now. *)
Theorem fallback_is_cached :
  forall (localeCompare : string -> string -> comparison)
         (p : APIProvider) (apiKey : string)
         (options1 options2 : option ModelFetchOptions)
         (env1 env2 : Env) (st : Service) (message : string),
    let r1 := result_of (fetchModels localeCompare p apiKey options1 env1) st in
    let st1 := state_after (fetchModels localeCompare p apiKey options1 env1) st in
    no_api_key apiKey = false ->
    cache_hit st options1 (cacheKey p apiKey) (now_at_cache_check env1) = None ->
    provider_outcome p options1 (listing env1) = FetchFailed message ->
    not_forced options2 = true ->
    now_at_cache_check env2 - now_at_cache_set env1 < CACHE_TTL ->
    source r1 <> Some api
    /\ fetchModels localeCompare p apiKey options2 env2 st1
       = ({| success := true; models := models r1; error := None;
             cachedAt := Some (now_at_cache_set env1); source := source r1 |},
          st1, []).
Proof.
  intros lc p apiKey o1 o2 env1 env2 st message r1 st1 K Hit F NF Young.
  subst r1 st1.
  destruct (tier_found_failed lc p o1 env1 st message F) as (Src & _ & T).
  destruct (fetchModels_miss_returns lc p apiKey o1 env1 st K Hit T)
    as (-> & -> & _).
  simpl. split.
  - rewrite Src. destruct (catalog_yields (refreshed env1 st) p); discriminate.
  - apply (fetchModels_hit lc p apiKey o2 env2 _
             {| ce_models := tier_merged lc p o1 env1 st;
                ce_timestamp := now_at_cache_set env1;
                ce_source := snd (tier_found lc p o1 env1 st) |} K).
    unfold cache_hit, fresh_entry. rewrite NF. simpl.
    rewrite lookup_insert_eq. simpl.
    apply Z.ltb_lt in Young. now rewrite Young.
Qed.

Lemma fallback_is_cached_witness :
  let env2 := {| now_at_cache_check := 200000;
                 catalog := {| now_at_check := 200000;
                               response := Http200 sample_data (Some "v1");
                               now_at_response := 200300 |};
                 listing := Answered 1 (getStaticFallbackModels anthropic);
                 now_at_cache_set := 200400 |} in
  let st1 := state_after (fetchModels sample_collation anthropic "sk-ant-1" None env_offline)
               new_service in
  provider_outcome anthropic None (listing env_offline)
  = FetchFailed "Request failed with status code 401"
  /\ now_at_cache_check env2 - now_at_cache_set env_offline < CACHE_TTL
  /\ source (result_of (fetchModels sample_collation anthropic "sk-ant-1" None env2) st1)
     = Some static
  /\ trace_of (fetchModels sample_collation anthropic "sk-ant-1" None env2) st1 = [].
Proof.
  intros env2 st1.
  pose proof (proj2 (fallback_is_cached sample_collation anthropic "sk-ant-1" None None
                       env_offline env2 new_service _
                       eq_refl eq_refl eq_refl eq_refl eq_refl)) as E.
  split; [reflexivity|]. split; [reflexivity|].
  unfold result_of, trace_of. fold st1 in E. rewrite E. split; reflexivity.
Defined.

(** X16. OpenRouter is served without the catalog: it has no catalog
    namespace.  Without a key the call fails with the static list; with a
    key, a call that reaches the provider returns the provider's list as
    the fetcher made it, from the source "api", or else the static list
    from the source "static", never a list from "models.dev". *)
Theorem openrouter_skips_catalog :
  forall (localeCompare : string -> string -> comparison)
         (apiKey : string) (options : option ModelFetchOptions)
         (env : Env) (st : Service),
    let r := result_of (fetchModels localeCompare openrouter apiKey options env) st in
    if no_api_key apiKey
    then success r = false /\ models r = getStaticFallbackModels openrouter
         /\ source r = Some static
    else
      match cache_hit st options (cacheKey openrouter apiKey) (now_at_cache_check env) with
      | Some cached => models r = ce_models cached
      | None =>
          match listing env with
          | Answered _ listed =>
              success r = true /\ models r = listed /\ source r = Some api
          | RequestFailed _ =>
              success r = true /\ models r = getStaticFallbackModels openrouter
              /\ source r = Some static
          end
      end.
Proof.
  intros lc apiKey options env st r. subst r.
  assert (G : getModelsFromModelsDev lc (refreshed env st) openrouter = []).
  { unfold getModelsFromModelsDev, provider_catalog.
    now destruct (data (refreshed env st)). }
  destruct (no_api_key apiKey) eqn:K.
  - destruct (fetchModels_no_key lc openrouter apiKey options env st K)
      as (-> & _ & _).
    rewrite G. repeat split.
  - destruct (cache_hit st options (cacheKey openrouter apiKey)
                (now_at_cache_check env)) as [cached|] eqn:Hit.
    + unfold result_of.
      now rewrite (fetchModels_hit lc openrouter apiKey options env st cached K Hit).
    + assert (T : merge_throws (refreshed env st) openrouter
                    (fst (tier_found lc openrouter options env st)) = false).
      { unfold merge_throws. now rewrite provider_catalog_openrouter. }
      destruct (fetchModels_miss_returns lc openrouter apiKey options env st K Hit T)
        as (-> & _ & _).
      unfold tier_merged, tier_found. rewrite G.
      unfold provider_outcome, result_of, fetchProviderModels, fetchListedModels,
        bind, emit, ret.
      destruct (listing env); simpl; repeat split.
Qed.

(** X17. Azure's fetcher fails without asking when no endpoint is given,
    fails when the endpoint lists nothing, and lets no message of the
    underlying request through: its error is one of two fixed texts.  It
    returns a list only for an endpoint that was given and listed at
    least one entry. *)
Theorem fetchAzureModels_outcome :
  forall (options : option ModelFetchOptions) (l : ListingResponse) (st : Service),
    match result_of (fetchProviderModels azure_openai options l) st with
    | Fetched listed =>
        has_endpoint options = true
        /\ exists n, l = Answered (S n) listed
    | FetchFailed message =>
        if has_endpoint options
        then message = "Azure models list not available, falling back to catalog"
             /\ match l with Answered (S _) _ => False | _ => True end
        else message = "Azure OpenAI requires an endpoint URL"
             /\ trace_of (fetchProviderModels azure_openai options l) st = []
    end.
Proof.
  intros options l st.
  unfold result_of, trace_of, fetchProviderModels, fetchAzureModels, has_endpoint,
    bind, emit, ret.
  destruct (match options ≫= endpoint with
            | Some e => Js.truthy e
            | None => false
            end) eqn:E; simpl.
  - destruct l as [[|n] listed|message]; simpl; eauto.
  - split; reflexivity.
Qed.

(** ** Invalidation, composed *)

Lemma service_eq (a b : Service) :
  cache a = cache b -> modelsDevCache a = modelsDevCache b -> a = b.
Proof. destruct a, b; simpl; congruence. Qed.

Lemma clearCache_all_lookup (st : Service) (k : string) :
  cache (clearCache None st) !! k = None.
Proof. apply lookup_empty. Qed.

(** X18. Invalidations compose as deletions do: clearing a provider
    twice is clearing it once, clearing two providers gives the same
    cache in either order, and clearing everything before or after
    clearing one provider is clearing everything. *)
Theorem clearCache_compose :
  forall (p q : APIProvider) (st : Service),
    clearCache (Some p) (clearCache (Some p) st) = clearCache (Some p) st
    /\ clearCache (Some p) (clearCache (Some q) st)
       = clearCache (Some q) (clearCache (Some p) st)
    /\ clearCache None (clearCache (Some p) st) = clearCache None st
    /\ clearCache (Some p) (clearCache None st) = clearCache None st.
Proof.
  intros p q st. repeat split; apply service_eq; try reflexivity;
    apply map_eq; intros k;
    rewrite ?clearCache_lookup, ?clearCache_all_lookup, ?clearCache_lookup;
    repeat match goal with
           | |- context [if ?b then _ else _] => destruct b
           end; reflexivity.
Qed.

(** The keys of the cache stay keys built by [cacheKey]. *)
Lemma cache_keys_built_new : cache_keys_built new_service.
Proof. intros k [e E]. simpl in E. now rewrite lookup_empty in E. Qed.

Lemma cache_keys_built_clearCache (q : option APIProvider) (st : Service) :
  cache_keys_built st -> cache_keys_built (clearCache q st).
Proof.
  intros B k [e E]. destruct q as [q|].
  - rewrite clearCache_lookup in E.
    destruct (Js.startsWith k (provider_tag q)); [discriminate|]. eauto.
  - now rewrite clearCache_all_lookup in E.
Qed.

(** A call leaves the result cache as it was, or writes one entry under
    its own key. *)
Lemma fetchModels_cache_cases
    (localeCompare : string -> string -> comparison)
    (p : APIProvider) (apiKey : string)
    (options : option ModelFetchOptions) (env : Env) (st : Service) :
  let st' := state_after (fetchModels localeCompare p apiKey options env) st in
  cache st' = cache st
  \/ exists e : CacheEntry, cache st' = <[cacheKey p apiKey := e]> (cache st).
Proof.
  simpl. destruct (no_api_key apiKey) eqn:K.
  - destruct (fetchModels_no_key localeCompare p apiKey options env st K)
      as (_ & -> & _).
    left. apply ensureModelsDevData_cache.
  - destruct (cache_hit st options (cacheKey p apiKey) (now_at_cache_check env))
      as [cached|] eqn:Hit.
    + unfold state_after.
      rewrite (fetchModels_hit localeCompare p apiKey options env st cached K Hit).
      now left.
    + destruct (merge_throws (refreshed env st) p
                  (fst (tier_found localeCompare p options env st))) eqn:T.
      * destruct (fetchModels_miss_throws localeCompare p apiKey options env st
                    K Hit T) as (_ & -> & _).
        left. apply ensureModelsDevData_cache.
      * destruct (fetchModels_miss_returns localeCompare p apiKey options env st
                    K Hit T) as (_ & -> & _).
        right. eexists. simpl. now rewrite ensureModelsDevData_cache.
Qed.

Lemma cache_keys_built_fetchModels
    (localeCompare : string -> string -> comparison)
    (p : APIProvider) (apiKey : string)
    (options : option ModelFetchOptions) (env : Env) (st : Service) :
  cache_keys_built st ->
  cache_keys_built (state_after (fetchModels localeCompare p apiKey options env) st).
Proof.
  intros B k [e E].
  destruct (fetchModels_cache_cases localeCompare p apiKey options env st)
    as [S | [e' S]]; rewrite S in E.
  - eauto.
  - destruct (decide (cacheKey p apiKey = k)) as [<-|N]; [eauto|].
    rewrite lookup_insert_ne in E by exact N. eauto.
Qed.

(** X19. Every key that [fetchModels] ever puts in the result cache
    begins with the tag of one of the five providers, and the
    invalidations keep it so; hence, on a cache filled by the service,
    clearing the five providers one after the other is clearing
    everything. *)
Theorem clear_each_provider_clears_all :
  forall (localeCompare : string -> string -> comparison)
         (p : APIProvider) (apiKey : string)
         (options : option ModelFetchOptions) (env : Env)
         (q : option APIProvider) (st : Service),
    cache_keys_built st ->
    cache_keys_built (state_after (fetchModels localeCompare p apiKey options env) st)
    /\ cache_keys_built (clearCache q st)
    /\ clear_each_provider st = clearCache None st.
Proof.
  intros lc p apiKey options env q st B.
  split; [now apply cache_keys_built_fetchModels|].
  split; [now apply cache_keys_built_clearCache|].
  apply service_eq; [|reflexivity].
  apply map_eq. intros k. rewrite clearCache_all_lookup.
  unfold clear_each_provider. cbn [foldr]. rewrite !clearCache_lookup.
  destruct (cache st !! k) as [e|] eqn:E.
  - destruct (B k (ex_intro _ e E)) as (r & key & ->).
    rewrite !cacheKey_startsWith. now destruct r.
  - repeat match goal with
           | |- context [if ?b then _ else _] => destruct b
           end; reflexivity.
Qed.

Lemma clear_each_provider_clears_all_witness :
  let st1 := state_after (fetchModels sample_collation openai "sk-test" None env_online)
               new_service in
  let st2 := state_after (fetchModels sample_collation gemini "g-key" None env_offline)
               st1 in
  cache_keys_built st2
  /\ size (cache st2) = 2%nat
  /\ clear_each_provider st2 = clearCache None st2.
Proof.
  intros st1 st2.
  assert (B1 : cache_keys_built st1).
  { exact (proj1 (clear_each_provider_clears_all sample_collation openai "sk-test"
                    None env_online None new_service cache_keys_built_new)). }
  assert (B2 : cache_keys_built st2).
  { exact (proj1 (clear_each_provider_clears_all sample_collation gemini "g-key"
                    None env_offline None st1 B1)). }
  split; [exact B2|]. split; [reflexivity|].
  exact (proj2 (proj2 (clear_each_provider_clears_all sample_collation gemini "g-key"
                         None env_offline None st2 B2))).
Defined.

(** ** OpenAI's fetcher *)

Lemma prefix_app (p s : string) :
  String.prefix p s = true -> exists r, s = p ++ r.
Proof.
  revert s. induction p as [|c p IH]; intros s H.
  - exists s. reflexivity.
  - destruct s as [|d s]; [discriminate|]. simpl in H.
    destruct (ascii_dec c d) as [<-|]; [|discriminate].
    destruct (IH s H) as [r ->]. exists r. reflexivity.
Qed.

(** An id with an excluded prefix has no chat prefix. *)
Lemma openai_keeps_chat_prefix (m : OpenAIModel) :
  openai_keeps m
  = existsb (fun p => Js.startsWith (Js.toLowerCase (oa_id m)) p)
      openai_chatPrefixes.
Proof.
  unfold openai_keeps.
  destruct (existsb (fun p => Js.startsWith (Js.toLowerCase (oa_id m)) p)
              openai_excludePrefixes) eqn:X; [|reflexivity].
  apply existsb_exists in X. destruct X as (p & Hp & S).
  apply prefix_app in S. destruct S as [r ->].
  simpl in Hp.
  repeat (destruct Hp as [<- | Hp]; [reflexivity|]). destruct Hp.
Qed.

(** X20. The exclusion list of [fetchOpenAIModels] decides nothing: no
    id that begins with one of its six prefixes begins with a chat prefix,
    so the fetcher returns, converted, exactly the listed models whose
    lower-cased id begins with one of the seven chat prefixes; each has
    its id for a name and neither price nor context length. *)
Theorem openai_filter_is_chat_prefix :
  forall (localeCompare : string -> string -> comparison)
         (raw : list OpenAIModel),
    Permutation (openai_listed localeCompare raw)
      (map openai_model
         (List.filter
            (fun m =>
               existsb (fun p => Js.startsWith (Js.toLowerCase (oa_id m)) p)
                 openai_chatPrefixes)
            raw))
    /\ Forall
         (fun m => name m = id m /\ provider m = openai
                   /\ pricing m = None /\ contextLength m = None)
         (openai_listed localeCompare raw).
Proof.
  intros lc raw. split.
  - unfold openai_listed. rewrite sort_Permutation.
    now rewrite (List.filter_ext _ _ openai_keeps_chat_prefix).
  - apply Forall_forall. intros m Hm. apply list_elem_of_In in Hm.
    unfold openai_listed in Hm.
    apply (Permutation_in _ (sort_Permutation _ _)) in Hm.
    apply in_map_iff in Hm. destruct Hm as (o & <- & _).
    repeat split.
Qed.

(** No id that [fetchOpenAIModels] keeps is the name of a member
    inherited from [Object.prototype]: none of these names begins with a
    chat prefix. *)
Lemma openai_id_not_inherited (o : OpenAIModel) :
  openai_keeps o = true ->
  existsb (String.eqb (oa_id o)) Object_prototype_names = false.
Proof.
  intros Keep. rewrite openai_keeps_chat_prefix in Keep.
  destruct (existsb (String.eqb (oa_id o)) Object_prototype_names) eqn:X;
    [|reflexivity].
  apply existsb_exists in X. destruct X as (n & Hn & E).
  apply String.eqb_eq in E. rewrite E in Keep.
  unfold Object_prototype_names in Hn. simpl in Hn.
  repeat (destruct Hn as [<- | Hn]; [discriminate Keep|]). destruct Hn.
Qed.

(** What [fetchOpenAIModels] returns: no price, no context length. *)
Lemma openai_listed_In
    (localeCompare : string -> string -> comparison)
    (raw : list OpenAIModel) (m : FetchedModel) :
  In m (openai_listed localeCompare raw) ->
  exists o, In o raw /\ openai_keeps o = true /\ m = openai_model o.
Proof.
  unfold openai_listed. intros H.
  apply (Permutation_in _ (sort_Permutation _ _)) in H.
  apply in_map_iff in H. destruct H as (o & <- & Ho).
  apply filter_In in Ho. exists o. tauto.
Qed.

(** X21. For OpenAI, a call that reaches the provider and gets its list
    answers from the source "api"; each listed model stands at its place
    in the result under its id, which begins, lower-cased, with a chat
    prefix, and its price is the catalog's price for that id, or none
    when the catalog has no entry for it: the provider's list itself
    carries no price. *)
Theorem openai_prices_come_from_catalog :
  forall (localeCompare : string -> string -> comparison)
         (apiKey : string) (options : option ModelFetchOptions)
         (env : Env) (st : Service) (raw : list OpenAIModel),
    no_api_key apiKey = false ->
    cache_hit st options (cacheKey openai apiKey) (now_at_cache_check env) = None ->
    listing env = openai_answer localeCompare raw ->
    let r := result_of (fetchModels localeCompare openai apiKey options env) st in
    source r = Some api
    /\ forall (i : nat) (m : FetchedModel),
         openai_listed localeCompare raw !! i = Some m ->
         existsb (fun p => Js.startsWith (Js.toLowerCase (id m)) p)
           openai_chatPrefixes = true
         /\ exists m',
              models r !! i = Some m'
              /\ id m' = id m
              /\ pricing m'
                 = (fun e => pricing_of_cost (md_cost e))
                   <$> obj_get (catalog_models (refreshed env st) openai) (id m).
Proof.
  intros lc apiKey options env st raw K Hit L r. subst r.
  assert (Found : tier_found lc openai options env st = (openai_listed lc raw, api)).
  { unfold tier_found. rewrite L. reflexivity. }
  assert (NoName : forall m cat,
             In m (openai_listed lc raw) -> inherited_only cat (id m) = false).
  { intros m cat Hm. destruct (openai_listed_In lc raw m Hm) as (o & _ & Keep & ->).
    apply inherited_only_named. now apply openai_id_not_inherited. }
  assert (T : merge_throws (refreshed env st) openai (openai_listed lc raw) = false).
  { unfold merge_throws.
    destruct (provider_catalog (refreshed env st) openai) as [pd|]; [|reflexivity].
    unfold unpriced_inherited.
    destruct (existsb _ (openai_listed lc raw)) eqn:X; [|reflexivity].
    apply existsb_exists in X. destruct X as (m & Hm & Hx).
    destruct (pricing m); [discriminate|].
    now rewrite (NoName m (mp_models pd) Hm) in Hx. }
  destruct (fetchModels_miss_returns lc openai apiKey options env st K Hit)
    as (-> & _ & _); [now rewrite Found|].
  unfold tier_merged. rewrite Found. simpl.
  split; [reflexivity|]. intros i m Hi.
  assert (Hm : In m (openai_listed lc raw)).
  { apply list_elem_of_In. eapply list_elem_of_lookup_2. exact Hi. }
  split.
  - destruct (openai_listed_In lc raw m Hm) as (o & _ & Keep & ->).
    rewrite openai_keeps_chat_prefix in Keep. exact Keep.
  - assert (P : pricing m = None).
    { now destruct (openai_listed_In lc raw m Hm) as (o & _ & _ & ->). }
    destruct (enrichWithModelsDev_normal lc (refreshed env st) (openai_listed lc raw)
                openai T) as (enriched & E & F).
    rewrite (enriched_models_normal _ _ _ _ _ _ E).
    unfold catalog_models.
    destruct (provider_catalog (refreshed env st) openai) as [pd|].
    + destruct (Forall2_lookup_l _ _ _ _ _ F Hi) as (m' & Hm' & Em).
      exists m'. split; [now apply lookup_app_l_Some|].
      split; [now apply (enrich_model_id (mp_models pd))|].
      destruct (obj_get (mp_models pd) (id m)) as [e|] eqn:G.
      * rewrite (enrich_model_own _ _ _ G), P in Em. now injection Em as <-.
      * rewrite (enrich_model_undefined _ _ G (NoName m _ Hm)) in Em.
        injection Em as <-. exact P.
    + subst enriched. exists m. split; [now apply lookup_app_l_Some|].
      split; [reflexivity | exact P].
Qed.

Lemma openai_prices_come_from_catalog_witness :
  let raw := [{| oa_id := "whisper-1"; oa_created := 1; oa_owned_by := "openai-internal" |};
              {| oa_id := "o3-mini"; oa_created := 2; oa_owned_by := "system" |};
              {| oa_id := "gpt-4o"; oa_created := 3; oa_owned_by := "system" |}] in
  let env := {| now_at_cache_check := 1000;
                catalog := {| now_at_check := 1000;
                              response := Http200 sample_data (Some "v1");
                              now_at_response := 1200 |};
                listing := openai_answer sample_collation raw;
                now_at_cache_set := 1300 |} in
  let r := result_of (fetchModels sample_collation openai "sk-test" None env) new_service in
  map (fun m => (id m, output <$> pricing m)) (models r)
  = [("gpt-4o", Some (10 # 1)); ("o3-mini", None); ("gpt-4.1", Some (8 # 1))]
  /\ source r = Some api.
Proof.
  intros raw env r. split; [reflexivity|].
  exact (proj1 (openai_prices_come_from_catalog sample_collation "sk-test" None env
                  new_service raw eq_refl eq_refl eq_refl)).
Defined.

(** ** The key shown by the settings dialog *)

Lemma substring_all (s : string) : String.substring 0 (String.length s) s = s.
Proof. induction s as [|c s IH]; simpl; congruence. Qed.

Lemma substring_split (n : nat) :
  forall s : string,
    (n <= String.length s)%nat ->
    s = String.substring 0 n s
        ++ String.substring n (String.length s - n) s.
Proof.
  induction n as [|n IH]; intros s H.
  - rewrite Nat.sub_0_r, substring_all. now destruct s.
  - destruct s as [|c s]; simpl in H; [lia|].
    simpl. rewrite (IH s ltac:(lia)) at 1. reflexivity.
Qed.

Lemma substring_length (n : nat) :
  forall (m : nat) (s : string),
    (n + m <= String.length s)%nat ->
    String.length (String.substring n m s) = m.
Proof.
  induction n as [|n IHn].
  - induction m as [|m IHm]; intros s H; [now destruct s|].
    destruct s as [|c s]; simpl in H; [lia|].
    simpl. rewrite IHm by lia. reflexivity.
  - intros m s H. destruct s as [|c s]; simpl in H; [lia|].
    simpl. apply IHn. lia.
Qed.

Lemma substring_substring (n : nat) :
  forall (k m : nat) (s : string),
    (n <= String.length s)%nat ->
    String.substring k m (String.substring n (String.length s - n) s)
    = String.substring (n + k) m s.
Proof.
  induction n as [|n IH]; intros k m s H.
  - now rewrite Nat.sub_0_r, substring_all.
  - destruct s as [|c s]; simpl in H; [lia|].
    simpl. apply IH. lia.
Qed.

(** X22. [maskApiKey] shows nothing of a key shorter than ten code
    units.  Of a longer key it shows the first four and the last four
    code units around three dots, and nothing of what lies between. *)
Theorem maskApiKey_shows_ends :
  forall key : string,
    if (String.length key <? 10)%nat
    then SettingsDialog.maskApiKey key = ""
    else exists first middle last : string,
           key = first ++ middle ++ last
           /\ String.length first = 4%nat
           /\ String.length last = 4%nat
           /\ SettingsDialog.maskApiKey key = first ++ "..." ++ last.
Proof.
  intros key. unfold SettingsDialog.maskApiKey.
  destruct (String.length key <? 10)%nat eqn:L.
  - now rewrite orb_true_r.
  - apply Nat.ltb_ge in L.
    assert (T : Js.truthy key = true) by (destruct key; [simpl in L; lia | reflexivity]).
    rewrite T. simpl negb. simpl orb.
    set (rest := String.substring 4 (String.length key - 4) key).
    assert (Lr : String.length rest = (String.length key - 4)%nat)
      by (apply substring_length; lia).
    exists (String.substring 0 4 key),
           (String.substring 0 (String.length key - 8) rest),
           (String.substring (String.length key - 4) 4 key).
    split; [|split; [|split]].
    + rewrite (substring_split 4 key) at 1 by lia. f_equal.
      fold rest. rewrite (substring_split (String.length key - 8) rest) at 1 by lia.
      f_equal. rewrite Lr.
      replace (String.length key - 4 - (String.length key - 8))%nat with 4%nat by lia.
      unfold rest. rewrite substring_substring by lia.
      f_equal. lia.
    + apply substring_length. lia.
    + apply substring_length. lia.
    + reflexivity.
Qed.

(** ** The client factory *)

(** X23. [createProviderClient] gives a client exactly when the stored
    key is one that [fetchModels] too takes for a key (present and not
    blank) and, for Azure, the endpoint is not empty once a slash at its
    end is dropped.  The client is of the configured provider's type, and
    it is an OpenAI-compatible one exactly for openai, azure-openai and
    openrouter. *)
Theorem createProviderClient_some_iff :
  forall config : ProviderClientFactory.Config,
    let made := fst (ProviderClientFactory.createProviderClient config) in
    let endpoint :=
      Js.strip_trailing_slash
        (default "" (ProviderClientFactory.azureEndpoint config)) in
    (is_Some made
     <-> (exists key, ProviderClientFactory.apiKey config = Some key
                      /\ no_api_key key = false)
         /\ (ProviderClientFactory.apiProvider config = azure_openai ->
             endpoint <> ""))
    /\ match made with
       | Some c =>
           ProviderClientFactory.client_type c
           = ProviderClientFactory.apiProvider config
           /\ ProviderClientFactory.getOpenAIClient c
              = match ProviderClientFactory.apiProvider config with
                | openai | azure_openai | openrouter => Some c
                | _ => None
                end
       | None => True
       end.
Proof.
  intros [k p e v]. unfold ProviderClientFactory.createProviderClient, no_api_key.
  simpl.
  assert (E : (match e with
               | Some e0 => if Js.truthy e0 then e0 else ""
               | None => ""
               end) = default "" e).
  { destruct e as [[|c s]|]; reflexivity. }
  rewrite E. clear E.
  destruct k as [key|].
  2:{ split; [|exact I]. split; [intros [c C]; discriminate|].
      intros [(key & C & _) _]. discriminate. }
  destruct (negb (Js.truthy key) || (String.length (Js.trim key) =? 0)%nat) eqn:B.
  { split; [|exact I]. split; [intros [c C]; discriminate|].
    intros [(key' & C & N) _]. injection C as <-. congruence. }
  assert (K : exists key', Some key = Some key' /\
                negb (Js.truthy key') || (String.length (Js.trim key') =? 0)%nat = false)
    by eauto.
  destruct p; simpl;
    try (split; [split; [intros _; split; [exact K | discriminate]
                        | intros _; eauto]
                | split; reflexivity]).
  destruct (Js.strip_trailing_slash (default "" e)) as [|c s] eqn:S; simpl.
  - split; [|exact I]. split; [intros [c C]; discriminate|].
    intros [_ N]. now contradiction N.
  - split; [|split; reflexivity].
    split; [intros _; split; [exact K | discriminate] | intros _; eauto].
Qed.

(** ** What a call leaves of the result cache *)

(** X24. [fetchModels] writes to the result cache only after asking for
    a list: a call without a key and a call served from the cache leave
    the cache as it was, and any other call changes nothing but the entry
    under its own key, which it writes unless the merge of the provider's
    list throws; then it leaves the cache as it was. *)
Theorem fetchModels_cache_frame :
  forall (localeCompare : string -> string -> comparison)
         (p : APIProvider) (apiKey : string)
         (options : option ModelFetchOptions) (env : Env) (st : Service),
    let st' := state_after (fetchModels localeCompare p apiKey options env) st in
    (forall k : string,
        cache st' !! k
        = if bool_decide (k = cacheKey p apiKey) then cache st' !! k
          else cache st !! k)
    /\ (if no_api_key apiKey then cache st' = cache st
        else
          match cache_hit st options (cacheKey p apiKey) (now_at_cache_check env) with
          | Some _ => st' = st
          | None =>
              if outer_catch_entered p options env st then cache st' = cache st
              else
                exists e, cache st' = <[cacheKey p apiKey := e]> (cache st)
                          /\ ce_timestamp e = now_at_cache_set env
          end).
Proof.
  intros lc p apiKey options env st st'. subst st'. split.
  - intros k. destruct (bool_decide (k = cacheKey p apiKey)) eqn:D; [reflexivity|].
    apply bool_decide_eq_false in D.
    destruct (fetchModels_cache_cases lc p apiKey options env st) as [-> | [e ->]];
      [reflexivity|].
    now apply lookup_insert_ne.
  - destruct (no_api_key apiKey) eqn:K.
    + destruct (fetchModels_no_key lc p apiKey options env st K) as (_ & -> & _).
      apply ensureModelsDevData_cache.
    + destruct (cache_hit st options (cacheKey p apiKey) (now_at_cache_check env))
        as [cached|] eqn:Hit.
      * unfold state_after.
        now rewrite (fetchModels_hit lc p apiKey options env st cached K Hit).
      * rewrite <- (merge_throws_outer_catch lc p options env st).
        destruct (merge_throws (refreshed env st) p
                    (fst (tier_found lc p options env st))) eqn:T.
        -- destruct (fetchModels_miss_throws lc p apiKey options env st K Hit T)
             as (_ & -> & _).
           apply ensureModelsDevData_cache.
        -- destruct (fetchModels_miss_returns lc p apiKey options env st K Hit T)
             as (_ & -> & _).
           eexists. simpl. rewrite ensureModelsDevData_cache.
           split; reflexivity.
Qed.
